(** * RichDEM grid I/O ([data_io.h]): a shallow embedding and its properties

    The header [data_io.h] holds three function templates:
    [output_ascii_data] (ArcGrid ASCII / OmniGlyph writer),
    [write_floating_data] (binary pair writer: [.hdr] + [.flt]) and
    [read_floating_data] (binary pair reader).

    The development is organised as follows.
    - [Text]: characters, decimal digits.
    - [IEEE]: binary floating-point data and their correct rounding.
    - [Num]: rendering of numbers ([%.*f], [%.*g]) and their scanning
      ([strtol], [strtod]).
    - [Stream]: files, the formatted output stream ([std::ofstream] with
      its [fixed] flag and precision), the binary input stream, [fscanf].
    - [Grid]: the cell-type interface and the [array2d<T>] container.
    - [DataIO]: the three functions of [data_io.h].
    - [Formats]: the file formats in the words of the specification.
    - [Examples]: sample grids.
    - Properties: the functions against the formats, then the statements
      of the specification, then further properties of the three
      functions: how they end and what they leave untouched, the layout of
      the data file, what the reader does not examine, and the grids that
      the binary pair gives back exactly. *)

From Stdlib Require Import ZArith Lia List Ascii String Bool.
From stdpp Require Import base list gmap strings.

Local Open Scope Z_scope.

(* ===================================================================== *)
(** * Text *)
(* ===================================================================== *)

Module Text.

(** File contents and formatted output are sequences of [char]. *)
Notation "'text'" := (list ascii).

(** A string literal of the source, as a sequence of characters. *)
Definition lit (s : string) : text := list_ascii_of_string s.

Definition show (t : text) : string := string_of_list_ascii t.

Definition code (c : ascii) : Z := Z.of_N (N_of_ascii c).
Definition chr (z : Z) : ascii := ascii_of_N (Z.to_N z).

(** [isdigit] and [isspace] of the "C" locale. *)
Definition is_digit (c : ascii) : bool := (48 <=? code c) && (code c <=? 57).
Definition is_space (c : ascii) : bool :=
  (code c =? 32) || ((9 <=? code c) && (code c <=? 13)).

Definition digit_char (d : Z) : ascii := chr (48 + d).
Definition digit_val (c : ascii) : Z := code c - 48.

(** Decimal digits of a non-negative integer, most significant first.
    The fuel is the binary length of [n], which bounds the decimal one. *)
Fixpoint digits_fuel (fuel : nat) (n : Z) (acc : text) : text :=
  match fuel with
  | O => acc
  | S f =>
      let acc' := digit_char (n mod 10) :: acc in
      if n <? 10 then acc' else digits_fuel f (n / 10) acc'
  end.

Definition dec_nat (n : Z) : text :=
  digits_fuel (S (Z.to_nat (Z.log2 n))) n [].

(** [operator<<] on an integer, and [%d] of [printf]. *)
Definition dec_int (z : Z) : text :=
  if z <? 0 then "-"%char :: dec_nat (- z) else dec_nat z.

(** Value of a run of decimal digits. *)
Definition digits_val (ds : text) : Z :=
  fold_left (fun a c => 10 * a + digit_val c) ds 0.

(** Longest prefix of characters satisfying [p], and the rest. *)
Fixpoint span (p : ascii -> bool) (s : text) : text * text :=
  match s with
  | c :: s' =>
      if p c then let '(a, b) := span p s' in (c :: a, b) else ([], s)
  | [] => ([], [])
  end.

(** Left padding with zeros up to [n] characters. *)
Definition pad_zeros (n : nat) (s : text) : text :=
  replicate (n - length s)%nat "0"%char ++ s.

(** ASCII case folding, for the case-insensitive spellings of [strtod]. *)
Definition to_lower (c : ascii) : ascii :=
  if (65 <=? code c) && (code c <=? 90) then chr (code c + 32) else c.

(** [s] starts with [p], compared without regard to case; the rest of [s]. *)
Fixpoint strip_prefix_ci (p s : text) : option text :=
  match p, s with
  | [], _ => Some s
  | a :: p', c :: s' =>
      if Ascii.eqb a (to_lower c) then strip_prefix_ci p' s' else None
  | _ :: _, [] => None
  end.

End Text.
Import Text.

(* ===================================================================== *)
(** * IEEE-754 binary floating point *)
(* ===================================================================== *)

Module IEEE.

(** A floating-point datum by value: the finite non-zero ones are
    [(-1)^s * m * 2^e].  NaN payloads are not tracked. *)
Inductive ieee : Type :=
| Zero (s : bool)
| Infinity (s : bool)
| NaN (s : bool)
| Finite (s : bool) (m : positive) (e : Z).

Definition ieee_eqb (a b : ieee) : bool :=
  match a, b with
  | Zero s, Zero s' | Infinity s, Infinity s' | NaN s, NaN s' => Bool.eqb s s'
  | Finite s m e, Finite s' m' e' => Bool.eqb s s' && (m =? m')%positive && (e =? e')
  | _, _ => false
  end.

Definition is_finite (v : ieee) : bool :=
  match v with Zero _ | Finite _ _ _ => true | _ => false end.

Definition sign_of (v : ieee) : bool :=
  match v with Zero s | Infinity s | NaN s | Finite s _ _ => s end.

(** A binary interchange format: width of the trailing significand field and
    of the exponent field. *)
Record format := { mant_bits : Z; exp_bits : Z }.

Definition binary32 : format := {| mant_bits := 23; exp_bits := 8 |}.
Definition binary64 : format := {| mant_bits := 52; exp_bits := 11 |}.

Section Format.
Variable f : format.

Definition prec : Z := mant_bits f + 1.
Definition emax : Z := 2 ^ (exp_bits f - 1).
Definition bias : Z := emax - 1.
(** Exponent of the unit in the last place of the subnormal numbers. *)
Definition emin : Z := 3 - emax - prec.

(** The unique representation of a finite number of the format. *)
Definition canonical (v : ieee) : bool :=
  match v with
  | Finite _ m e =>
      let d := Z.log2 (Z.pos m) + 1 in
      (e =? Z.max (d + e - prec) emin) && (e <=? emax - prec)
  | _ => true
  end.

(** Interpretation of a bit pattern (sign, biased exponent, fraction). *)
Definition decode (bits : Z) : ieee :=
  let frac := bits mod 2 ^ mant_bits f in
  let ex := (bits / 2 ^ mant_bits f) mod 2 ^ exp_bits f in
  let s := Z.odd (bits / 2 ^ (mant_bits f + exp_bits f)) in
  if ex =? 0 then
    if frac =? 0 then Zero s else Finite s (Z.to_pos frac) emin
  else if ex =? 2 ^ exp_bits f - 1 then
    if frac =? 0 then Infinity s else NaN s
  else Finite s (Z.to_pos (2 ^ mant_bits f + frac)) (ex - bias - mant_bits f).

(** Bit pattern of a canonical datum; NaN is the quiet NaN. *)
Definition encode (v : ieee) : Z :=
  let sgn := if sign_of v then 2 ^ (mant_bits f + exp_bits f) else 0 in
  sgn +
  match v with
  | Zero _ => 0
  | Infinity _ => (2 ^ exp_bits f - 1) * 2 ^ mant_bits f
  | NaN _ => (2 ^ exp_bits f - 1) * 2 ^ mant_bits f + 2 ^ (mant_bits f - 1)
  | Finite _ m e =>
      if Z.pos m <? 2 ^ mant_bits f then Z.pos m
      else (e + bias + mant_bits f) * 2 ^ mant_bits f + (Z.pos m - 2 ^ mant_bits f)
  end.

(** Nearest integer to [num / den], ties to even ([den > 0]). *)
Definition round_ne (num den : Z) : Z :=
  let q := num / den in
  let r := num mod den in
  if 2 * r <? den then q
  else if den <? 2 * r then q + 1
  else if Z.even q then q else q + 1.

(** [num / den * 2^(-e)] as a fraction. *)
Definition scale2 (num den e : Z) : Z * Z :=
  if 0 <=? e then (num, den * 2 ^ e) else (num * 2 ^ (- e), den).

(** Correctly rounded conversion of the positive rational [num / den]
    to the format (round to nearest, ties to even), with gradual
    underflow and overflow to infinity. *)
Definition round_rat (s : bool) (num den : Z) : ieee :=
  let d := Z.log2 num - Z.log2 den in
  let '(n1, d1) := scale2 num den d in
  let ilog := if d1 <=? n1 then d else d - 1 in
  let e := Z.max (ilog - prec + 1) emin in
  let '(n2, d2) := scale2 num den e in
  let m := round_ne n2 d2 in
  let '(m, e) := if m =? 2 ^ prec then (2 ^ (prec - 1), e + 1) else (m, e) in
  if m =? 0 then Zero s
  else if emax - prec <? e then Infinity s
  else Finite s (Z.to_pos m) e.
End Format.

End IEEE.
Import IEEE.

(* ===================================================================== *)
(** * Rendering and scanning of numbers ([printf], [strtod], [strtol]) *)
(* ===================================================================== *)

Module Num.

(** ** Output: [%.*f] and [%.*g] *)

(** [m * 2^e * 10^k], rounded to the nearest integer, ties to even.
    The conversion of [printf] is exact: it rounds the binary value
    itself, once. *)
Definition scaled10 (m : positive) (e k : Z) : Z :=
  round_ne (Z.pos m * 2 ^ Z.max e 0 * 10 ^ Z.max k 0)
           (2 ^ Z.max (- e) 0 * 10 ^ Z.max (- k) 0).

Definition sign_text (s : bool) : text := if s then lit "-" else [].

(** The digits [ds] of an integer [n], read as [n / 10^p]: at least one
    digit before the point, [p] digits after it, no point when [p = 0]. *)
Definition point_text (p : nat) (ds : text) : text :=
  let ds := pad_zeros (S p) ds in
  let k := (length ds - p)%nat in
  take k ds ++ match p with O => [] | S _ => "."%char :: drop k ds end.

(** [printf("%.*f", p, v)] for [0 <= p]. *)
Definition fmt_fixed (p : Z) (v : ieee) : text :=
  sign_text (sign_of v) ++
  match v with
  | NaN _ => lit "nan"
  | Infinity _ => lit "inf"
  | Zero _ => point_text (Z.to_nat p) (dec_nat 0)
  | Finite _ m e => point_text (Z.to_nat p) (dec_nat (scaled10 m e p))
  end.

(** Number of decimal digits of a positive integer. *)
Definition ndigits (n : Z) : Z := Z.of_nat (length (dec_nat n)).

(** A lower bound of the decimal exponent of [m * 2^e]. *)
Definition exp10_low (m : positive) (e : Z) : Z :=
  let b := Z.log2 (Z.pos m) + e in
  if 0 <=? b then ndigits (2 ^ b) - 1 else - ndigits (2 ^ (- b)).

(** The decimal exponent [X] of the [%e] conversion with [P] significant
    digits: the least [X] for which the rounded significand has [P] digits. *)
Fixpoint exp10_search (fuel : nat) (m : positive) (e P X : Z) : Z :=
  match fuel with
  | O => X
  | S n =>
      if scaled10 m e (P - 1 - X) <? 10 ^ P then X
      else exp10_search n m e P (X + 1)
  end.

Definition exp10 (m : positive) (e P : Z) : Z :=
  exp10_search 4 m e P (exp10_low m e).

(** Removal of the trailing zeros of a fraction, and of a point left bare. *)
Fixpoint drop_zeros (l : text) : text :=
  match l with
  | c :: l' => if Ascii.eqb c "0" then drop_zeros l' else l
  | [] => []
  end.

Definition strip_zeros (s : text) : text :=
  if existsb (Ascii.eqb ".") s then
    let r := drop_zeros (rev s) in
    rev match r with c :: r' => if Ascii.eqb c "." then r' else r | [] => r end
  else s.

(** [printf("%.*g", P, v)] for [0 <= P]. *)
Definition fmt_general (P : Z) (v : ieee) : text :=
  let P := if P =? 0 then 1 else P in
  sign_text (sign_of v) ++
  match v with
  | NaN _ => lit "nan"
  | Infinity _ => lit "inf"
  | Zero _ => lit "0"
  | Finite _ m e =>
      let X := exp10 m e P in
      let ds := dec_nat (scaled10 m e (P - 1 - X)) in
      if (-4 <=? X) && (X <? P) then
        strip_zeros (point_text (Z.to_nat (P - 1 - X)) ds)
      else
        strip_zeros (point_text (Z.to_nat (P - 1)) ds) ++ lit "e" ++
        (if X <? 0 then lit "-" else lit "+") ++ pad_zeros 2 (dec_nat (Z.abs X))
  end.

(** ** Input: the numbers that [fscanf] reads

    A numeric conversion of [fscanf] collects the characters of the input
    for as long as they can go on a number, and hands what it collected to
    [strtol] or [strtod]; it fails when that finds no number.  The
    collecting is that of the GNU C library (2.36).  It departs from the
    letter of ISO C (7.21.6.2) in three places, marked below: an exponent
    mark that no digit follows, the parenthesised sequence after [nan], and
    a hexadecimal prefix that only a point follows. *)

Definition lex_sign (s : text) : bool * text :=
  match s with
  | c :: r =>
      if Ascii.eqb c "-" then (true, r)
      else if Ascii.eqb c "+" then (false, r)
      else (false, s)
  | [] => (false, s)
  end.

(** [%d]: an optional sign and a non-empty run of decimal digits. *)
Definition lex_int (s : text) : option (Z * text) :=
  let '(neg, s1) := lex_sign s in
  let '(ds, s2) := span is_digit s1 in
  match ds with
  | [] => None
  | _ :: _ => Some (if neg then - digits_val ds else digits_val ds, s2)
  end.

(** [strtol] saturates at the bounds of [long]; the conversion [%d] then
    stores the result through an [int *]. *)
Definition clamp_long (z : Z) : Z := Z.max (- 2 ^ 63) (Z.min (2 ^ 63 - 1) z).
Definition to_int32 (z : Z) : Z := (z + 2 ^ 31) mod 2 ^ 32 - 2 ^ 31.

Definition is_xdigit (c : ascii) : bool :=
  is_digit c || ((97 <=? code (to_lower c)) && (code (to_lower c) <=? 102)).
Definition xdigit_val (c : ascii) : Z :=
  if is_digit c then digit_val c else code (to_lower c) - 87.
Definition xdigits_val (ds : text) : Z :=
  fold_left (fun a c => 16 * a + xdigit_val c) ds 0.

Inductive float_token : Type :=
| TokInf
| TokNaN
| TokDec (ip fp : text) (ex : Z)   (* digits before and after the point, exponent *)
| TokHex (ip fp : text) (ex : Z).

(** The exponent part introduced by the letter [mark] ([e] or [p]), if
    there is one: the mark, an optional sign and digits.  The mark and the
    sign are collected even when no digit follows; [strtod] then takes the
    number without an exponent (ISO C would have the conversion fail). *)
Definition lex_exponent (mark : ascii) (s : text) : option (Z * text) :=
  match s with
  | c :: r =>
      if Ascii.eqb (to_lower c) mark then
        let '(neg, r1) := lex_sign r in
        let '(ds, r2) := span is_digit r1 in
        match ds with
        | [] => Some (0, r2)
        | _ :: _ => Some (if neg then - digits_val ds else digits_val ds, r2)
        end
      else Some (0, s)
  | [] => Some (0, s)
  end.

(** Digits, an optional point, digits: at least one digit in all. *)
Definition lex_mantissa (p : ascii -> bool) (s : text) : option (text * text * text) :=
  let '(ip, s1) := span p s in
  let '(fp, s2) :=
    match s1 with
    | c :: t => if Ascii.eqb c "." then span p t else ([], s1)
    | [] => ([], s1)
    end in
  match ip ++ fp with
  | [] => None
  | _ :: _ => Some (ip, fp, s2)
  end.

(** What follows the sign.  After [inf] the letter [i] commits to
    [infinity]; after [nan] the collecting stops (ISO C would go on through a
    parenthesised sequence); after [0x] come hexadecimal digits, and when
    there is none but a point, the point is collected and [strtod] finds the
    [0] of the prefix (ISO C would have the conversion fail). *)
Definition lex_unsigned_float (s : text) : option (float_token * text) :=
  match strip_prefix_ci (lit "inf") s with
  | Some r =>
      match r with
      | c :: _ =>
          if Ascii.eqb (to_lower c) "i" then
            match strip_prefix_ci (lit "inity") r with
            | Some r' => Some (TokInf, r')
            | None => None
            end
          else Some (TokInf, r)
      | [] => Some (TokInf, r)
      end
  | None =>
  match strip_prefix_ci (lit "nan") s with
  | Some r => Some (TokNaN, r)
  | None =>
  match strip_prefix_ci (lit "0x") s with
  | Some r =>
      match lex_mantissa is_xdigit r with
      | Some (ip, fp, r1) =>
          match lex_exponent "p" r1 with
          | Some (ex, r2) => Some (TokHex ip fp ex, r2)
          | None => None
          end
      | None =>
          match r with
          | c :: r1 => if Ascii.eqb c "." then Some (TokHex [] [] 0, r1) else None
          | [] => None
          end
      end
  | None =>
      match lex_mantissa is_digit s with
      | Some (ip, fp, r1) =>
          match lex_exponent "e" r1 with
          | Some (ex, r2) => Some (TokDec ip fp ex, r2)
          | None => None
          end
      | None => None
      end
  end end end.

Definition lex_float (s : text) : option (bool * float_token * text) :=
  let '(neg, s1) := lex_sign s in
  match lex_unsigned_float s1 with
  | Some (tok, r) => Some (neg, tok, r)
  | None => None
  end.

(** The positive rational [d * b^k], correctly rounded. *)
Definition round_scaled (f : format) (s : bool) (d b k : Z) : ieee :=
  if d =? 0 then Zero s
  else if 0 <=? k then round_rat f s (d * b ^ k) 1
  else round_rat f s d (b ^ (- k)).

(** [strtod] ([binary64]) and [strtof] ([binary32]) on a subject sequence. *)
Definition convert_float (f : format) (neg : bool) (tok : float_token) : ieee :=
  match tok with
  | TokInf => Infinity neg
  | TokNaN => NaN neg
  | TokDec ip fp ex =>
      round_scaled f neg (digits_val (ip ++ fp)) 10 (ex - Z.of_nat (length fp))
  | TokHex ip fp ex =>
      round_scaled f neg (xdigits_val (ip ++ fp)) 2 (ex - 4 * Z.of_nat (length fp))
  end.

(** Scanning a floating-point number at the head of a text. *)
Definition scan_float (f : format) (s : text) : option (ieee * text) :=
  match lex_float s with
  | Some (neg, tok, r) => Some (convert_float f neg tok, r)
  | None => None
  end.

End Num.
Import Num.

(* ===================================================================== *)
(** * Streams and files *)
(* ===================================================================== *)

Module Stream.

(** ** The file system

    A file is its contents.  Whether a path can be opened for writing is a
    fact of the environment ([writable]); a file can be opened for reading
    when it exists. *)
Record filesystem : Type := FS { files : gmap string text; writable : string -> bool }.

Definition store (path : string) (contents : text) (fs : filesystem) : filesystem :=
  {| files := <[path := contents]> (files fs); writable := writable fs |}.

(** ** Source literals *)

Definition tab : ascii := chr 9.
Definition newline : ascii := chr 10.

(** The escape sequences of a C string literal that the source uses. *)
Fixpoint unescape (s : text) : text :=
  match s with
  | c :: r =>
      match r with
      | d :: r' =>
          if Ascii.eqb c "\" then
            (if Ascii.eqb d "t" then tab else if Ascii.eqb d "n" then newline else d)
            :: unescape r'
          else c :: unescape r
      | [] => [c]
      end
  | [] => []
  end.

Definition cstr (s : string) : text := unescape (lit s).

(** ** Formatted output: [std::ofstream]

    The state of the stream that the source touches: the characters
    written, the [floatfield] setting ([fixed] or the default) and the
    precision. *)
Record ostream : Type := OS { written : text; fixed_flag : bool; precision : Z }.

Definition ofstream_open (path : string) (fs : filesystem) : option (ostream * filesystem) :=
  if writable fs path
  then Some ({| written := []; fixed_flag := false; precision := 6 |}, store path [] fs)
  else None.

Definition ofstream_close (path : string) (os : ostream) (fs : filesystem) : filesystem :=
  store path (written os) fs.

Definition put (t : text) (os : ostream) : ostream :=
  {| written := written os ++ t; fixed_flag := fixed_flag os; precision := precision os |}.

Definition set_fixed (os : ostream) : ostream :=
  {| written := written os; fixed_flag := true; precision := precision os |}.

Definition set_precision (p : Z) (os : ostream) : ostream :=
  {| written := written os; fixed_flag := fixed_flag os; precision := p |}.

(** Manipulators. *)
Inductive manip : Type := endl | fixed | setprecision (p : Z).

(** [num_put] for a floating-point value: [%.*f] under [fixed], [%.*g]
    otherwise; a negative precision stands for 6. *)
Definition float_text (fixedp : bool) (p : Z) (v : ieee) : text :=
  let p := if p <? 0 then 6 else p in
  if fixedp then fmt_fixed p v else fmt_general p v.

(** [operator<<], overloaded on the type of its right operand. *)
Class Insert (A : Type) := insert : A -> ostream -> ostream.
#[global] Hint Mode Insert ! : typeclass_instances.

Declare Scope stream_scope.
Delimit Scope stream_scope with stream.
Notation "os << x" := (insert x os) (at level 40, left associativity) : stream_scope.

#[global] Instance insert_literal : Insert string := fun s => put (cstr s).
#[global] Instance insert_integer : Insert Z := fun z => put (dec_int z).
#[global] Instance insert_double : Insert ieee :=
  fun v os => put (float_text (fixed_flag os) (precision os) v) os.
#[global] Instance insert_manip : Insert manip :=
  fun m os =>
    match m with
    | endl => put [newline] os
    | fixed => set_fixed os
    | setprecision p => set_precision p os
    end.

(** ** Binary input: [std::ifstream::read] *)
Record istream : Type := IS { pending : text; good : bool }.

Definition ifstream_open (path : string) (fs : filesystem) : option istream :=
  match files fs !! path with
  | Some contents => Some {| pending := contents; good := true |}
  | None => None
  end.

(** [fin.read(p, n)] on an object whose bytes are [obj]: the characters
    extracted overwrite the object from its first byte on.  A stream that
    runs dry stores what is left and fails; a failed stream extracts
    nothing. *)
Definition istream_read (n : nat) (obj : text) (fin : istream) : text * istream :=
  if good fin then
    if (n <=? length (pending fin))%nat
    then (take n (pending fin) ++ drop n obj,
          {| pending := drop n (pending fin); good := true |})
    else (pending fin ++ drop (length (pending fin)) obj,
          {| pending := []; good := false |})
  else (obj, fin).

(** ** Formatted input: [fscanf] *)

Definition fopen_read (path : string) (fs : filesystem) : option text := files fs !! path.

Inductive directive : Type :=
| Lit (c : ascii)     (* an ordinary character *)
| Space               (* white space *)
| ConvD               (* %d *)
| ConvLF              (* %lf *)
| ConvF               (* %f *)
| ConvC.              (* %c *)

Fixpoint parse_format (s : text) : list directive :=
  match s with
  | c :: r =>
      if is_space c then Space :: parse_format r
      else if Ascii.eqb c "%" then
        match r with
        | d :: r1 =>
            if Ascii.eqb d "d" then ConvD :: parse_format r1
            else if Ascii.eqb d "f" then ConvF :: parse_format r1
            else if Ascii.eqb d "c" then ConvC :: parse_format r1
            else if Ascii.eqb d "l" then
              match r1 with
              | e :: r2 => if Ascii.eqb e "f" then ConvLF :: parse_format r2
                           else Lit c :: parse_format r
              | [] => Lit c :: parse_format r
              end
            else Lit c :: parse_format r
        | [] => [Lit c]
        end
      else Lit c :: parse_format r
  | [] => []
  end.

(** What a conversion stores through its pointer argument. *)
Inductive scanned : Type :=
| VInt (z : Z)
| VDouble (v : ieee)
| VFloat (v : ieee)
| VChar (c : ascii).

Definition EOF : Z := -1.

Fixpoint skip_space (s : text) : text :=
  match s with
  | c :: r => if is_space c then skip_space r else s
  | [] => []
  end.

(** The number of items assigned: what [fscanf] returns at the end of the
    format, and when a directive fails to match. *)
Definition assigned (acc : list scanned) : Z * list scanned :=
  (Z.of_nat (length acc), acc).

(** The input ends before the directive: [EOF] when nothing was converted. *)
Definition input_failure (acc : list scanned) : Z * list scanned :=
  match acc with
  | [] => (EOF, acc)
  | _ :: _ => (Z.of_nat (length acc), acc)
  end.

Definition convert (d : directive) (s : text) : option (scanned * text) :=
  match d with
  | ConvD =>
      match lex_int s with
      | Some (z, r) => Some (VInt (to_int32 (clamp_long z)), r)
      | None => None
      end
  | ConvLF =>
      match scan_float binary64 s with
      | Some (v, r) => Some (VDouble v, r)
      | None => None
      end
  | ConvF =>
      match scan_float binary32 s with
      | Some (v, r) => Some (VFloat v, r)
      | None => None
      end
  | _ => None
  end.

(** [fscanf]: the value returned and the items assigned, in order.  The
    numeric conversions skip white space first; [%c] does not. *)
Fixpoint scanf (ds : list directive) (s : text) (acc : list scanned) : Z * list scanned :=
  match ds with
  | [] => assigned acc
  | Space :: ds' => scanf ds' (skip_space s) acc
  | Lit c :: ds' =>
      match s with
      | c' :: r => if Ascii.eqb c c' then scanf ds' r acc else assigned acc
      | [] => input_failure acc
      end
  | ConvC :: ds' =>
      match s with
      | c :: r => scanf ds' r (acc ++ [VChar c])
      | [] => input_failure acc
      end
  | d :: ds' =>
      match skip_space s with
      | [] => input_failure acc
      | s' =>
          match convert d s' with
          | Some (v, r) => scanf ds' r (acc ++ [v])
          | None => assigned acc
          end
      end
  end.

Definition fscanf (fin : text) (format : string) : Z * list scanned :=
  scanf (parse_format (lit format)) fin [].

(** ** [std::string] *)

(** Arithmetic of [size_t]. *)
Definition size_t_sub (a b : Z) : Z := (a - b) mod 2 ^ 64.

Definition str_length (s : string) : Z := Z.of_nat (String.length s).

(** [s.substr(pos)]: throws [std::out_of_range] ([None]) when [pos] exceeds
    the length. *)
Definition substr (s : string) (pos : Z) : option string :=
  if str_length s <? pos then None
  else Some (string_of_list_ascii (drop (Z.to_nat pos) (list_ascii_of_string s))).

(** ** Loops: [for (int i = lo; i < hi; ++i)] *)
Definition for_loop {S : Type} (lo hi : Z) (body : Z -> S -> S) (init : S) : S :=
  fold_left (fun s i => body i s) (seqZ lo (hi - lo)) init.

End Stream.
Import Stream.

(* ===================================================================== *)
(** * Grids and cell types *)
(* ===================================================================== *)

Module Grid.

(** ** The interface of a cell type [T]

    What the templates of [data_io.h] require of [T]: its size, its object
    representation (for [reinterpret_cast<char *>]), [operator!=], the
    conversion [(int)] and [operator<<], which depends on the stream's
    [floatfield] and precision. *)
Class CellType (T : Type) : Type := {
  sizeof : nat;
  to_bytes : T -> text;
  of_bytes : text -> T;
  cell_neq : T -> T -> bool;
  to_int : T -> Z;
  cell_text : bool -> Z -> T -> text
}.
Arguments sizeof T {_}.

#[global] Instance insert_cell {T : Type} `{CellType T} : Insert T | 10 :=
  fun v os => put (cell_text (fixed_flag os) (precision os) v) os.

(** Little-endian object representations (the host of the source's day). *)
Definition le_value (bs : text) : Z := fold_right (fun b acc => code b + 256 * acc) 0 bs.
Definition byte_of (z i : Z) : ascii := chr ((z / 256 ^ i) mod 256).

(** *** [float] *)
Record float : Type := Float { f0 : ascii; f1 : ascii; f2 : ascii; f3 : ascii }.

Definition float_bits (x : float) : Z := le_value [f0 x; f1 x; f2 x; f3 x].
Definition float_of_bits (z : Z) : float :=
  Float (byte_of z 0) (byte_of z 1) (byte_of z 2) (byte_of z 3).
Definition float_value (x : float) : ieee := decode binary32 (float_bits x).
Definition float_of_ieee (v : ieee) : float := float_of_bits (encode binary32 v).

(** IEEE inequality: a NaN differs from everything, the zeros are equal. *)
Definition ieee_neq (a b : ieee) : bool :=
  match a, b with
  | NaN _, _ | _, NaN _ => true
  | Zero _, Zero _ => false
  | _, _ => negb (ieee_eqb a b)
  end.

(** Truncation toward zero; out of range, the "integer indefinite" value
    of the x86 conversion. *)
Definition ieee_to_int (v : ieee) : Z :=
  match v with
  | Zero _ => 0
  | Finite s m e =>
      let a := if 0 <=? e then Z.pos m * 2 ^ e else Z.pos m / 2 ^ (- e) in
      let z := if s then - a else a in
      if (- 2 ^ 31 <=? z) && (z <? 2 ^ 31) then z else - 2 ^ 31
  | _ => - 2 ^ 31
  end.

#[global] Instance float_cell : CellType float := {
  sizeof := 4;
  to_bytes x := [f0 x; f1 x; f2 x; f3 x];
  of_bytes bs := Float (nth 0 bs zero) (nth 1 bs zero) (nth 2 bs zero) (nth 3 bs zero);
  cell_neq a b := ieee_neq (float_value a) (float_value b);
  to_int x := ieee_to_int (float_value x);
  cell_text fixedp p x := float_text fixedp p (float_value x)
}.

(** *** [char] (signed, one byte): written as the character itself. *)
#[global] Instance char_cell : CellType ascii := {
  sizeof := 1;
  to_bytes c := [c];
  of_bytes bs := nth 0 bs zero;
  cell_neq a b := negb (Ascii.eqb a b);
  to_int c := if code c <? 128 then code c else code c - 256;
  cell_text _ _ c := [c]
}.

(** *** [bool] (one byte, holding 0 or 1): written as the integer [0] or
    [1], the stream's [boolalpha] flag being nowhere set.  A byte other than
    0 read into a [bool] is taken for [true]. *)
#[global] Instance bool_cell : CellType bool := {
  sizeof := 1;
  to_bytes b := [chr (if b then 1 else 0)];
  of_bytes bs := negb (code (nth 0 bs zero) =? 0);
  cell_neq a b := xorb a b;
  to_int b := if b then 1 else 0;
  cell_text _ _ b := dec_int (if b then 1 else 0)
}.

(** *** [int] (32 bits, two's complement): written in decimal. *)
Record int : Type := Int { i0 : ascii; i1 : ascii; i2 : ascii; i3 : ascii }.

Definition int_value (x : int) : Z := to_int32 (le_value [i0 x; i1 x; i2 x; i3 x]).
Definition int_of_Z (z : Z) : int :=
  Int (byte_of (z mod 2 ^ 32) 0) (byte_of (z mod 2 ^ 32) 1)
      (byte_of (z mod 2 ^ 32) 2) (byte_of (z mod 2 ^ 32) 3).

#[global] Instance int_cell : CellType int := {
  sizeof := 4;
  to_bytes x := [i0 x; i1 x; i2 x; i3 x];
  of_bytes bs := Int (nth 0 bs zero) (nth 1 bs zero) (nth 2 bs zero) (nth 3 bs zero);
  cell_neq a b := negb (int_value a =? int_value b);
  to_int x := int_value x;
  cell_text _ _ x := dec_int (int_value x)
}.

(** ** [array2d<T>]

    Modelled from the spec: the container [array2d] of [interface.h], which
    is not part of the source at hand.  A grid has a width and a height, a
    cell at every [(x, y)] with [0 <= x < width] and [0 <= y < height]
    (cells elsewhere are never touched), the corner coordinates and the
    cell size ([double]), the no-data sentinel (a [T]) and the count of
    data cells. *)
Record array2d (T : Type) : Type := Array2d {
  width : Z;
  height : Z;
  cell : Z -> Z -> T;
  xllcorner : ieee;
  yllcorner : ieee;
  cellsize : ieee;
  no_data : T;
  data_cells : Z
}.
Arguments Array2d {T}.
Arguments width {T}. Arguments height {T}. Arguments cell {T}.
Arguments xllcorner {T}. Arguments yllcorner {T}. Arguments cellsize {T}.
Arguments no_data {T}. Arguments data_cells {T}.

Section Access.
Context {T : Type}.

(** [grid(x, y) = v] *)
Definition set_cell (x y : Z) (v : T) (g : array2d T) : array2d T :=
  Array2d (width g) (height g)
    (fun x' y' => if (x' =? x) && (y' =? y) then v else cell g x' y')
    (xllcorner g) (yllcorner g) (cellsize g) (no_data g) (data_cells g).

Definition set_xllcorner (v : ieee) (g : array2d T) : array2d T :=
  Array2d (width g) (height g) (cell g) v (yllcorner g) (cellsize g) (no_data g) (data_cells g).
Definition set_yllcorner (v : ieee) (g : array2d T) : array2d T :=
  Array2d (width g) (height g) (cell g) (xllcorner g) v (cellsize g) (no_data g) (data_cells g).
Definition set_cellsize (v : ieee) (g : array2d T) : array2d T :=
  Array2d (width g) (height g) (cell g) (xllcorner g) (yllcorner g) v (no_data g) (data_cells g).
Definition set_no_data (v : T) (g : array2d T) : array2d T :=
  Array2d (width g) (height g) (cell g) (xllcorner g) (yllcorner g) (cellsize g) v (data_cells g).
Definition set_data_cells (n : Z) (g : array2d T) : array2d T :=
  Array2d (width g) (height g) (cell g) (xllcorner g) (yllcorner g) (cellsize g) (no_data g) n.

(** Modelled from the spec: [array2d::resize], which gives the grid its
    new dimensions and discards the cells it held.  What the new cells
    hold before they are assigned is not specified: [fresh]. *)
Definition resize (fresh : Z -> Z -> T) (cols rows : Z) (g : array2d T) : array2d T :=
  Array2d cols rows fresh
    (xllcorner g) (yllcorner g) (cellsize g) (no_data g) (data_cells g).
End Access.

End Grid.
Import Grid.

(* ===================================================================== *)
(** * The functions of [data_io.h] *)
(* ===================================================================== *)

Module DataIO.

Local Open Scope stream_scope.

Definition OUTPUT_DEM : Z := 1.
Definition OUTPUT_OMG : Z := 2.

(** Where an [exit(-1)] was taken: the step that the preceding diagnostic
    announces. *)
Inductive step : Type :=
| Opening (path : string)
| ReadingHeader.

Inductive exception : Type := out_of_range.

(** How a call ends: it returns, it terminates the process with [exit], or
    an exception leaves it.  Each comes with the file system it leaves
    behind.  The timer, the progress bar and the diagnostics have no part in
    the results and are left out. *)
Inductive outcome (A : Type) : Type :=
| Returned (r : A) (fs : filesystem)
| Exited (status : Z) (during : step) (fs : filesystem)
| Thrown (e : exception) (fs : filesystem).
Arguments Returned {A}. Arguments Exited {A}. Arguments Thrown {A}.

(** The file system that a call leaves behind, however it ends. *)
Definition final_fs {A : Type} (o : outcome A) : filesystem :=
  match o with Returned _ fs | Exited _ _ fs | Thrown _ fs => fs end.

Section Writers.
Context {T : Type} `{CellType T}.

(** [array2d::min] and [array2d::max] belong to [interface.h]. *)
Variables grid_min grid_max : array2d T -> T.

Definition output_ascii_data
    (filename : string) (output_grid : array2d T) (precision : Z)
    (fs : filesystem) : outcome Z :=
  let outputsep := " "%string in
  let output_type := OUTPUT_DEM in
  match ofstream_open filename fs with
  | None => Exited (-1) (Opening filename) fs
  | Some (fout, fs) =>
  (* OmniGlyph output *)
  match substr filename (size_t_sub (str_length filename) 4) with
  | None => Thrown out_of_range fs
  | Some suffix =>
    let '(outputsep, output_type, fout) :=
      if String.eqb suffix ".omg" then
        let outputsep := "|"%string in
        let output_type := OUTPUT_OMG in
        let fout := fout << "Contents: Pixel array" << endl in
        let fout := fout << endl in
        let fout := fout << "Width:    " << width output_grid << endl in
        let fout := fout << "Height:   " << height output_grid << endl in
        let fout := fout << endl in
        let fout := fout << "Spectral bands:   1" << endl in
        let fout := fout << "Bits per band:   32" << endl in
        let fout := fout << "Range of values:   " << grid_min output_grid << ","
                         << grid_max output_grid << endl in
        let fout := fout << "Actual range:   " << no_data output_grid << ","
                         << grid_max output_grid << endl in
        let fout := fout << "Gamma exponent:   0." << endl in
        let fout := fout << "Resolution:   100 pixels per inch" << endl in
        let fout := fout << endl in
        let fout := fout << "|" << endl in
        (outputsep, output_type, fout)
      else
        let fout := fout << "ncols\t\t" << width output_grid << endl in
        let fout := fout << "nrows\t\t" << height output_grid << endl in
        let fout := fout << "xllcorner\t" << fixed << setprecision precision
                         << xllcorner output_grid << endl in
        let fout := fout << "yllcorner\t" << fixed << setprecision precision
                         << yllcorner output_grid << endl in
        let fout := fout << "cellsize\t" << fixed << setprecision precision
                         << cellsize output_grid << endl in
        let fout := fout << "NODATA_value\t" << fixed << setprecision precision in
        let fout :=
          if (sizeof T =? 1)%nat
          then fout << to_int (no_data output_grid) << endl
          else fout << no_data output_grid << endl in
        (outputsep, output_type, fout) in
    let fout := set_precision precision fout in
    let fout := set_fixed fout in
    let fout :=
      for_loop 0 (height output_grid) (fun y fout =>
        let fout := if output_type =? OUTPUT_OMG then fout << "|" else fout in
        let fout :=
          for_loop 0 (width output_grid) (fun x fout =>
            if (sizeof T =? 1)%nat
            then fout << to_int (cell output_grid x y) << outputsep
            else fout << cell output_grid x y << outputsep) fout in
        fout << endl) fout in
    Returned 0 (ofstream_close filename fout fs)
  end
  end.

(** [fout.write(reinterpret_cast<const char *>(&v), sizeof(T))] *)
Definition ostream_write (v : T) (fout : ostream) : ostream :=
  put (take (sizeof T) (to_bytes v)) fout.

Definition write_floating_data
    (basename : string) (output_grid : array2d T)
    (fs : filesystem) : outcome Z :=
  let fn_header := (basename +:+ ".hdr")%string in
  let fn_data := (basename +:+ ".flt")%string in
  match ofstream_open fn_header fs with
  | None => Exited (-1) (Opening fn_header) fs
  | Some (fout, fs) =>
    let fout := fout << "ncols\t\t" << width output_grid << endl in
    let fout := fout << "nrows\t\t" << height output_grid << endl in
    let fout := fout << "xllcorner\t" << fixed << setprecision 10
                     << xllcorner output_grid << endl in
    let fout := fout << "yllcorner\t" << fixed << setprecision 10
                     << yllcorner output_grid << endl in
    let fout := fout << "cellsize\t" << fixed << setprecision 10
                     << cellsize output_grid << endl in
    let fout := fout << "NODATA_value\t" << fixed << setprecision 10
                     << no_data output_grid << endl in
    let fout := fout << "BYTEORDER\tLSBFIRST" << endl in
    let fs := ofstream_close fn_header fout fs in
    match ofstream_open fn_data fs with
    | None => Exited (-1) (Opening fn_data) fs
    | Some (fout, fs) =>
      let fout :=
        for_loop 0 (height output_grid) (fun y fout =>
          for_loop 0 (width output_grid) (fun x fout =>
            ostream_write (cell output_grid x y) fout) fout) fout in
      Returned 0 (ofstream_close fn_data fout fs)
    end
  end.
End Writers.

(** The reader stores the no-data value with the conversion [%f], through
    [&grid.no_data]: that is a store of a [float], so the template is
    meaningful at [T = float] only (the "floating-point grid file" of its
    documentation).  The embedding is at that type. *)
Section Reader.
(** The contents of the storage that [resize] hands out. *)
Variable fresh : Z -> Z -> float.

Definition header_format : string :=
  "ncols %d nrows %d xllcorner %lf yllcorner %lf cellsize %lf NODATA_value %f BYTEORDER %c".

(** One turn of the inner loop: read a cell, count it when it is data. *)
Definition read_cell (x y : Z) (st : array2d float * istream) : array2d float * istream :=
  let '(grid, fin) := st in
  let '(obj, fin) := istream_read (sizeof float) (to_bytes (cell grid x y)) fin in
  let grid := set_cell x y (of_bytes obj) grid in
  let grid :=
    if cell_neq (cell grid x y) (no_data grid)
    then set_data_cells (data_cells grid + 1) grid
    else grid in
  (grid, fin).

Definition read_floating_data
    (basename : string) (grid : array2d float)
    (fs : filesystem) : outcome (Z * array2d float) :=
  let fn_header := (basename +:+ ".hdr")%string in
  let fn_data := (basename +:+ ".flt")%string in
  match fopen_read fn_header fs with
  | None => Exited (-1) (Opening fn_header) fs
  | Some fin =>
    let '(assigned, items) := fscanf fin header_format in
    if negb (assigned =? 7) then Exited (-1) ReadingHeader fs
    else
      match items with
      | [VInt columns; VInt rows; VDouble xll; VDouble yll; VDouble csz;
         VFloat nd; VChar byteorder] =>
        let grid := set_xllcorner xll grid in
        let grid := set_yllcorner yll grid in
        let grid := set_cellsize csz grid in
        let grid := set_no_data (float_of_ieee nd) grid in
        let grid := resize fresh columns rows grid in
        match ifstream_open fn_data fs with
        | None => Exited (-1) (Opening fn_data) fs
        | Some fin =>
          let grid := set_data_cells 0 grid in
          let '(grid, fin) :=
            for_loop 0 rows (fun y st =>
              for_loop 0 columns (fun x st => read_cell x y st) st) (grid, fin) in
          Returned (0, grid) fs
        end
      | _ => Exited (-1) ReadingHeader fs   (* seven items have this shape *)
      end
  end.
End Reader.

End DataIO.
Import DataIO.

(* ===================================================================== *)
(** * The file formats, as the specification words them *)
(* ===================================================================== *)

Module Formats.

Section Layout.
Context {T : Type} `{CellType T}.
Variables grid_min grid_max : array2d T -> T.

(** A cell as the ASCII writer renders it under precision [p]: one-byte
    cell types through [int], the others by their own [operator<<]. *)
Definition cell_field (p : Z) (v : T) : text :=
  if (sizeof T =? 1)%nat then dec_int (to_int v) else cell_text true p v.

(** A row: an optional lead, then every cell followed by the separator,
    then the end of line. *)
Definition row_text (lead sep : text) (p : Z) (g : array2d T) (y : Z) : text :=
  lead ++ concat (map (fun x => cell_field p (cell g x y) ++ sep) (seqZ 0 (width g)))
       ++ [newline].

Definition rows_text (lead sep : text) (p : Z) (g : array2d T) : text :=
  concat (map (row_text lead sep p g) (seqZ 0 (height g))).

(** A header entry: key, tabs, value, end of line. *)
Definition entry (key : string) (tabs : nat) (value : text) : text :=
  lit key ++ replicate tabs tab ++ value ++ [newline].

Definition arcgrid_header (p : Z) (g : array2d T) : text :=
  entry "ncols" 2 (dec_int (width g)) ++
  entry "nrows" 2 (dec_int (height g)) ++
  entry "xllcorner" 1 (float_text true p (xllcorner g)) ++
  entry "yllcorner" 1 (float_text true p (yllcorner g)) ++
  entry "cellsize" 1 (float_text true p (cellsize g)) ++
  entry "NODATA_value" 1 (cell_field p (no_data g)).

Definition arcgrid_text (p : Z) (g : array2d T) : text :=
  arcgrid_header p g ++ rows_text [] (lit " ") p g.

Definition line (s : text) : text := s ++ [newline].

Definition omniglyph_header (g : array2d T) : text :=
  line (lit "Contents: Pixel array") ++
  line [] ++
  line (lit "Width:    " ++ dec_int (width g)) ++
  line (lit "Height:   " ++ dec_int (height g)) ++
  line [] ++
  line (lit "Spectral bands:   1") ++
  line (lit "Bits per band:   32") ++
  line (lit "Range of values:   " ++ cell_text false 6 (grid_min g) ++ lit ","
          ++ cell_text false 6 (grid_max g)) ++
  line (lit "Actual range:   " ++ cell_text false 6 (no_data g) ++ lit ","
          ++ cell_text false 6 (grid_max g)) ++
  line (lit "Gamma exponent:   0.") ++
  line (lit "Resolution:   100 pixels per inch") ++
  line [] ++
  line (lit "|").

Definition omniglyph_text (p : Z) (g : array2d T) : text :=
  omniglyph_header g ++ rows_text (lit "|") (lit "|") p g.

(** The lines of an ArcGrid file, without their line ends: those of the
    header and that of row [y]. *)
Definition arcgrid_header_lines (p : Z) (g : array2d T) : list text :=
  [lit "ncols" ++ replicate 2 tab ++ dec_int (width g);
   lit "nrows" ++ replicate 2 tab ++ dec_int (height g);
   lit "xllcorner" ++ replicate 1 tab ++ float_text true p (xllcorner g);
   lit "yllcorner" ++ replicate 1 tab ++ float_text true p (yllcorner g);
   lit "cellsize" ++ replicate 1 tab ++ float_text true p (cellsize g);
   lit "NODATA_value" ++ replicate 1 tab ++ cell_field p (no_data g)].

Definition arcgrid_row_line (p : Z) (g : array2d T) (y : Z) : text :=
  concat (map (fun x => cell_field p (cell g x y) ++ lit " ") (seqZ 0 (width g))).

(** The header of the binary pair. *)
Definition floating_header (g : array2d T) : text :=
  entry "ncols" 2 (dec_int (width g)) ++
  entry "nrows" 2 (dec_int (height g)) ++
  entry "xllcorner" 1 (float_text true 10 (xllcorner g)) ++
  entry "yllcorner" 1 (float_text true 10 (yllcorner g)) ++
  entry "cellsize" 1 (float_text true 10 (cellsize g)) ++
  entry "NODATA_value" 1 (cell_text true 10 (no_data g)) ++
  entry "BYTEORDER" 1 (lit "LSBFIRST").

(** The cells in the order of the files: row by row. *)
Definition coords (cols rows : Z) : list (Z * Z) :=
  y ← seqZ 0 rows; (fun x => (x, y)) <$> seqZ 0 cols.

(** The payload of the binary pair: the object representations of the
    cells, row by row, with nothing between them. *)
Definition floating_payload (g : array2d T) : text :=
  concat (map (fun '(x, y) => take (sizeof T) (to_bytes (cell g x y)))
              (coords (width g) (height g))).

(** What [write_floating_data] leaves behind when both files open. *)
Definition written_pair (basename : string) (g : array2d T) (fs : filesystem)
    : filesystem :=
  store (basename +:+ ".flt") (floating_payload g)
    (store (basename +:+ ".flt") []
       (store (basename +:+ ".hdr") (floating_header g)
          (store (basename +:+ ".hdr") [] fs))).

(** Number of cells that differ from the no-data value. *)
Definition count_data (g : array2d T) : Z :=
  Z.of_nat (length (List.filter (fun '(x, y) => cell_neq (cell g x y) (no_data g))
                                (coords (width g) (height g)))).
End Layout.

(** What a reader gets back from a number written under [fixed] with
    precision [p]: the text is converted again, to the format [f]. *)
Definition reread (f : format) (p : Z) (v : ieee) : ieee :=
  match scan_float f (float_text true p v) with
  | Some (v', _) => v'
  | None => v
  end.

(** A number that a numeral with [p] decimals gives exactly: a number of
    the format [f] that is a whole multiple of [2^-p].  Zeros, infinities
    and NaN are written by sign and name. *)
Definition decimals_exact (f : format) (p : Z) (v : ieee) : bool :=
  match v with
  | Finite _ m e =>
      canonical f v && ((0 <=? e + p) || (Z.pos m mod 2 ^ (- (e + p)) =? 0))
  | _ => true
  end.

(** A number of the format [f] whose neighbours in the format lie at
    least [2 * 10^-p] away: the unit of its last binary digit, [2^e], is that
    large. *)
Definition decimals_cover (f : format) (p : Z) (v : ieee) : bool :=
  match v with
  | Finite _ m e => canonical f v && ((0 <=? e) || (2 * 2 ^ (- e) <=? 10 ^ p))
  | _ => true
  end.

(** A number that is read back as it was written with [p] decimals, for
    the one reason or the other. *)
Definition decimals_keep (f : format) (p : Z) (v : ieee) : bool :=
  decimals_exact f p v || decimals_cover f p v.



(** The directives of the header format of the reader. *)
Definition header_directives : list directive := parse_format (lit header_format).

(** The lines of a text, without their line ends. *)
Fixpoint split_lines (cur : text) (t : text) : list string :=
  match t with
  | c :: r =>
      if Ascii.eqb c newline then show (rev cur) :: split_lines [] r
      else split_lines (c :: cur) r
  | [] => match cur with [] => [] | _ :: _ => [show (rev cur)] end
  end.

Definition lines_of (t : text) : list string := split_lines [] t.

(** A text without a line end in it. *)
Definition one_line (t : text) : bool :=
  forallb (fun c => negb (Ascii.eqb c newline)) t.

(** The two loops of the reader, as one pass over the cells in file order. *)
Definition read_cells (l : list (Z * Z)) (st : array2d float * istream)
    : array2d float * istream :=
  fold_left (fun st '(x, y) => read_cell x y st) l st.

(** The value of the header entry [key] of a text: what follows the key
    and the tabs on the first line that begins with the key. *)
Fixpoint strip_prefix (p s : text) : option text :=
  match p, s with
  | [], _ => Some s
  | a :: p', c :: s' => if Ascii.eqb a c then strip_prefix p' s' else None
  | _ :: _, [] => None
  end.

Fixpoint drop_tabs (s : text) : text :=
  match s with
  | c :: r => if Ascii.eqb c tab then drop_tabs r else s
  | [] => []
  end.

Fixpoint find_entry (key : text) (ls : list string) : option string :=
  match ls with
  | l :: ls' =>
      match strip_prefix key (lit l) with
      | Some r => Some (show (drop_tabs r))
      | None => find_entry key ls'
      end
  | [] => None
  end.

Definition field_of (key : string) (t : text) : option string :=
  find_entry (lit key) (lines_of t).

(** ** The headers that the reader accepts

    The six numeric fields of the header and their conversions. *)
Definition numeric_fields : list (string * directive) :=
  [("ncols", ConvD); ("nrows", ConvD); ("xllcorner", ConvLF);
   ("yllcorner", ConvLF); ("cellsize", ConvLF); ("NODATA_value", ConvF)]%string.

(** The directives of one numeric field: its key, white space, its
    conversion, white space. *)
Definition field_directives (f : string * directive) : list directive :=
  map Lit (lit (fst f)) ++ [Space; snd f; Space].

(** A text that begins with the given fields, in order: each is its key,
    then optional white space, then a text [tok] that the conversion of the
    field reads as a value, then optional white space.  What comes after
    the fields satisfies [last]. *)
Fixpoint fields_shape (fields : list (string * directive)) (last : text -> Prop)
    (s : text) : Prop :=
  match fields with
  | [] => last s
  | f :: rest =>
      exists w1 tok w2 s2 v,
        s = lit (fst f) ++ w1 ++ tok ++ w2 ++ s2 /\
        forallb is_space w1 = true /\ forallb is_space w2 = true /\
        convert (snd f) (tok ++ w2 ++ s2) = Some (v, w2 ++ s2) /\
        fields_shape rest last s2
  end.

(** The key [BYTEORDER], optional white space and one character that is
    not white space, followed by anything. *)
Definition byteorder_shape (s : text) : Prop :=
  exists w c rest,
    s = lit "BYTEORDER" ++ w ++ c :: rest /\
    forallb is_space w = true /\ is_space c = false.

Definition header_shape (h : text) : Prop :=
  fields_shape numeric_fields byteorder_shape h.

(** ** The outline of a header

    What every header that the reader accepts has, said without the
    grammar of numbers: a number is a word, and a word that begins as a
    number can. *)

(** A word: a text without white space in it. *)
Definition solid (t : text) : bool := forallb (fun c => negb (is_space c)) t.

(** [r] is what is left of [s] when a word has been taken from its head. *)
Definition taken (s r : text) : Prop := exists tok, s = tok ++ r /\ solid tok = true.

(** The characters that a number read by the conversion [d] can begin
    with: a sign or a digit, and for the floating-point conversions also the
    point and the first letter of [inf] and of [nan]. *)
Definition begins (d : directive) (c : ascii) : bool :=
  is_digit c || Ascii.eqb c "-" || Ascii.eqb c "+" ||
  match d with
  | ConvLF | ConvF =>
      Ascii.eqb c "." || Ascii.eqb (to_lower c) "i" || Ascii.eqb (to_lower c) "n"
  | _ => false
  end.

(** A text that begins with the given fields, in order: each is its key,
    then optional white space, then a character [c] that a value of the
    field can begin with and the rest [tok] of a word, then optional white
    space.  What comes after the fields satisfies [last]. *)
Fixpoint fields_outline (fields : list (string * directive)) (last : text -> Prop)
    (s : text) : Prop :=
  match fields with
  | [] => last s
  | f :: rest =>
      exists w1 c tok w2 s2,
        s = lit (fst f) ++ w1 ++ c :: tok ++ w2 ++ s2 /\
        forallb is_space w1 = true /\ begins (snd f) c = true /\
        solid tok = true /\ forallb is_space w2 = true /\
        fields_outline rest last s2
  end.

Definition header_outline (h : text) : Prop :=
  fields_outline numeric_fields byteorder_shape h.

Definition is_numeric (d : directive) : bool :=
  match d with ConvD | ConvLF | ConvF => true | _ => false end.

(** The header of the binary pair up to, and without, its last entry. *)
Definition floating_header_numbers {T : Type} `{CellType T} (g : array2d T) : text :=
  entry "ncols" 2 (dec_int (width g)) ++
  entry "nrows" 2 (dec_int (height g)) ++
  entry "xllcorner" 1 (float_text true 10 (xllcorner g)) ++
  entry "yllcorner" 1 (float_text true 10 (yllcorner g)) ++
  entry "cellsize" 1 (float_text true 10 (cellsize g)) ++
  entry "NODATA_value" 1 (cell_text true 10 (no_data g)).

(** The path ends in [suffix]. *)
Definition ends_with (suffix path : string) : Prop :=
  exists stem : string, path = (stem +:+ suffix)%string.

(** The same, as a test. *)
Definition has_suffix (suffix path : string) : bool :=
  let l := list_ascii_of_string path in
  let k := list_ascii_of_string suffix in
  (length k <=? length l)%nat && bool_decide (drop (length l - length k) l = k).

(** A text is a decimal integer: an optional minus sign and digits. *)
Definition integer_text (t : text) : bool :=
  match t with
  | c :: r => if Ascii.eqb c "-" then negb (length r =? 0)%nat && forallb is_digit r
              else forallb is_digit t
  | [] => false
  end.

(** A text is a fixed-point numeral with [p] digits after the point (and
    no point at all when [p = 0]). *)
Definition fixed_point_text (p : nat) (t : text) : bool :=
  let t1 := match t with c :: r => if Ascii.eqb c "-" then r else t | [] => t end in
  let '(ip, r) := span is_digit t1 in
  negb (length ip =? 0)%nat &&
  match p, r with
  | O, [] => true
  | S _, c :: fp => Ascii.eqb c "." && forallb is_digit fp && (length fp =? p)%nat
  | _, _ => false
  end.

End Formats.
Import Formats.

(* ===================================================================== *)
(** * Sample grids *)
(* ===================================================================== *)

Module Examples.

(** An empty file system in which every path can be written. *)
Definition fs0 : filesystem := FS ∅ (fun _ => true).

(** Literals of the two floating-point types. *)
Definition float_lit (s : string) : float :=
  match scan_float binary32 (lit s) with
  | Some (v, _) => float_of_ieee v
  | None => float_of_ieee (NaN false)
  end.

Definition double_lit (s : string) : ieee :=
  match scan_float binary64 (lit s) with
  | Some (v, _) => v
  | None => NaN false
  end.

(** A stand-in for [array2d::min] and [array2d::max] where the ArcGrid
    format, which prints neither, is written. *)
Definition no_range {T : Type} (g : array2d T) : T := no_data g.

(** The grid [[1.5, 2.5], [3.5, 4.5]] with no-data value -9999. *)
Definition dem_2x2 : array2d float :=
  Array2d 2 2
    (fun x y =>
       if y =? 0 then (if x =? 0 then float_lit "1.5" else float_lit "2.5")
       else (if x =? 0 then float_lit "3.5" else float_lit "4.5"))
    (double_lit "0") (double_lit "0") (double_lit "1") (float_lit "-9999") 0.

(** The same grid, placed at a corner that takes more than ten decimals
    to write down: the [double] nearest to one third. *)
Definition dem_third : array2d float :=
  set_xllcorner (double_lit "0.333333333333333333") dem_2x2.

(** A grid of [char]: flow directions, with no-data value -1. *)
Definition flowdirs_2x2 : array2d ascii :=
  Array2d 2 2 (fun x y => chr (1 + x + 2 * y))
    (double_lit "0") (double_lit "0") (double_lit "1") (chr 255) 0.

(** A grid of [bool]: a mask, with no-data value [true]. *)
Definition mask_2x2 : array2d bool :=
  Array2d 2 2 (fun x y => x =? y)
    (double_lit "0") (double_lit "0") (double_lit "1") true 0.

(** A grid of [int]: labels, with no-data value -1. *)
Definition labels_2x2 : array2d int :=
  Array2d 2 2 (fun x y => int_of_Z (1 + x + 2 * y))
    (double_lit "0") (double_lit "0") (double_lit "1") (int_of_Z (-1)) 0.

(** Storage handed out by [resize], here zeroed. *)
Definition zeroed (x y : Z) : float := float_of_bits 0.

(** The binary pair of the sample grid, with an eighth entry added to the
    header. *)
Definition fs_extra_field : filesystem :=
  store "test.hdr" (floating_header dem_2x2 ++ entry "UNITS" 1 (lit "metres"))
    (written_pair "test" dem_2x2 fs0).

(** The same pair, the header without its [BYTEORDER] entry. *)
Definition fs_no_byteorder : filesystem :=
  store "test.hdr" (floating_header_numbers dem_2x2) (written_pair "test" dem_2x2 fs0).

(** The header of the sample grid, without a data file beside it. *)
Definition fs_no_data : filesystem := store "test.hdr" (floating_header dem_2x2) fs0.

(** The same pair under a header whose number of columns is spelt out. *)
Definition fs_spelt_ncols : filesystem :=
  store "test.hdr"
    (lit "ncols two nrows 2 xllcorner 0 yllcorner 0 cellsize 1 NODATA_value -9999 BYTEORDER LSBFIRST")
    (written_pair "test" dem_2x2 fs0).

(** The same pair under a header with a stray word after the number of
    columns. *)
Definition fs_stray_word : filesystem :=
  store "test.hdr"
    (lit "ncols 2 wide nrows 2 xllcorner 0 yllcorner 0 cellsize 1 NODATA_value -9999 BYTEORDER LSBFIRST")
    (written_pair "test" dem_2x2 fs0).

(** A file system in which nothing can be opened for writing. *)
Definition fs_readonly : filesystem := FS ∅ (fun _ => false).

(** A file system in which the header of the pair [test] can be written and
    nothing else. *)
Definition fs_header_only : filesystem := FS ∅ (fun path => String.eqb path "test.hdr").

(** The ArcGrid file of the sample grid, already there. *)
Definition fs_old_dem : filesystem := store "dem.asc" (lit "an older file") fs0.

(** The binary pair of the sample grid with its data file cut short, in
    the middle of the second cell. *)
Definition fs_truncated : filesystem :=
  store "test.flt" (take 6 (floating_payload dem_2x2)) (written_pair "test" dem_2x2 fs0).

(** The same pair with text after the last cell of the data file. *)
Definition fs_padded : filesystem :=
  store "test.flt" (floating_payload dem_2x2 ++ lit "trailer")
    (written_pair "test" dem_2x2 fs0).

(** The same pair under a header that declares the other byte order. *)
Definition fs_msbfirst : filesystem :=
  store "test.hdr" (floating_header_numbers dem_2x2 ++ entry "BYTEORDER" 1 (lit "MSBFIRST"))
    (written_pair "test" dem_2x2 fs0).

(** The sample grid with NaN for its no-data value. *)
Definition dem_nan : array2d float := set_no_data (float_of_ieee (NaN false)) dem_2x2.

(** The sample grid on a projected grid of thirty metres: a northing and
    an easting in the millions, with more decimals than ten digits hold. *)
Definition dem_utm : array2d float :=
  set_cellsize (double_lit "30")
    (set_yllcorner (double_lit "4500000.123456789")
       (set_xllcorner (double_lit "1234567.891") dem_2x2)).

(** The sample grid at a corner and with a cell size that ten decimals
    give exactly. *)
Definition dem_quarter : array2d float :=
  set_cellsize (double_lit "0.0009765625")
    (set_yllcorner (double_lit "-4500000.25") (set_xllcorner (double_lit "123456.5") dem_2x2)).

End Examples.
Import Examples.

(* ===================================================================== *)
(** * Properties *)
(* ===================================================================== *)

Local Open Scope stream_scope.

(** Bounds on concrete numbers. *)
Ltac range := split; [vm_compute; discriminate | vm_compute; reflexivity].

(** ** The number model on known values *)

Example strtod_known_values :
  double_lit "0.1" = Finite false 7205759403792794 (-56) /\
  double_lit "1e23" = Finite false 5960464477539062 24 /\
  double_lit "4.9e-324" = Finite false 1 (-1074) /\
  double_lit "2e-324" = Zero false /\
  double_lit "1.8e308" = Infinity false /\
  double_lit "0x1.8p3" = Finite false 6755399441055744 (-49) /\
  double_lit "-inf" = Infinity true /\
  encode binary64 (double_lit "1e23") = 0x44B52D02C7E14AF6 /\
  float_bits (float_lit "-9999") = 0xC61C3C00 /\
  float_bits (float_lit "0.1") = 0x3DCCCCCD /\
  float_value (float_lit "1.5") = Finite false 12582912 (-23).
Proof. repeat split; vm_compute; reflexivity. Qed.

Example canonical_known_values :
  canonical binary64 (double_lit "0.1") = true /\
  canonical binary64 (double_lit "4.9e-324") = true /\
  canonical binary64 (double_lit "1.7976931348623157e308") = true /\
  canonical binary32 (float_value (float_lit "-9999")) = true.
Proof. repeat split; vm_compute; reflexivity. Qed.

Example printf_known_values :
  show (fmt_fixed 2 (double_lit "2.675")) = "2.67"%string /\
  show (fmt_fixed 0 (double_lit "2.5")) = "2"%string /\
  show (fmt_fixed 0 (double_lit "3.5")) = "4"%string /\
  show (fmt_fixed 2 (double_lit "-0.001")) = "-0.00"%string /\
  show (fmt_fixed 20 (double_lit "0.1")) = "0.10000000000000000555"%string /\
  show (fmt_fixed 10 (double_lit "-9999")) = "-9999.0000000000"%string /\
  (show ∘ fmt_general 6 ∘ double_lit) <$>
    ["1.5"; "100000"; "1000000"; "-9999"; "123456789"; "0.0001"; "0.00001"; "9999995"]%string
  = ["1.5"; "100000"; "1e+06"; "-9999"; "1.23457e+08"; "0.0001"; "1e-05"; "1e+07"]%string.
Proof. repeat split; vm_compute; reflexivity. Qed.

(** White space between the fields of a header is optional for [fscanf];
    a value of the wrong kind stops it. *)
Example fscanf_known_headers :
  fscanf (lit "ncols 3 nrows 2 xllcorner 0.5 yllcorner 0 cellsize 1 NODATA_value -1 BYTEORDER M")
         header_format
  = (7, [VInt 3; VInt 2; VDouble (double_lit "0.5"); VDouble (Zero false);
         VDouble (double_lit "1"); VFloat (float_value (float_lit "-1")); VChar "M"]) /\
  fst (fscanf (lit "ncols3nrows2xllcorner.5yllcorner0cellsize1NODATA_value-1BYTEORDERM")
              header_format) = 7 /\
  fst (fscanf (lit "ncols 3.5 nrows 2 xllcorner 0.5 yllcorner 0 cellsize 1 NODATA_value -1 BYTEORDER M")
              header_format) = 1 /\
  fst (fscanf (lit "nrows 2 ncols 3 xllcorner 0.5 yllcorner 0 cellsize 1 NODATA_value -1 BYTEORDER M")
              header_format) = 0 /\
  fst (fscanf (lit "ncols 3 nrows 2 xllcorner west yllcorner 0 cellsize 1 NODATA_value -1 BYTEORDER M")
              header_format) = 2 /\
  fst (fscanf (lit "ncols 3 nrows 2 xllcorner 0.5 yllcorner 0 cellsize 1 NODATA_value -1 BYTEORDER")
              header_format) = 6 /\
  fst (fscanf [] header_format) = EOF.
Proof. repeat split; vm_compute; reflexivity. Qed.

(** What the conversions collect: an exponent mark that no digit follows
    goes with the number, [nan] is read without a parenthesised sequence,
    [0x.] is read as zero, [0x] alone and a part of [infinity] are no
    numbers; an integer beyond [int] that fits a [long] is cut to 32 bits. *)
Example fscanf_collected_numbers :
  fscanf (lit "1e rest") " %lf%c" = (2, [VDouble (double_lit "1"); VChar " "]) /\
  fscanf (lit "1e+x") " %lf%c" = (2, [VDouble (double_lit "1"); VChar "x"]) /\
  fscanf (lit "0x1p") " %lf%c" = (1, [VDouble (double_lit "1")]) /\
  fscanf (lit "nan(abc)") " %f%c" = (2, [VFloat (NaN false); VChar "("]) /\
  fscanf (lit "0x.z") " %lf%c" = (2, [VDouble (Zero false); VChar "z"]) /\
  fst (fscanf (lit "0xz") " %lf%c") = 0 /\
  fst (fscanf (lit "infinit") " %lf%c") = 0 /\
  fscanf (lit "99999999999x") " %d%c" = (2, [VInt 1215752191; VChar "x"]) /\
  fst (fscanf (lit "ncols 3 nrows 2 xllcorner 0 yllcorner 0 cellsize 1e NODATA_value -1 BYTEORDER M")
              header_format) = 7 /\
  fst (fscanf (lit "ncols 3 nrows 2 xllcorner 0 yllcorner 0 cellsize 1 NODATA_value nan(abc) BYTEORDER M")
              header_format) = 6.
Proof. repeat split; vm_compute; reflexivity. Qed.

(** ** The output stream *)

Lemma put_put (t1 t2 : text) (os : ostream) :
  put t2 (put t1 os) = put (t1 ++ t2) os.
Proof. unfold put; simpl. by rewrite <- app_assoc. Qed.

Lemma put_nil (os : ostream) : put [] os = os.
Proof. destruct os; unfold put; simpl. by rewrite app_nil_r. Qed.

(** A loop whose turns all write to the stream, under settings that the
    writes do not change, writes the concatenation of what they write. *)
Lemma for_loop_put (b : bool) (p : Z) (f : Z -> text) (body : Z -> ostream -> ostream)
    (lo hi : Z) (os : ostream) :
  (forall i os', fixed_flag os' = b -> precision os' = p -> body i os' = put (f i) os') ->
  fixed_flag os = b -> precision os = p ->
  for_loop lo hi body os = put (concat (map f (seqZ lo (hi - lo)))) os.
Proof.
  intros Hbody. unfold for_loop.
  generalize (seqZ lo (hi - lo)); intros l; revert os.
  induction l as [|i l IH]; intros os Hb Hp; simpl.
  - by rewrite put_nil.
  - rewrite (Hbody i os Hb Hp), IH by done. by rewrite put_put.
Qed.

(** Nested loops visit the cells in the order of [coords]. *)
Lemma for_loop_coords {S : Type} (cols rows : Z) (body : Z -> Z -> S -> S) (s : S) :
  for_loop 0 rows (fun y st => for_loop 0 cols (fun x st => body x y st) st) s =
  fold_left (fun st '(x, y) => body x y st) (coords cols rows) s.
Proof.
  unfold for_loop, coords. rewrite !Z.sub_0_r.
  generalize (seqZ 0 rows); intros ys; revert s.
  induction ys as [|y ys IH]; intros s; [done|].
  simpl. rewrite fold_left_app, <- IH. f_equal.
  generalize (seqZ 0 cols); intros xs; revert s.
  induction xs as [|x xs IHx]; intros s; [done|]. simpl. by rewrite IHx.
Qed.

Lemma NoDup_coords (cols rows : Z) : NoDup (coords cols rows).
Proof.
  unfold coords. apply NoDup_bind.
  - intros y1 y2 c _ _ H1 H2.
    apply list_elem_of_fmap in H1 as (x1 & -> & _).
    apply list_elem_of_fmap in H2 as (x2 & Heq & _). congruence.
  - intros y _. apply NoDup_fmap_2_strong; [|apply NoDup_seqZ].
    intros x1 x2 _ _ Heq. congruence.
  - apply NoDup_seqZ.
Qed.

Lemma elem_of_coords (cols rows x y : Z) :
  (x, y) ∈ coords cols rows <-> (0 <= x < cols) /\ (0 <= y < rows).
Proof.
  unfold coords. rewrite list_elem_of_bind. split.
  - intros (y' & Hin & Hy). apply list_elem_of_fmap in Hin as (x' & Heq & Hx).
    inversion Heq; subst. apply elem_of_seqZ in Hx, Hy. lia.
  - intros [Hx Hy]. exists y. split.
    + apply list_elem_of_fmap. exists x. split; [done|]. apply elem_of_seqZ. lia.
    + apply elem_of_seqZ. lia.
Qed.

(** ** Paths *)

Lemma list_ascii_of_string_app (s1 s2 : string) :
  list_ascii_of_string (s1 +:+ s2) = list_ascii_of_string s1 ++ list_ascii_of_string s2.
Proof. induction s1 as [|c s1 IH]; simpl; [done | by rewrite IH]. Qed.

Lemma string_length_list (s : string) :
  String.length s = length (list_ascii_of_string s).
Proof. induction s as [|c s IH]; simpl; [done | by rewrite IH]. Qed.

Lemma str_length_app (s1 s2 : string) :
  str_length (s1 +:+ s2) = str_length s1 + str_length s2.
Proof.
  unfold str_length. rewrite !string_length_list, list_ascii_of_string_app, length_app. lia.
Qed.

(** The two files of a binary pair are different files. *)
Lemma hdr_flt_distinct (basename : string) :
  (basename +:+ ".hdr")%string <> (basename +:+ ".flt")%string.
Proof.
  induction basename as [|c b IH]; simpl; [discriminate|].
  intros Heq. inversion Heq. contradiction.
Qed.

(** A path shorter than four characters has no four-character suffix to
    take: the position wraps around and lies beyond the end. *)
Lemma substr_short (path : string) :
  str_length path < 4 -> substr path (size_t_sub (str_length path) 4) = None.
Proof.
  intros Hlen. unfold substr, size_t_sub, str_length in *.
  assert (0 <= Z.of_nat (String.length path)) by lia.
  replace ((Z.of_nat (String.length path) - 4) mod 2 ^ 64)
    with (Z.of_nat (String.length path) - 4 + 2 ^ 64).
  - destruct (Z.ltb_spec (Z.of_nat (String.length path))
                         (Z.of_nat (String.length path) - 4 + 2 ^ 64)); [done | lia].
  - symmetry. rewrite <- (Z.mod_small (Z.of_nat (String.length path) - 4 + 2 ^ 64) (2 ^ 64)) by lia.
    rewrite <- Z.add_mod_idemp_r by lia. rewrite Z.mod_same by lia. f_equal. lia.
Qed.

Lemma substr_long (path : string) :
  4 <= str_length path < 2 ^ 64 ->
  exists suffix, substr path (size_t_sub (str_length path) 4) = Some suffix /\
    (suffix = ".omg"%string <-> ends_with ".omg" path).
Proof.
  intros Hlen. unfold substr, size_t_sub.
  rewrite Z.mod_small by lia.
  destruct (Z.ltb_spec (str_length path) (str_length path - 4)); [lia|].
  eexists. split; [reflexivity|].
  unfold str_length in *. rewrite string_length_list in *.
  set (l := list_ascii_of_string path) in *.
  assert (Hsplit : l = take (Z.to_nat (Z.of_nat (length l) - 4)) l
                        ++ drop (Z.to_nat (Z.of_nat (length l) - 4)) l)
    by (by rewrite take_drop).
  split.
  - intros Hsuf. exists (string_of_list_ascii (take (Z.to_nat (Z.of_nat (length l) - 4)) l)).
    rewrite <- Hsuf. rewrite <- (string_of_list_ascii_of_string path).
    fold l. rewrite Hsplit at 1.
    generalize (take (Z.to_nat (Z.of_nat (length l) - 4)) l).
    generalize (drop (Z.to_nat (Z.of_nat (length l) - 4)) l).
    intros k t. induction t as [|c t IH]; simpl; [done | by rewrite IH].
  - intros [stem Hstem]. subst l. rewrite Hstem.
    rewrite list_ascii_of_string_app, length_app. simpl.
    rewrite drop_app_length'; [done | lia].
Qed.

(** ** The ASCII writer *)

Section AsciiWriter.
Context {T : Type} `{CellType T}.
Variables grid_min grid_max : array2d T -> T.

Lemma ascii_rows (lead sep : string) (p : Z) (g : array2d T) (os : ostream)
    (output_type : Z) :
  fixed_flag os = true -> precision os = p ->
  lit lead = (if output_type =? OUTPUT_OMG then lit "|" else []) ->
  for_loop 0 (height g) (fun y fout =>
    let fout := if output_type =? OUTPUT_OMG then fout << "|" else fout in
    let fout :=
      for_loop 0 (width g) (fun x fout =>
        if (sizeof T =? 1)%nat
        then fout << to_int (cell g x y) << sep
        else fout << cell g x y << sep) fout in
    fout << endl) os
  = put (rows_text (lit lead) (cstr sep) p g) os.
Proof.
  intros Hb Hp Hlead. unfold rows_text. rewrite <- (Z.sub_0_r (height g)) at 2.
  apply (for_loop_put true p); [|done..].
  intros y os' Hb' Hp'. cbv zeta.
  rewrite (for_loop_put true p (fun x => cell_field p (cell g x y) ++ cstr sep)).
  - unfold row_text. rewrite Hlead, Z.sub_0_r.
    destruct (output_type =? OUTPUT_OMG);
      unfold insert, insert_manip, insert_literal;
      rewrite !put_put, <- ?app_assoc; reflexivity.
  - intros x os'' Hb'' Hp''. unfold cell_field.
    destruct (sizeof T =? 1)%nat;
      unfold insert, insert_cell, insert_integer, insert_literal;
      rewrite put_put, ?Hb'', ?Hp''; reflexivity.
  - by destruct (output_type =? OUTPUT_OMG).
  - by destruct (output_type =? OUTPUT_OMG).
Qed.

Lemma output_ascii_data_unwritable (filename : string) (g : array2d T) (p : Z)
    (fs : filesystem) :
  writable fs filename = false ->
  output_ascii_data grid_min grid_max filename g p fs
  = Exited (-1) (Opening filename) fs.
Proof. intros Hw. unfold output_ascii_data, ofstream_open. by rewrite Hw. Qed.

Lemma output_ascii_data_short (filename : string) (g : array2d T) (p : Z)
    (fs : filesystem) :
  writable fs filename = true -> str_length filename < 4 ->
  output_ascii_data grid_min grid_max filename g p fs
  = Thrown out_of_range (store filename [] fs).
Proof.
  intros Hw Hlen. unfold output_ascii_data, ofstream_open.
  by rewrite Hw, substr_short.
Qed.

Lemma output_ascii_data_arcgrid (filename : string) (g : array2d T) (p : Z)
    (fs : filesystem) :
  writable fs filename = true -> 4 <= str_length filename < 2 ^ 64 ->
  ~ ends_with ".omg" filename ->
  output_ascii_data grid_min grid_max filename g p fs
  = Returned 0 (store filename (arcgrid_text p g) (store filename [] fs)).
Proof.
  intros Hw Hlen Hsuf. unfold output_ascii_data, ofstream_open. rewrite Hw.
  destruct (substr_long filename Hlen) as (suffix & -> & Hiff).
  destruct (String.eqb_spec suffix ".omg") as [->|Hne]; [tauto|].
  cbv zeta iota beta.
  rewrite (ascii_rows "" " " p g _ OUTPUT_DEM); [|done..].
  unfold ofstream_close. do 2 f_equal.
  unfold arcgrid_text, arcgrid_header, entry, cell_field.
  destruct (sizeof T =? 1)%nat;
    unfold insert, insert_manip, insert_literal, insert_integer, insert_double,
      insert_cell;
    cbn [written put set_fixed set_precision fixed_flag precision];
    rewrite <- !app_assoc; reflexivity.
Qed.

Lemma output_ascii_data_omniglyph (filename : string) (g : array2d T) (p : Z)
    (fs : filesystem) :
  writable fs filename = true -> 4 <= str_length filename < 2 ^ 64 ->
  ends_with ".omg" filename ->
  output_ascii_data grid_min grid_max filename g p fs
  = Returned 0 (store filename (omniglyph_text grid_min grid_max p g)
                      (store filename [] fs)).
Proof.
  intros Hw Hlen Hsuf. unfold output_ascii_data, ofstream_open. rewrite Hw.
  destruct (substr_long filename Hlen) as (suffix & -> & Hiff).
  destruct (String.eqb_spec suffix ".omg") as [->|Hne]; [|tauto].
  cbv zeta iota beta.
  rewrite (ascii_rows "|" "|" p g _ OUTPUT_OMG); [|done..].
  unfold ofstream_close. do 2 f_equal.
  unfold omniglyph_text, omniglyph_header, line.
  unfold insert, insert_manip, insert_literal, insert_integer, insert_double,
    insert_cell;
    cbn [written put set_fixed set_precision fixed_flag precision];
    rewrite <- !app_assoc; reflexivity.
Qed.
End AsciiWriter.

(** ** The binary writer *)

Section BinaryWriter.
Context {T : Type} `{CellType T}.

Lemma fold_put_coords (f : Z -> Z -> text) (l : list (Z * Z)) (os : ostream) :
  fold_left (fun st '(x, y) => put (f x y) st) l os
  = put (concat (map (fun '(x, y) => f x y) l)) os.
Proof.
  revert os. induction l as [|[x y] l IH]; intros os; simpl.
  - by rewrite put_nil.
  - by rewrite IH, put_put.
Qed.

Lemma write_floating_data_spec (basename : string) (g : array2d T) (fs : filesystem) :
  writable fs (basename +:+ ".hdr") = true ->
  writable fs (basename +:+ ".flt") = true ->
  write_floating_data basename g fs = Returned 0 (written_pair basename g fs).
Proof.
  intros Hh Hd. unfold write_floating_data, ofstream_open.
  rewrite Hh. cbv zeta. cbn [writable ofstream_close store]. rewrite Hd.
  rewrite (for_loop_coords (width g) (height g) (fun x y => ostream_write (cell g x y))).
  unfold ostream_write.
  rewrite (fold_put_coords (fun x y => take (sizeof T) (to_bytes (cell g x y)))).
  unfold written_pair, ofstream_close, store, floating_payload, floating_header, entry.
  unfold insert, insert_manip, insert_literal, insert_integer, insert_double,
    insert_cell.
  cbn [files writable written put set_fixed set_precision fixed_flag precision].
  rewrite <- !app_assoc. reflexivity.
Qed.

Lemma written_pair_header (basename : string) (g : array2d T) (fs : filesystem) :
  files (written_pair basename g fs) !! (basename +:+ ".hdr")%string
  = Some (floating_header g).
Proof.
  unfold written_pair, store; cbn [files].
  rewrite !lookup_insert_ne by (symmetry; apply hdr_flt_distinct).
  by rewrite lookup_insert_eq.
Qed.

Lemma written_pair_payload (basename : string) (g : array2d T) (fs : filesystem) :
  files (written_pair basename g fs) !! (basename +:+ ".flt")%string
  = Some (floating_payload g).
Proof. unfold written_pair, store; cbn [files]. by rewrite lookup_insert_eq. Qed.
End BinaryWriter.

(** ** Decimal digits *)

Lemma code_chr (z : Z) : 0 <= z < 256 -> code (chr z) = z.
Proof.
  intros Hz. unfold code, chr. rewrite N_ascii_embedding; [lia|].
  apply N2Z.inj_lt. rewrite Z2N.id by lia. simpl. lia.
Qed.

Lemma is_digit_digit_char (d : Z) : 0 <= d < 10 -> is_digit (digit_char d) = true.
Proof.
  intros Hd. unfold is_digit, digit_char. rewrite code_chr by lia.
  apply andb_true_intro; split; apply Z.leb_le; lia.
Qed.

Lemma digit_val_digit_char (d : Z) : 0 <= d < 10 -> digit_val (digit_char d) = d.
Proof. intros Hd. unfold digit_val, digit_char. rewrite code_chr by lia. lia. Qed.

Lemma is_digit_code (c : ascii) : is_digit c = true -> 48 <= code c <= 57.
Proof. unfold is_digit. intros [H1 H2]%andb_prop. apply Z.leb_le in H1, H2. lia. Qed.

(** A character that is not a digit differs from every digit. *)
Lemma eqb_non_digit (x d : ascii) :
  is_digit d = true -> is_digit x = false -> Ascii.eqb x d = false.
Proof. intros Hd Hx. destruct (Ascii.eqb_spec x d); [congruence | done]. Qed.

Lemma to_lower_digit (d : ascii) : is_digit d = true -> to_lower d = d.
Proof.
  intros Hd%is_digit_code. unfold to_lower.
  destruct (Z.leb_spec 65 (code d)); [lia | done].
Qed.

Lemma digits_fuel_digits (fuel : nat) (n : Z) (acc : text) :
  forallb is_digit acc = true -> forallb is_digit (digits_fuel fuel n acc) = true.
Proof.
  revert n acc. induction fuel as [|fuel IH]; intros n acc Hacc; simpl; [done|].
  assert (Hd : forallb is_digit (digit_char (n mod 10) :: acc) = true).
  { simpl. rewrite Hacc, is_digit_digit_char; [done|]. apply Z.mod_pos_bound. lia. }
  destruct (n <? 10); [done | by apply IH].
Qed.

Lemma digits_fuel_length (fuel : nat) (n : Z) (acc : text) :
  (length acc <= length (digits_fuel fuel n acc))%nat.
Proof.
  revert n acc. induction fuel as [|fuel IH]; intros n acc; simpl; [lia|].
  destruct (n <? 10); simpl; [lia|]. etrans; [|apply IH]. simpl. lia.
Qed.

Lemma dec_nat_digits (n : Z) : forallb is_digit (dec_nat n) = true.
Proof. by apply digits_fuel_digits. Qed.

Lemma dec_nat_nonempty (n : Z) : (0 < length (dec_nat n))%nat.
Proof.
  unfold dec_nat. simpl. destruct (n <? 10); simpl; [lia|].
  eapply Nat.lt_le_trans; [|apply digits_fuel_length]. simpl. lia.
Qed.

Lemma digits_val_acc (ds : text) (a : Z) :
  fold_left (fun a c => 10 * a + digit_val c) ds a
  = a * 10 ^ Z.of_nat (length ds) + digits_val ds.
Proof.
  unfold digits_val. revert a. induction ds as [|d ds IH]; intros a.
  - simpl. lia.
  - cbn [fold_left length]. rewrite IH, (IH (10 * 0 + digit_val d)).
    rewrite Nat2Z.inj_succ, Z.pow_succ_r by lia. lia.
Qed.

Lemma digits_val_cons (d : ascii) (ds : text) :
  digits_val (d :: ds) = digit_val d * 10 ^ Z.of_nat (length ds) + digits_val ds.
Proof. unfold digits_val at 1. cbn [fold_left]. rewrite digits_val_acc. lia. Qed.

Lemma digits_fuel_val (fuel : nat) (n : Z) (acc : text) :
  0 <= n < 2 ^ Z.of_nat fuel ->
  digits_val (digits_fuel fuel n acc)
  = n * 10 ^ Z.of_nat (length acc) + digits_val acc.
Proof.
  revert n acc. induction fuel as [|fuel IH]; intros n acc Hn.
  - simpl in *. assert (n = 0) by lia. subst. lia.
  - cbn [digits_fuel]. rewrite Nat2Z.inj_succ, Z.pow_succ_r in Hn by lia.
    assert (Hmod : 0 <= n mod 10 < 10) by (apply Z.mod_pos_bound; lia).
    destruct (Z.ltb_spec n 10).
    + rewrite digits_val_cons, digit_val_digit_char by lia.
      rewrite Z.mod_small by lia. lia.
    + rewrite IH.
      * rewrite digits_val_cons, digit_val_digit_char by lia.
        cbn [length]. rewrite Nat2Z.inj_succ, Z.pow_succ_r by lia.
        pose proof (Z.div_mod n 10). lia.
      * split; [apply Z.div_pos; lia|]. apply Z.div_lt_upper_bound; lia.
Qed.

(** The decimal digits of a natural number denote it. *)
Lemma digits_val_dec_nat (n : Z) : 0 <= n -> digits_val (dec_nat n) = n.
Proof.
  intros Hn. unfold dec_nat. rewrite digits_fuel_val; [simpl; unfold digits_val; simpl; lia|].
  split; [done|]. rewrite Nat2Z.inj_succ, Z2Nat.id by apply Z.log2_nonneg.
  destruct (Z.eq_dec n 0) as [->|]; [done|]. apply Z.log2_spec. lia.
Qed.

(** ** Scanning what was written *)

Lemma span_digits (ds tail : text) :
  forallb is_digit ds = true ->
  match tail with [] => True | c :: _ => is_digit c = false end ->
  span is_digit (ds ++ tail) = (ds, tail).
Proof.
  intros Hds Htail. induction ds as [|d ds IH]; simpl in *.
  - destruct tail as [|c r]; [done|]. simpl. by rewrite Htail.
  - apply andb_prop in Hds as [-> Hds]. by rewrite IH.
Qed.

Lemma to_int32_small (z : Z) : - 2 ^ 31 <= z < 2 ^ 31 -> to_int32 (clamp_long z) = z.
Proof.
  intros Hz. unfold to_int32, clamp_long.
  rewrite Z.min_r, Z.max_r by lia. rewrite Z.mod_small by lia. lia.
Qed.

Lemma lex_sign_digit (d : ascii) (s : text) :
  is_digit d = true -> lex_sign (d :: s) = (false, d :: s).
Proof.
  intros Hd. unfold lex_sign.
  rewrite (Ascii.eqb_sym d "-"), (Ascii.eqb_sym d "+"), !(eqb_non_digit _ d) by done. done.
Qed.

(** [%d] reads back the integer that [operator<<] wrote. *)
Lemma lex_int_dec_int (z : Z) (c : ascii) (r : text) :
  is_digit c = false -> lex_int (dec_int z ++ c :: r) = Some (z, c :: r).
Proof.
  intros Hc. unfold lex_int, dec_int.
  destruct (Z.ltb_spec z 0).
  - cbn [app lex_sign]. change (Ascii.eqb "-" "-") with true. cbv iota.
    rewrite span_digits by (done || apply dec_nat_digits).
    pose proof (dec_nat_nonempty (- z)). destruct (dec_nat (- z)) eqn:E; [simpl in *; lia|].
    rewrite <- E, digits_val_dec_nat by lia. f_equal. f_equal. lia.
  - pose proof (dec_nat_nonempty z). pose proof (dec_nat_digits z) as Hds.
    destruct (dec_nat z) as [|d ds] eqn:E; [simpl in *; lia|].
    cbn [app]. rewrite lex_sign_digit by (simpl in Hds; by apply andb_prop in Hds as [? _]).
    change (d :: ds ++ c :: r) with ((d :: ds) ++ c :: r).
    rewrite span_digits by done. rewrite <- E, digits_val_dec_nat by lia. done.
Qed.

(** ** Fixed-point numerals *)

(** The shape of a fixed-point numeral: a sign, digits, and after the
    point exactly [p] digits. *)
Lemma point_text_shape (p : nat) (ds : text) :
  forallb is_digit ds = true -> (0 < length ds)%nat ->
  exists ip fp,
    point_text p ds = ip ++ match p with O => [] | S _ => "."%char :: fp end /\
    forallb is_digit ip = true /\ (0 < length ip)%nat /\
    forallb is_digit fp = true /\ length fp = p.
Proof.
  intros Hds Hlen. unfold point_text, pad_zeros.
  set (ds' := replicate (S p - length ds) "0"%char ++ ds).
  assert (Hds' : forallb is_digit ds' = true).
  { unfold ds'. rewrite forallb_app, Hds, andb_true_r.
    generalize (S p - length ds)%nat. intros k. induction k; simpl; auto. }
  assert (Hlen' : (S p <= length ds')%nat).
  { unfold ds'. rewrite length_app, length_replicate. lia. }
  exists (take (length ds' - p) ds'), (drop (length ds' - p) ds').
  rewrite <- (take_drop (length ds' - p) ds'), forallb_app in Hds'.
  apply andb_prop in Hds' as [Hip Hfp].
  repeat split; try done.
  - rewrite length_take. lia.
  - rewrite length_drop. lia.
Qed.

Lemma fmt_fixed_shape (p : Z) (v : ieee) :
  0 <= p ->
  match v with Zero _ | Finite _ _ _ => True | _ => False end ->
  exists ip fp,
    fmt_fixed p v
    = sign_text (sign_of v) ++ ip ++ match Z.to_nat p with O => [] | S _ => "."%char :: fp end /\
    forallb is_digit ip = true /\ (0 < length ip)%nat /\
    forallb is_digit fp = true /\ length fp = Z.to_nat p.
Proof.
  intros Hp Hv. unfold fmt_fixed.
  destruct v as [s|s|s|s m e]; try done.
  - destruct (point_text_shape (Z.to_nat p) (dec_nat 0)) as (ip & fp & -> & ?);
      [apply dec_nat_digits | apply dec_nat_nonempty | by exists ip, fp].
  - destruct (point_text_shape (Z.to_nat p) (dec_nat (scaled10 m e p))) as (ip & fp & -> & ?);
      [apply dec_nat_digits | apply dec_nat_nonempty | by exists ip, fp].
Qed.

Lemma fixed_point_text_shape (s : bool) (p : nat) (ip fp : text) :
  forallb is_digit ip = true -> (0 < length ip)%nat ->
  forallb is_digit fp = true -> length fp = p ->
  fixed_point_text p
    (sign_text s ++ ip ++ match p with O => [] | S _ => "."%char :: fp end) = true.
Proof.
  intros Hip Hlen Hfp Hp. unfold fixed_point_text.
  destruct ip as [|d ip]; [simpl in Hlen; lia|].
  assert (Hd : is_digit d = true) by (simpl in Hip; by apply andb_prop in Hip as [? _]).
  set (body := (d :: ip) ++ match p with O => [] | S _ => "."%char :: fp end).
  assert (Hbody : span is_digit body
                  = (d :: ip, match p with O => [] | S _ => "."%char :: fp end)).
  { unfold body. destruct p; [|rewrite span_digits; [done | exact Hip | reflexivity]].
    rewrite span_digits; [done | exact Hip | exact I]. }
  assert (Hgoal : (let '(ip0, r) := span is_digit body in
     negb (length ip0 =? 0)%nat &&
     match p, r with
     | O, [] => true
     | S _, c :: fp0 => Ascii.eqb c "." && forallb is_digit fp0 && (length fp0 =? p)%nat
     | _, _ => false
     end) = true).
  { rewrite Hbody. cbn [length Nat.eqb negb andb]. destruct p; [done|].
    change (Ascii.eqb "." ".") with true. by rewrite Hfp, Hp, Nat.eqb_refl. }
  destruct s; [exact Hgoal|].
  cbn [sign_text app]. fold body. unfold body at 1. cbn [app].
  rewrite (Ascii.eqb_sym d "-"), (eqb_non_digit _ d) by done. exact Hgoal.
Qed.

(** A finite number written under [fixed] with precision [p] is a
    fixed-point numeral with [p] decimals. *)
Lemma fmt_fixed_fixed_point (p : Z) (v : ieee) :
  0 <= p ->
  match v with Zero _ | Finite _ _ _ => True | _ => False end ->
  fixed_point_text (Z.to_nat p) (fmt_fixed p v) = true.
Proof.
  intros Hp Hv. destruct (fmt_fixed_shape p v Hp Hv) as (ip & fp & -> & ? & ? & ? & ?).
  by apply fixed_point_text_shape.
Qed.

Lemma integer_text_dec_int (z : Z) : integer_text (dec_int z) = true.
Proof.
  unfold integer_text, dec_int. destruct (z <? 0).
  - change (Ascii.eqb "-" "-") with true. cbv iota.
    pose proof (dec_nat_nonempty (- z)). rewrite dec_nat_digits.
    destruct (dec_nat (- z)); [simpl in *; lia | done].
  - pose proof (dec_nat_nonempty z). pose proof (dec_nat_digits z) as Hds.
    destruct (dec_nat z) as [|d ds]; [simpl in *; lia|].
    assert (is_digit d = true) by (simpl in Hds; by apply andb_prop in Hds as [? _]).
    by rewrite (Ascii.eqb_sym d "-"), (eqb_non_digit _ d).
Qed.

(** A numeral made of digits, a point and digits is read whole, up to a
    character that cannot continue it. *)
Lemma lex_float_decimal (s : bool) (ip fp tail : text) :
  forallb is_digit ip = true -> (0 < length ip)%nat ->
  forallb is_digit fp = true ->
  match tail with
  | [] => True
  | c :: _ => is_digit c = false /\ Ascii.eqb (to_lower c) "e" = false
  end ->
  lex_float (sign_text s ++ ip ++ "."%char :: fp ++ tail) = Some (s, TokDec ip fp 0, tail).
Proof.
  intros Hip Hlen Hfp Htail. unfold lex_float.
  destruct ip as [|d ip]; [simpl in Hlen; lia|].
  assert (Hd : is_digit d = true) by (simpl in Hip; by apply andb_prop in Hip as [? _]).
  assert (Hsign : lex_sign (sign_text s ++ (d :: ip) ++ "."%char :: fp ++ tail)
                  = (s, (d :: ip) ++ "."%char :: fp ++ tail)).
  { destruct s; [done|]. cbn [sign_text app]. by rewrite lex_sign_digit. }
  rewrite Hsign.
  assert (Hun : lex_unsigned_float ((d :: ip) ++ "."%char :: fp ++ tail)
                = Some (TokDec (d :: ip) fp 0, tail)).
  { unfold lex_unsigned_float.
    cbn [app lit list_ascii_of_string strip_prefix_ci]. rewrite to_lower_digit by done.
    rewrite !(eqb_non_digit _ d) by done.
    assert (Hdec : match lex_mantissa is_digit (d :: ip ++ "."%char :: fp ++ tail) with
                   | Some (ip, fp, r1) =>
                       match lex_exponent "e" r1 with
                       | Some (ex, r2) => Some (TokDec ip fp ex, r2)
                       | None => None
                       end
                   | None => None
                   end = Some (TokDec (d :: ip) fp 0, tail)).
    { unfold lex_mantissa.
      change (d :: ip ++ "."%char :: fp ++ tail) with ((d :: ip) ++ "."%char :: fp ++ tail).
      rewrite span_digits by done.
      change (Ascii.eqb "." ".") with true. cbv iota.
      rewrite span_digits by (done || by destruct tail as [|c r]; [|destruct Htail]).
      cbn [app]. unfold lex_exponent.
      destruct tail as [|c r]; [done|]. destruct Htail as [_ ->]. done. }
    destruct (Ascii.eqb "0" d); [|exact Hdec].
    destruct ip as [|d' ip]; cbn [app]; [exact Hdec|].
    assert (is_digit d' = true)
      by (simpl in Hip; apply andb_prop in Hip as [_ Hip];
          by apply andb_prop in Hip as [? _]).
    rewrite to_lower_digit, (eqb_non_digit _ d') by done. exact Hdec. }
  by rewrite Hun.
Qed.

Lemma scan_float_fixed (f : format) (p : Z) (v : ieee) (rest : text) :
  0 < p ->
  scan_float f (fmt_fixed p v ++ newline :: rest) = Some (reread f p v, newline :: rest).
Proof.
  intros Hp. unfold reread, float_text.
  destruct (Z.ltb_spec p 0); [lia|].
  assert (Hfin : match v with Zero _ | Finite _ _ _ => True | _ => False end ->
    scan_float f (fmt_fixed p v ++ newline :: rest)
    = Some (match scan_float f (fmt_fixed p v) with Some (v', _) => v' | None => v end,
            newline :: rest)).
  { intros Hv.
    destruct (fmt_fixed_shape p v) as (ip & fp & -> & Hip & Hlen & Hfp & Hn); [lia | done |].
    destruct (Z.to_nat p) eqn:E; [lia|].
    assert (E1 : (sign_text (sign_of v) ++ ip ++ "."%char :: fp) ++ newline :: rest
                 = sign_text (sign_of v) ++ ip ++ "."%char :: fp ++ newline :: rest)
      by (by rewrite <- !app_assoc).
    assert (E2 : sign_text (sign_of v) ++ ip ++ "."%char :: fp = sign_text (sign_of v) ++ ip ++ "."%char :: fp ++ [])
      by (by rewrite app_nil_r).
    unfold scan_float. rewrite E1, lex_float_decimal by done.
    rewrite E2, lex_float_decimal by done. done. }
  destruct v as [s|s|s|s m e]; try (by apply Hfin); by destruct s.
Qed.

(** ** [fscanf] on the header that the binary writer wrote *)

Lemma scanf_lit (c : ascii) (ds : list directive) (s : text) (acc : list scanned) :
  scanf (Lit c :: ds) (c :: s) acc = scanf ds s acc.
Proof. simpl. by rewrite Ascii.eqb_refl. Qed.

Lemma skip_space_tabs (k : nat) (c : ascii) (s : text) :
  is_space c = false -> skip_space (replicate k tab ++ c :: s) = c :: s.
Proof. intros Hc. induction k; simpl; [by rewrite Hc | done]. Qed.

Lemma dec_int_head (z : Z) :
  exists c r, dec_int z = c :: r /\ is_space c = false.
Proof.
  unfold dec_int. destruct (z <? 0); [by eexists _, _|].
  pose proof (dec_nat_nonempty z). pose proof (dec_nat_digits z) as Hds.
  destruct (dec_nat z) as [|d ds]; [simpl in *; lia|].
  exists d, ds. split; [done|]. simpl in Hds. apply andb_prop in Hds as [Hd%is_digit_code _].
  unfold is_space. destruct (Z.eqb_spec (code d) 32); [lia|].
  destruct (Z.leb_spec (code d) 13); [lia|]. by rewrite andb_false_r.
Qed.

Lemma fmt_fixed_head (p : Z) (v : ieee) :
  0 <= p -> exists c r, fmt_fixed p v = c :: r /\ is_space c = false.
Proof.
  intros Hp.
  assert (Hdig : forall d, is_digit d = true -> is_space d = false).
  { intros d Hd%is_digit_code. unfold is_space.
    destruct (Z.eqb_spec (code d) 32); [lia|].
    destruct (Z.leb_spec (code d) 13); [lia|]. by rewrite andb_false_r. }
  assert (Hfin : match v with Zero _ | Finite _ _ _ => True | _ => False end ->
                 exists c r, fmt_fixed p v = c :: r /\ is_space c = false).
  { intros Hv.
    destruct (fmt_fixed_shape p v Hp Hv) as (ip & fp & -> & Hip & Hlen & _).
    destruct (sign_of v); [by eexists _, _|].
    destruct ip as [|d ip]; [simpl in Hlen; lia|]. exists d. eexists. split; [done|].
    apply Hdig. simpl in Hip. by apply andb_prop in Hip as [? _]. }
  destruct v as [s|s|s|s m e]; try (by apply Hfin); destruct s; by eexists _, _.
Qed.

Lemma scanf_int_entry (ds : list directive) (k : nat) (z : Z) (rest : text)
    (acc : list scanned) :
  - 2 ^ 31 <= z < 2 ^ 31 ->
  scanf (Space :: ConvD :: ds) (replicate k tab ++ dec_int z ++ newline :: rest) acc
  = scanf ds (newline :: rest) (acc ++ [VInt z]).
Proof.
  intros Hz. destruct (dec_int_head z) as (c & r & Hhead & Hc).
  cbn [scanf]. rewrite Hhead. cbn [app]. rewrite skip_space_tabs by done.
  cbn [skip_space]. rewrite Hc.
  change (c :: r ++ newline :: rest) with ((c :: r) ++ newline :: rest).
  rewrite <- Hhead. unfold convert. rewrite lex_int_dec_int by done.
  by rewrite to_int32_small.
Qed.

Lemma scanf_float_entry (d : directive) (f : format) (wrap : ieee -> scanned)
    (ds : list directive) (k : nat) (p : Z) (v : ieee) (rest : text)
    (acc : list scanned) :
  (d = ConvLF /\ f = binary64 /\ wrap = VDouble) \/
  (d = ConvF /\ f = binary32 /\ wrap = VFloat) ->
  0 < p ->
  scanf (Space :: d :: ds) (replicate k tab ++ fmt_fixed p v ++ newline :: rest) acc
  = scanf ds (newline :: rest) (acc ++ [wrap (reread f p v)]).
Proof.
  intros Hd Hp. destruct (fmt_fixed_head p v) as (c & r & Hhead & Hc); [lia|].
  pose proof (scan_float_fixed f p v rest Hp) as Hscan. rewrite Hhead in Hscan.
  destruct Hd as [(-> & -> & ->)|(-> & -> & ->)];
    cbn [scanf]; rewrite Hhead; cbn [app]; rewrite skip_space_tabs by done;
    cbn [skip_space]; rewrite Hc; unfold convert;
    change (c :: r ++ newline :: rest) with ((c :: r) ++ newline :: rest);
    by rewrite Hscan.
Qed.

Lemma header_directives_eq :
  header_directives =
  map Lit (lit "ncols") ++ Space :: ConvD :: Space ::
  map Lit (lit "nrows") ++ Space :: ConvD :: Space ::
  map Lit (lit "xllcorner") ++ Space :: ConvLF :: Space ::
  map Lit (lit "yllcorner") ++ Space :: ConvLF :: Space ::
  map Lit (lit "cellsize") ++ Space :: ConvLF :: Space ::
  map Lit (lit "NODATA_value") ++ Space :: ConvF :: Space ::
  map Lit (lit "BYTEORDER") ++ [Space; ConvC].
Proof. reflexivity. Qed.


Lemma fscanf_header_format (s : text) :
  fscanf s header_format = scanf header_directives s [].
Proof. unfold fscanf, header_directives. reflexivity. Qed.

Lemma scanf_key (key : text) (ds : list directive) (s : text) (acc : list scanned) :
  scanf (map Lit key ++ ds) (key ++ s) acc = scanf ds s acc.
Proof. induction key as [|c key IH]; [done|]. cbn [map app]. by rewrite scanf_lit. Qed.

Lemma scanf_space_newline (ds : list directive) (s : text) (acc : list scanned) :
  scanf (Space :: ds) (newline :: s) acc = scanf ds (skip_space s) acc.
Proof. reflexivity. Qed.

Lemma skip_space_key (key s : text) :
  match key with c :: _ => is_space c = false | [] => False end ->
  skip_space (key ++ s) = key ++ s.
Proof. destruct key as [|c key]; [done|]. intros Hc. cbn [app skip_space]. by rewrite Hc. Qed.

Lemma scanf_last_char (c : ascii) (r : text) (acc : list scanned) :
  is_space c = false ->
  scanf [Space; ConvC] (tab :: c :: r) acc
  = (Z.of_nat (length (acc ++ [VChar c])), acc ++ [VChar c]).
Proof.
  intros Hc. cbn [scanf skip_space]. change (is_space tab) with true. cbv iota.
  cbn [skip_space]. by rewrite Hc.
Qed.

Lemma scanf_floating_header_numbers (g : array2d float) (rest : text) :
  - 2 ^ 31 <= width g < 2 ^ 31 -> - 2 ^ 31 <= height g < 2 ^ 31 ->
  scanf header_directives (floating_header_numbers g ++ rest) []
  = scanf (map Lit (lit "BYTEORDER") ++ [Space; ConvC]) (skip_space rest)
      [VInt (width g); VInt (height g);
       VDouble (reread binary64 10 (xllcorner g));
       VDouble (reread binary64 10 (yllcorner g));
       VDouble (reread binary64 10 (cellsize g));
       VFloat (reread binary32 10 (float_value (no_data g)))].
Proof.
  intros Hw Hh. rewrite header_directives_eq.
  assert (Hlayout : floating_header_numbers g ++ rest =
    lit "ncols" ++ replicate 2 tab ++ dec_int (width g) ++ newline ::
    lit "nrows" ++ replicate 2 tab ++ dec_int (height g) ++ newline ::
    lit "xllcorner" ++ replicate 1 tab ++ fmt_fixed 10 (xllcorner g) ++ newline ::
    lit "yllcorner" ++ replicate 1 tab ++ fmt_fixed 10 (yllcorner g) ++ newline ::
    lit "cellsize" ++ replicate 1 tab ++ fmt_fixed 10 (cellsize g) ++ newline ::
    lit "NODATA_value" ++ replicate 1 tab ++ fmt_fixed 10 (float_value (no_data g)) ++
    newline :: rest).
  { unfold floating_header_numbers, entry.
    change (float_text true 10) with (fmt_fixed 10).
    change (cell_text true 10 (no_data g)) with (fmt_fixed 10 (float_value (no_data g))).
    generalize (fmt_fixed 10 (xllcorner g)) (fmt_fixed 10 (yllcorner g))
      (fmt_fixed 10 (cellsize g)) (fmt_fixed 10 (float_value (no_data g)))
      (dec_int (width g)) (dec_int (height g)).
    intros t1 t2 t3 t4 t5 t6.
    repeat (rewrite <- app_assoc; cbn [app]). reflexivity. }
  rewrite Hlayout. clear Hlayout.
  rewrite scanf_key, scanf_int_entry, scanf_space_newline, skip_space_key by done.
  rewrite scanf_key, scanf_int_entry, scanf_space_newline, skip_space_key by done.
  rewrite scanf_key, (scanf_float_entry ConvLF binary64 VDouble),
    scanf_space_newline, skip_space_key by (done || lia || tauto).
  rewrite scanf_key, (scanf_float_entry ConvLF binary64 VDouble),
    scanf_space_newline, skip_space_key by (done || lia || tauto).
  rewrite scanf_key, (scanf_float_entry ConvLF binary64 VDouble),
    scanf_space_newline, skip_space_key by (done || lia || tauto).
  rewrite scanf_key, (scanf_float_entry ConvF binary32 VFloat),
    scanf_space_newline by (done || lia || tauto).
  reflexivity.
Qed.

(** Without its [BYTEORDER] entry the header yields six items, not seven. *)
Lemma fscanf_floating_header_numbers (g : array2d float) :
  - 2 ^ 31 <= width g < 2 ^ 31 -> - 2 ^ 31 <= height g < 2 ^ 31 ->
  fst (fscanf (floating_header_numbers g) header_format) = 6.
Proof.
  intros Hw Hh. rewrite fscanf_header_format.
  rewrite <- (app_nil_r (floating_header_numbers g)).
  by rewrite scanf_floating_header_numbers.
Qed.

(** The header of a [float] grid is read back whole; what follows the
    first character of the byte-order label is not looked at. *)
Lemma fscanf_floating_header (g : array2d float) (extra : text) :
  - 2 ^ 31 <= width g < 2 ^ 31 -> - 2 ^ 31 <= height g < 2 ^ 31 ->
  fscanf (floating_header g ++ extra) header_format
  = (7, [VInt (width g); VInt (height g);
         VDouble (reread binary64 10 (xllcorner g));
         VDouble (reread binary64 10 (yllcorner g));
         VDouble (reread binary64 10 (cellsize g));
         VFloat (reread binary32 10 (float_value (no_data g)));
         VChar "L"]).
Proof.
  intros Hw Hh. rewrite fscanf_header_format.
  assert (Hlayout : floating_header g ++ extra
                    = floating_header_numbers g
                      ++ lit "BYTEORDER" ++ tab :: "L"%char :: lit "SBFIRST" ++ newline :: extra).
  { unfold floating_header, floating_header_numbers.
    generalize (entry "ncols" 2 (dec_int (width g)))
      (entry "nrows" 2 (dec_int (height g)))
      (entry "xllcorner" 1 (float_text true 10 (xllcorner g)))
      (entry "yllcorner" 1 (float_text true 10 (yllcorner g)))
      (entry "cellsize" 1 (float_text true 10 (cellsize g)))
      (entry "NODATA_value" 1 (cell_text true 10 (no_data g))).
    intros e1 e2 e3 e4 e5 e6. by rewrite <- !app_assoc. }
  rewrite Hlayout, scanf_floating_header_numbers, skip_space_key by done.
  by rewrite scanf_key, scanf_last_char.
Qed.

(** ** The binary reader *)

Section ReaderFacts.
Variable fresh : Z -> Z -> float.

Lemma read_cells_cons (x y : Z) (l : list (Z * Z)) (st : array2d float * istream) :
  read_cells ((x, y) :: l) st = read_cells l (read_cell x y st).
Proof. reflexivity. Qed.

Lemma read_cell_frame (x y : Z) (g : array2d float) (fin : istream) :
  let g' := fst (read_cell x y (g, fin)) in
  width g' = width g /\ height g' = height g /\
  xllcorner g' = xllcorner g /\ yllcorner g' = yllcorner g /\
  cellsize g' = cellsize g /\ no_data g' = no_data g /\
  (forall x' y', (x', y') <> (x, y) -> cell g' x' y' = cell g x' y') /\
  data_cells g' = data_cells g
    + (if cell_neq (cell g' x y) (no_data g') then 1 else 0).
Proof.
  unfold read_cell. destruct (istream_read (sizeof float) (to_bytes (cell g x y)) fin) as [obj fin'].
  assert (Hother : forall x' y', (x', y') <> (x, y) ->
            cell (set_cell x y (of_bytes obj) g) x' y' = cell g x' y').
  { intros x' y' Hne. unfold set_cell. cbn [cell].
    destruct (Z.eqb_spec x' x), (Z.eqb_spec y' y); try done. congruence. }
  assert (Hmeta : width (set_cell x y (of_bytes obj) g) = width g /\
                  height (set_cell x y (of_bytes obj) g) = height g /\
                  xllcorner (set_cell x y (of_bytes obj) g) = xllcorner g /\
                  yllcorner (set_cell x y (of_bytes obj) g) = yllcorner g /\
                  cellsize (set_cell x y (of_bytes obj) g) = cellsize g /\
                  no_data (set_cell x y (of_bytes obj) g) = no_data g /\
                  data_cells (set_cell x y (of_bytes obj) g) = data_cells g) by done.
  revert Hother Hmeta. generalize (set_cell x y (of_bytes obj) g). intros g1 Hother Hmeta.
  destruct Hmeta as (? & ? & ? & ? & ? & ? & ?).
  destruct (cell_neq (cell g1 x y) (no_data g1)) eqn:E; cbn [fst];
    cbn [set_data_cells width height xllcorner yllcorner cellsize no_data cell data_cells];
    rewrite ?E; (split_and!; [done..| exact Hother | lia]).
Qed.

Lemma read_cells_frame (l : list (Z * Z)) (g : array2d float) (fin : istream) :
  let g' := fst (read_cells l (g, fin)) in
  width g' = width g /\ height g' = height g /\
  xllcorner g' = xllcorner g /\ yllcorner g' = yllcorner g /\
  cellsize g' = cellsize g /\ no_data g' = no_data g /\
  (forall x y, (x, y) ∉ l -> cell g' x y = cell g x y).
Proof.
  revert g fin. induction l as [|[x y] l IH]; intros g fin; [done|].
  rewrite read_cells_cons. destruct (read_cell x y (g, fin)) as [g1 fin1] eqn:E.
  pose proof (read_cell_frame x y g fin) as Hstep. rewrite E in Hstep. cbn [fst] in Hstep.
  destruct Hstep as (? & ? & ? & ? & ? & ? & Hcell & _).
  destruct (IH g1 fin1) as (? & ? & ? & ? & ? & ? & Hrest).
  cbv zeta. split_and!; [congruence..|].
  intros x' y' Hnotin. apply not_elem_of_cons in Hnotin as [Hne Hnotin].
  rewrite Hrest by done. by apply Hcell.
Qed.

(** The counter counts the cells read that differ from the no-data value. *)
Lemma read_cells_count (l : list (Z * Z)) (g : array2d float) (fin : istream) :
  NoDup l ->
  let g' := fst (read_cells l (g, fin)) in
  data_cells g' = data_cells g
    + Z.of_nat (length (List.filter (fun '(x, y) => cell_neq (cell g' x y) (no_data g')) l)).
Proof.
  revert g fin. induction l as [|[x y] l IH]; intros g fin Hnd; [simpl; lia|].
  apply NoDup_cons in Hnd as [Hnotin Hnd].
  rewrite read_cells_cons. destruct (read_cell x y (g, fin)) as [g1 fin1] eqn:E.
  pose proof (read_cell_frame x y g fin) as Hstep. rewrite E in Hstep. cbn [fst] in Hstep.
  destruct Hstep as (_ & _ & _ & _ & _ & _ & _ & Hcount).
  pose proof (read_cells_frame l g1 fin1) as (_ & _ & _ & _ & _ & Hnd' & Hcell).
  specialize (IH g1 fin1 Hnd). cbv zeta in *.
  rewrite IH, Hcount. cbn [List.filter].
  rewrite (Hcell x y Hnotin), Hnd'.
  destruct (cell_neq (cell g1 x y) (no_data g1)); cbn [length]; lia.
Qed.

Lemma of_to_bytes_float (v : float) : of_bytes (to_bytes v) = v.
Proof. by destruct v. Qed.




End ReaderFacts.

Section ReaderRuns.
Variable fresh : Z -> Z -> float.

(** The grid that the reader builds from the items of the header and the
    payload. *)
Lemma read_floating_data_run (basename : string) (grid : array2d float) (fs : filesystem)
    (hdr payload : text) (columns rows : Z) (xll yll csz nd : ieee) (bo : ascii) :
  files fs !! (basename +:+ ".hdr")%string = Some hdr ->
  fscanf hdr header_format
  = (7, [VInt columns; VInt rows; VDouble xll; VDouble yll; VDouble csz; VFloat nd; VChar bo]) ->
  files fs !! (basename +:+ ".flt")%string = Some payload ->
  read_floating_data fresh basename grid fs
  = Returned (0, fst (read_cells (coords columns rows)
                        (Array2d columns rows fresh xll yll csz (float_of_ieee nd) 0,
                         {| pending := payload; good := true |}))) fs.
Proof.
  intros Hhdr Hscan Hflt. unfold read_floating_data, fopen_read, ifstream_open.
  rewrite Hhdr, Hscan, Hflt. cbn [Z.eqb Pos.eqb negb].
  rewrite for_loop_coords.
  unfold resize, set_data_cells, set_no_data, set_cellsize, set_yllcorner, set_xllcorner.
  cbn [width height cell xllcorner yllcorner cellsize no_data data_cells].
  unfold read_cells. by destruct (fold_left _ _ _).
Qed.

Lemma read_floating_data_returned (basename : string) (grid : array2d float)
    (fs fs' : filesystem) (r : Z) (g2 : array2d float) :
  read_floating_data fresh basename grid fs = Returned (r, g2) fs' ->
  exists hdr payload columns rows xll yll csz nd bo,
    files fs !! (basename +:+ ".hdr")%string = Some hdr /\
    fscanf hdr header_format
    = (7, [VInt columns; VInt rows; VDouble xll; VDouble yll; VDouble csz;
           VFloat nd; VChar bo]) /\
    files fs !! (basename +:+ ".flt")%string = Some payload /\
    r = 0 /\ fs' = fs /\
    g2 = fst (read_cells (coords columns rows)
                (Array2d columns rows fresh xll yll csz (float_of_ieee nd) 0,
                 {| pending := payload; good := true |})).
Proof.
  intros Hret0. pose proof Hret0 as Hret.
  destruct (files fs !! (basename +:+ ".hdr")%string) as [hdr|] eqn:Hhdr;
    [|by unfold read_floating_data, fopen_read in Hret; rewrite Hhdr in Hret].
  destruct (fscanf hdr header_format) as [n items] eqn:Hscan.
  unfold read_floating_data, fopen_read in Hret. rewrite Hhdr, Hscan in Hret.
  destruct (Z.eqb_spec n 7) as [->|]; [|done]. cbn [negb] in Hret.
  destruct items as [|[columns| | |] items]; try done.
  destruct items as [|[rows| | |] items]; try done.
  destruct items as [|[|xll| |] items]; try done.
  destruct items as [|[|yll| |] items]; try done.
  destruct items as [|[|csz| |] items]; try done.
  destruct items as [|[| |nd|] items]; try done.
  destruct items as [|[| | |bo] items]; try done.
  destruct items; try done.
  destruct (files fs !! (basename +:+ ".flt")%string) as [payload|] eqn:Hflt;
    [|by unfold ifstream_open in Hret; rewrite Hflt in Hret].
  exists hdr, payload, columns, rows, xll, yll, csz, nd, bo.
  rewrite (read_floating_data_run basename grid fs hdr payload columns rows xll yll csz nd bo)
    in Hret0 by done.
  inversion Hret0; subst. by split_and!.
Qed.
End ReaderRuns.

(** ** What [fscanf] requires of a header *)

Lemma span_app (p : ascii -> bool) (s : text) :
  s = fst (span p s) ++ snd (span p s).
Proof.
  induction s as [|c s IH]; [done|]. simpl.
  destruct (p c); [|done]. destruct (span p s) as [a b]. simpl in *. by rewrite IH at 1.
Qed.

Lemma span_suffix (p : ascii -> bool) (s : text) : snd (span p s) `suffix_of` s.
Proof. exists (fst (span p s)). apply span_app. Qed.

Lemma lex_sign_suffix (s : text) : snd (lex_sign s) `suffix_of` s.
Proof.
  unfold lex_sign. destruct s as [|c r]; [done|].
  destruct (Ascii.eqb c "-"); [by apply suffix_cons_r|].
  destruct (Ascii.eqb c "+"); [by apply suffix_cons_r | done].
Qed.

Lemma strip_prefix_ci_suffix (p s r : text) :
  strip_prefix_ci p s = Some r -> r `suffix_of` s.
Proof.
  revert s. induction p as [|a p IH]; intros s Hs; simpl in Hs.
  - by inversion Hs.
  - destruct s as [|c s]; [done|].
    destruct (Ascii.eqb a (to_lower c)); [|done]. apply suffix_cons_r. by apply IH.
Qed.

Lemma lex_exponent_suffix (mark : ascii) (s : text) (ex : Z) (r : text) :
  lex_exponent mark s = Some (ex, r) -> r `suffix_of` s.
Proof.
  unfold lex_exponent. destruct s as [|c s]; [by inversion 1|].
  destruct (Ascii.eqb (to_lower c) mark); [|by inversion 1].
  pose proof (lex_sign_suffix s) as Hsign. destruct (lex_sign s) as [neg r1].
  pose proof (span_suffix is_digit r1) as Hspan. destruct (span is_digit r1) as [ds r2].
  destruct ds; inversion 1; subst; simpl in *; apply suffix_cons_r; by etrans.
Qed.

Lemma lex_mantissa_suffix (p : ascii -> bool) (s ip fp r : text) :
  lex_mantissa p s = Some (ip, fp, r) -> r `suffix_of` s.
Proof.
  unfold lex_mantissa.
  pose proof (span_suffix p s) as H1. destruct (span p s) as [ip' s1]. simpl in H1.
  assert (H2 : forall fp' s2,
    match s1 with
    | c :: t => if Ascii.eqb c "." then span p t else ([], s1)
    | [] => ([], s1)
    end = (fp', s2) -> s2 `suffix_of` s1).
  { intros fp' s2. destruct s1 as [|c t]; [by inversion 1|].
    destruct (Ascii.eqb c "."); [|by inversion 1].
    intros Hsp. pose proof (span_suffix p t) as Ht. rewrite Hsp in Ht.
    by apply suffix_cons_r. }
  destruct (match s1 with
            | c :: t => if Ascii.eqb c "." then span p t else ([], s1)
            | [] => ([], s1)
            end) as [fp' s2] eqn:E.
  specialize (H2 fp' s2 eq_refl).
  destruct (ip' ++ fp'); [done|]. inversion 1; subst. by etrans.
Qed.

Lemma lex_unsigned_float_suffix (s : text) (tok : float_token) (r : text) :
  lex_unsigned_float s = Some (tok, r) -> r `suffix_of` s.
Proof.
  unfold lex_unsigned_float.
  destruct (strip_prefix_ci (lit "inf") s) as [r0|] eqn:Einf.
  { apply strip_prefix_ci_suffix in Einf. destruct r0 as [|c r1]; [by inversion 1|].
    destruct (Ascii.eqb (to_lower c) "i"); [|by inversion 1].
    destruct (strip_prefix_ci (lit "inity") (c :: r1)) as [r'|] eqn:Einity; [|done].
    apply strip_prefix_ci_suffix in Einity. inversion 1; subst. by etrans. }
  destruct (strip_prefix_ci (lit "nan") s) as [r0|] eqn:Enan.
  { apply strip_prefix_ci_suffix in Enan. by inversion 1; subst. }
  destruct (strip_prefix_ci (lit "0x") s) as [r0|] eqn:Ehex.
  { apply strip_prefix_ci_suffix in Ehex.
    destruct (lex_mantissa is_xdigit r0) as [[[ip fp] r1]|] eqn:Em.
    - apply lex_mantissa_suffix in Em.
      destruct (lex_exponent "p" r1) as [[ex r2]|] eqn:Ee; [|done].
      apply lex_exponent_suffix in Ee. inversion 1; subst.
      by repeat (etrans; [eassumption|]).
    - destruct r0 as [|c r1]; [done|]. destruct (Ascii.eqb c "."); [|done].
      inversion 1; subst. etrans; [|exact Ehex]. by apply suffix_cons_r. }
  destruct (lex_mantissa is_digit s) as [[[ip fp] r1]|] eqn:Em; [|done].
  apply lex_mantissa_suffix in Em.
  destruct (lex_exponent "e" r1) as [[ex r2]|] eqn:Ee; [|done].
  apply lex_exponent_suffix in Ee. inversion 1; subst. by etrans.
Qed.

(** A conversion leaves the rest of its input. *)
Lemma convert_suffix (d : directive) (s : text) (v : scanned) (r : text) :
  convert d s = Some (v, r) -> r `suffix_of` s.
Proof.
  assert (Hfloat : forall f v' r', scan_float f s = Some (v', r') -> r' `suffix_of` s).
  { intros f v' r'. unfold scan_float, lex_float.
    pose proof (lex_sign_suffix s) as Hsign. destruct (lex_sign s) as [neg s1].
    destruct (lex_unsigned_float s1) as [[tok r0]|] eqn:E; [|done].
    apply lex_unsigned_float_suffix in E. inversion 1; subst. by etrans. }
  destruct d; simpl; try done.
  - unfold lex_int.
    pose proof (lex_sign_suffix s) as Hsign. destruct (lex_sign s) as [neg s1].
    pose proof (span_suffix is_digit s1) as Hspan. destruct (span is_digit s1) as [ds s2].
    destruct ds; [done|]. inversion 1; subst. by etrans.
  - destruct (scan_float binary64 s) as [[v' r']|] eqn:E; [|done].
    inversion 1; subst. by eapply Hfloat.
  - destruct (scan_float binary32 s) as [[v' r']|] eqn:E; [|done].
    inversion 1; subst. by eapply Hfloat.
Qed.

Lemma skip_space_split (s : text) :
  exists w, s = w ++ skip_space s /\ forallb is_space w = true.
Proof.
  induction s as [|c s (w & Hs & Hw)]; [by exists []|]. simpl.
  destruct (is_space c) eqn:E; [|by exists []].
  exists (c :: w). simpl. rewrite E, Hw. split; [by rewrite Hs at 1 | done].
Qed.

Lemma skip_space_head (s : text) (c : ascii) (r : text) :
  skip_space s = c :: r -> is_space c = false.
Proof.
  induction s as [|c' s IH]; [done|]. simpl.
  destruct (is_space c') eqn:E; [done|]. by inversion 1; subst.
Qed.

Lemma skip_space_idem (s : text) : skip_space (skip_space s) = skip_space s.
Proof.
  induction s as [|c s IH]; [done|]. simpl.
  destruct (is_space c) eqn:E; [done|]. simpl. by rewrite E.
Qed.

Lemma input_failure_count (acc : list scanned) :
  fst (input_failure acc) <= Z.of_nat (length acc).
Proof. destruct acc; simpl; unfold EOF; lia. Qed.

Section Inversion.
Variable N : Z.

(** When all the items are assigned, the key was there. *)
Lemma scanf_key_inv (key : text) (ds : list directive) (s : text) (acc : list scanned) :
  Z.of_nat (length acc) < N ->
  fst (scanf (map Lit key ++ ds) s acc) = N ->
  exists s', s = key ++ s' /\ fst (scanf ds s' acc) = N.
Proof.
  intros Hacc. revert s. induction key as [|c key IH]; intros s Hs.
  - by exists s.
  - cbn [map app scanf] in Hs. destruct s as [|c' s].
    + pose proof (input_failure_count acc). lia.
    + destruct (Ascii.eqb_spec c c') as [<-|]; [|simpl in Hs; lia].
      destruct (IH s Hs) as (s' & -> & Hs'). by exists s'.
Qed.

Lemma scanf_numeric_inv (d : directive) (ds : list directive) (s : text)
    (acc : list scanned) :
  is_numeric d = true -> Z.of_nat (length acc) < N ->
  fst (scanf (d :: ds) s acc) = N ->
  exists v r, convert d (skip_space s) = Some (v, r) /\ fst (scanf ds r (acc ++ [v])) = N.
Proof.
  intros Hd Hacc Hs. pose proof (input_failure_count acc).
  destruct d; try done; cbn [scanf] in Hs;
    (destruct (skip_space s) as [|c s'] eqn:E; [lia|]);
    (destruct (convert _ (c :: s')) as [[v r]|] eqn:Ec; [by exists v, r | simpl in Hs; lia]).
Qed.

Lemma scanf_char_inv (ds : list directive) (s : text) (acc : list scanned) :
  Z.of_nat (length acc) < N ->
  fst (scanf (ConvC :: ds) s acc) = N ->
  exists c r, s = c :: r /\ fst (scanf ds r (acc ++ [VChar c])) = N.
Proof.
  intros Hacc Hs. pose proof (input_failure_count acc). cbn [scanf] in Hs.
  destruct s as [|c r]; [lia|]. by exists c, r.
Qed.

(** When all the items are assigned, the fields were there, in order. *)
Lemma scanf_fields_inv (last : text -> Prop) (tail : list directive)
    (fields : list (string * directive)) (s : text) (acc : list scanned) :
  Forall (fun f => is_numeric (snd f) = true) fields ->
  Z.of_nat (length acc + length fields) < N ->
  (forall s' acc', length acc' = (length acc + length fields)%nat ->
                   fst (scanf tail s' acc') = N -> last s') ->
  fst (scanf (concat (map field_directives fields) ++ tail) s acc) = N ->
  fields_shape fields last s.
Proof.
  revert s acc. induction fields as [|[key d] fields IH]; intros s acc Hnum Hlen Hlast Hs.
  - simpl in *. apply (Hlast s acc); [lia | done].
  - apply Forall_cons in Hnum as [Hd Hnum]. simpl in Hd.
    cbn [map concat] in Hs. unfold field_directives at 1 in Hs. cbn [fst snd] in Hs.
    rewrite <- !app_assoc in Hs.
    cbn [length] in Hlen.
    apply scanf_key_inv in Hs as (s1 & -> & Hs); [|lia].
    cbn [app] in Hs. change (scanf (Space :: ?ds) s1 acc) with (scanf ds (skip_space s1) acc) in Hs.
    apply scanf_numeric_inv in Hs as (v & r & Hconv & Hs); [|done|lia].
    rewrite skip_space_idem in Hconv.
    change (scanf (Space :: ?ds) r ?a) with (scanf ds (skip_space r) a) in Hs.
    destruct (skip_space_split s1) as (w1 & Hs1 & Hw1).
    destruct (skip_space_split r) as (w2 & Hr & Hw2).
    destruct (convert_suffix _ _ _ _ Hconv) as [tok Htok].
    cbn [fields_shape fst snd].
    exists w1, tok, w2, (skip_space r), v. split_and!; try done.
    + rewrite Hs1 at 1. rewrite Htok, Hr at 1. done.
    + rewrite <- Hr, <- Htok. done.
    + apply (IH (skip_space r) (acc ++ [v])); try done.
      * rewrite length_app. simpl. lia.
      * intros s' acc' Hacc'. apply Hlast. rewrite Hacc', length_app. simpl. lia.
Qed.
End Inversion.

Lemma header_directives_fields :
  header_directives
  = concat (map field_directives numeric_fields) ++ map Lit (lit "BYTEORDER") ++ [Space; ConvC].
Proof. reflexivity. Qed.

(** A header that lets [fscanf] assign its seven items has the seven
    fields, in order. *)
Lemma fscanf_header_shape (h : text) :
  fst (fscanf h header_format) = 7 -> header_shape h.
Proof.
  rewrite fscanf_header_format, header_directives_fields. intros Hs.
  apply (scanf_fields_inv 7 byteorder_shape _ numeric_fields h []) in Hs; [done | | done |].
  - repeat constructor.
  - intros s' acc' Hacc' Hs'. simpl in Hacc'.
    apply scanf_key_inv in Hs' as (s1 & -> & Hs'); [|lia].
    change (scanf [Space; ConvC] s1 acc') with (scanf [ConvC] (skip_space s1) acc') in Hs'.
    apply scanf_char_inv in Hs' as (c & r & Hc & _); [|lia].
    destruct (skip_space_split s1) as (w & Hs1 & Hw).
    exists w, c, r. split_and!; [|done|].
    + rewrite Hs1 at 1. by rewrite Hc.
    + by apply (skip_space_head s1 c r).
Qed.

(** ** The headers of that shape are accepted *)

Lemma is_space_code (c : ascii) : is_space c = true -> code c = 32 \/ 9 <= code c <= 13.
Proof.
  unfold is_space. intros [H|H]%orb_prop; [left; by apply Z.eqb_eq|right].
  apply andb_prop in H as [H1 H2]. apply Z.leb_le in H1, H2. lia.
Qed.

(** A white-space character is not the first character of a number. *)
Lemma eqb_non_space (x c : ascii) :
  is_space c = true -> is_space x = false -> Ascii.eqb x c = false.
Proof. intros Hc Hx. destruct (Ascii.eqb_spec x c); [congruence | done]. Qed.

Lemma to_lower_space (c : ascii) : is_space c = true -> to_lower c = c.
Proof.
  intros Hc%is_space_code. unfold to_lower.
  destruct (Z.leb_spec 65 (code c)); [lia | done].
Qed.

Lemma is_digit_space (c : ascii) : is_space c = true -> is_digit c = false.
Proof.
  intros Hc%is_space_code. unfold is_digit.
  destruct (Z.leb_spec 48 (code c)); [lia | done].
Qed.

Lemma skip_space_spaces (w s : text) :
  forallb is_space w = true -> skip_space (w ++ s) = skip_space s.
Proof.
  induction w as [|c w IH]; [done|]. simpl. intros [-> Hw]%andb_prop. by apply IH.
Qed.

Lemma lex_unsigned_float_space (c : ascii) (s : text) :
  is_space c = true -> lex_unsigned_float (c :: s) = None.
Proof.
  intros Hc. unfold lex_unsigned_float, lex_mantissa.
  cbn [lit list_ascii_of_string strip_prefix_ci span].
  rewrite to_lower_space, !(eqb_non_space _ c), is_digit_space by done.
  cbn [fst snd app]. rewrite (Ascii.eqb_sym c "."), (eqb_non_space _ c) by done. done.
Qed.

(** A conversion that succeeds starts at a character that is not white
    space. *)
Lemma convert_head (d : directive) (s : text) (v : scanned) (r : text) :
  convert d s = Some (v, r) -> skip_space s = s.
Proof.
  assert (Hsign : forall c s', is_space c = true -> lex_sign (c :: s') = (false, c :: s')).
  { intros c s' Hc. unfold lex_sign.
    by rewrite (Ascii.eqb_sym c "-"), (Ascii.eqb_sym c "+"), !(eqb_non_space _ c). }
  destruct s as [|c s]; [done|]. simpl. destruct (is_space c) eqn:Hc; [|done].
  intros Hconv. exfalso.
  destruct d; simpl in Hconv; try done.
  - unfold lex_int in Hconv. rewrite Hsign in Hconv by done.
    cbn [span] in Hconv. by rewrite is_digit_space in Hconv.
  - unfold scan_float, lex_float in Hconv. rewrite Hsign in Hconv by done.
    by rewrite lex_unsigned_float_space in Hconv.
  - unfold scan_float, lex_float in Hconv. rewrite Hsign in Hconv by done.
    by rewrite lex_unsigned_float_space in Hconv.
Qed.

Lemma scanf_numeric_field (key : string) (d : directive) (ds : list directive)
    (w1 tok w2 s2 : text) (v : scanned) (acc : list scanned) :
  is_numeric d = true ->
  forallb is_space w1 = true -> forallb is_space w2 = true ->
  convert d (tok ++ w2 ++ s2) = Some (v, w2 ++ s2) ->
  scanf (field_directives (key, d) ++ ds) (lit key ++ w1 ++ tok ++ w2 ++ s2) acc
  = scanf ds (skip_space s2) (acc ++ [v]).
Proof.
  intros Hd Hw1 Hw2 Hconv. unfold field_directives. cbn [fst snd].
  rewrite <- app_assoc, scanf_key. cbn [app].
  change (scanf (Space :: ?l) ?s acc) with (scanf l (skip_space s) acc).
  rewrite skip_space_spaces by done.
  pose proof (convert_head _ _ _ _ Hconv) as Hhead.
  assert (Hstep : forall l, scanf (d :: l) (skip_space (tok ++ w2 ++ s2)) acc
                            = scanf l (w2 ++ s2) (acc ++ [v])).
  { intros l. rewrite Hhead.
    destruct (tok ++ w2 ++ s2) as [|c s'] eqn:E.
    - destruct d; simpl in Hconv; try done.
      all: unfold scan_float, lex_float in Hconv; simpl in Hconv; done.
    - assert (Hc : is_space c = false).
      { simpl in Hhead. destruct (is_space c) eqn:Ec; [|done].
        exfalso. pose proof (skip_space_split s') as (w & Hs' & _).
        assert (Hlen : length (skip_space s') = S (length s')) by (by rewrite Hhead).
        rewrite Hs' in Hlen at 2. rewrite length_app in Hlen. lia. }
      destruct d; try done; cbn [scanf skip_space]; rewrite Hc, Hconv; done. }
  rewrite Hstep.
  change (scanf (Space :: ?l) ?s ?a) with (scanf l (skip_space s) a).
  by rewrite skip_space_spaces.
Qed.

Lemma convert_kind (d : directive) (s : text) (v : scanned) (r : text) :
  convert d s = Some (v, r) ->
  match d with
  | ConvD => exists z, v = VInt z
  | ConvLF => exists x, v = VDouble x
  | ConvF => exists x, v = VFloat x
  | _ => False
  end.
Proof.
  destruct d; simpl; try done.
  - destruct (lex_int s) as [[z r']|]; [|done]. inversion 1. by eexists.
  - destruct (scan_float binary64 s) as [[x r']|]; [|done]. inversion 1. by eexists.
  - destruct (scan_float binary32 s) as [[x r']|]; [|done]. inversion 1. by eexists.
Qed.

(** A header of the shape lets [fscanf] assign its seven items. *)
Lemma fscanf_of_header_shape (h : text) :
  header_shape h ->
  exists columns rows xll yll csz nd byteorder,
    fscanf h header_format
    = (7, [VInt columns; VInt rows; VDouble xll; VDouble yll; VDouble csz;
           VFloat nd; VChar byteorder]).
Proof.
  rewrite fscanf_header_format, header_directives_fields.
  unfold header_shape, numeric_fields. cbn [fields_shape fst snd map concat].
  intros (w1 & t1 & x1 & s1 & v1 & -> & ? & ? & Hc1 &
          w2 & t2 & x2 & s2 & v2 & -> & ? & ? & Hc2 &
          w3 & t3 & x3 & s3 & v3 & -> & ? & ? & Hc3 &
          w4 & t4 & x4 & s4 & v4 & -> & ? & ? & Hc4 &
          w5 & t5 & x5 & s5 & v5 & -> & ? & ? & Hc5 &
          w6 & t6 & x6 & s6 & v6 & -> & ? & ? & Hc6 &
          w & c & rest & -> & Hw & Hc).
  rewrite app_nil_r, <- !app_assoc.
  rewrite (scanf_numeric_field "ncols" ConvD _ w1 t1 x1 _ v1), skip_space_key by done.
  rewrite (scanf_numeric_field "nrows" ConvD _ w2 t2 x2 _ v2), skip_space_key by done.
  rewrite (scanf_numeric_field "xllcorner" ConvLF _ w3 t3 x3 _ v3), skip_space_key by done.
  rewrite (scanf_numeric_field "yllcorner" ConvLF _ w4 t4 x4 _ v4), skip_space_key by done.
  rewrite (scanf_numeric_field "cellsize" ConvLF _ w5 t5 x5 _ v5), skip_space_key by done.
  rewrite (scanf_numeric_field "NODATA_value" ConvF _ w6 t6 x6 _ v6), skip_space_key by done.
  rewrite scanf_key.
  change (scanf [Space; ConvC] ?s ?a) with (scanf [ConvC] (skip_space s) a).
  rewrite skip_space_spaces by done. cbn [skip_space]. rewrite Hc.
  apply convert_kind in Hc1 as [columns ->], Hc2 as [rows ->], Hc3 as [xll ->],
    Hc4 as [yll ->], Hc5 as [csz ->], Hc6 as [nd ->].
  by exists columns, rows, xll, yll, csz, nd, c.
Qed.

(** ** The outline of the headers that [fscanf] accepts *)

Lemma solid_app (t1 t2 : text) : solid (t1 ++ t2) = solid t1 && solid t2.
Proof. apply forallb_app. Qed.

Lemma taken_refl (s : text) : taken s s.
Proof. by exists []. Qed.

Lemma taken_trans (a b c : text) : taken a b -> taken b c -> taken a c.
Proof.
  intros (t1 & -> & H1) (t2 & -> & H2). exists (t1 ++ t2).
  by rewrite <- app_assoc, solid_app, H1, H2.
Qed.

Lemma taken_cons (c : ascii) (s r : text) :
  is_space c = false -> taken s r -> taken (c :: s) r.
Proof.
  intros Hc (t & -> & Ht). exists (c :: t). split; [done|].
  unfold solid in *. simpl. by rewrite Hc, Ht.
Qed.

Lemma span_taken (p : ascii -> bool) (s : text) :
  (forall c, p c = true -> is_space c = false) -> taken s (snd (span p s)).
Proof.
  intros Hp. induction s as [|c s IH]; [apply taken_refl|]. simpl.
  destruct (p c) eqn:Hc; [|apply taken_refl].
  destruct (span p s) as [a b]. simpl in *. apply taken_cons; [by apply Hp | done].
Qed.

Lemma is_digit_solid (c : ascii) : is_digit c = true -> is_space c = false.
Proof.
  intros Hd. destruct (is_space c) eqn:Hc; [|done].
  by rewrite is_digit_space in Hd.
Qed.

Lemma is_xdigit_solid (c : ascii) : is_xdigit c = true -> is_space c = false.
Proof.
  intros Hx. destruct (is_space c) eqn:Hc; [|done]. exfalso.
  unfold is_xdigit in Hx. rewrite is_digit_space, to_lower_space in Hx by done.
  apply is_space_code in Hc. simpl in Hx.
  apply andb_prop in Hx as [H1 H2]. apply Z.leb_le in H1, H2. lia.
Qed.

Lemma to_lower_solid (a c : ascii) :
  Ascii.eqb a (to_lower c) = true -> is_space a = false -> is_space c = false.
Proof.
  intros He Ha. destruct (is_space c) eqn:Hc; [|done].
  rewrite to_lower_space in He by done. apply Ascii.eqb_eq in He. congruence.
Qed.

Lemma lex_sign_taken (s : text) : taken s (snd (lex_sign s)).
Proof.
  unfold lex_sign. destruct s as [|c r]; [apply taken_refl|].
  destruct (Ascii.eqb_spec c "-") as [->|];
    [apply taken_cons; [done | apply taken_refl]|].
  destruct (Ascii.eqb_spec c "+") as [->|];
    [apply taken_cons; [done | apply taken_refl] | apply taken_refl].
Qed.

Lemma strip_prefix_ci_taken (p s r : text) :
  solid p = true -> strip_prefix_ci p s = Some r -> taken s r.
Proof.
  revert s. induction p as [|a p IH]; intros s Hp Hs; simpl in Hs.
  - inversion Hs. apply taken_refl.
  - destruct s as [|c s]; [done|].
    unfold solid in Hp. simpl in Hp. apply andb_prop in Hp as [Ha Hp].
    apply negb_true_iff in Ha.
    destruct (Ascii.eqb a (to_lower c)) eqn:He; [|done].
    apply taken_cons; [by apply (to_lower_solid a) | by apply IH].
Qed.

Lemma lex_exponent_taken (mark : ascii) (s : text) (ex : Z) (r : text) :
  is_space mark = false -> lex_exponent mark s = Some (ex, r) -> taken s r.
Proof.
  intros Hmark. unfold lex_exponent. destruct s as [|c s]; [inversion 1; apply taken_refl|].
  destruct (Ascii.eqb (to_lower c) mark) eqn:He; [|inversion 1; apply taken_refl].
  pose proof (lex_sign_taken s) as Hsign. destruct (lex_sign s) as [neg r1].
  pose proof (span_taken is_digit r1 is_digit_solid) as Hspan.
  destruct (span is_digit r1) as [ds r2]. simpl in *.
  assert (Hc : is_space c = false).
  { apply (to_lower_solid mark); [by rewrite Ascii.eqb_sym | done]. }
  destruct ds; inversion 1; subst; apply taken_cons; try done; by eapply taken_trans.
Qed.

(** The mantissa begins with a digit or with the point. *)
Lemma lex_mantissa_head (p : ascii -> bool) (s ip fp r : text) :
  (forall c, p c = true -> is_space c = false) ->
  lex_mantissa p s = Some (ip, fp, r) ->
  exists c s', s = c :: s' /\ (p c = true \/ c = "."%char) /\ taken s' r.
Proof.
  intros Hp. unfold lex_mantissa.
  assert (Hfrac : forall s1 fp' s2,
    match s1 with
    | c :: t => if Ascii.eqb c "." then span p t else ([], s1)
    | [] => ([], s1)
    end = (fp', s2) -> taken s1 s2).
  { intros s1 fp' s2. destruct s1 as [|c t]; [inversion 1; apply taken_refl|].
    destruct (Ascii.eqb_spec c ".") as [->|]; [|inversion 1; apply taken_refl].
    intros Hsp. pose proof (span_taken p t Hp) as Ht. rewrite Hsp in Ht.
    by apply taken_cons. }
  destruct s as [|c s]; [done|]. cbn [span].
  destruct (p c) eqn:Hc.
  - pose proof (span_taken p s Hp) as Hsp. destruct (span p s) as [a b]. simpl in Hsp.
    destruct (match b with
              | c0 :: t => if Ascii.eqb c0 "." then span p t else ([], b)
              | [] => ([], b)
              end) as [fp' s2] eqn:E.
    apply Hfrac in E. simpl. inversion 1; subst.
    exists c, s. split_and!; [done | by left | by eapply taken_trans].
  - destruct (Ascii.eqb_spec c ".") as [->|]; [|done].
    pose proof (span_taken p s Hp) as Hsp. destruct (span p s) as [fp' s2]. simpl in Hsp.
    destruct fp'; [done|]. inversion 1; subst.
    exists "."%char, s. split_and!; [done | by right | done].
Qed.

Lemma strip_prefix_ci_head (a : ascii) (p s r : text) :
  solid p = true -> strip_prefix_ci (a :: p) s = Some r ->
  exists c s', s = c :: s' /\ Ascii.eqb a (to_lower c) = true /\ taken s' r.
Proof.
  intros Hp Hs. simpl in Hs. destruct s as [|c s]; [done|].
  destruct (Ascii.eqb a (to_lower c)) eqn:He; [|done].
  exists c, s. split_and!; [done | done | by apply (strip_prefix_ci_taken p)].
Qed.

Lemma to_lower_zero (c : ascii) : Ascii.eqb "0" (to_lower c) = true -> is_digit c = true.
Proof.
  intros He. apply Ascii.eqb_eq in He. unfold to_lower in He.
  destruct ((65 <=? code c) && (code c <=? 90)) eqn:Hup; [|by rewrite <- He].
  apply andb_prop in Hup as [H1 H2]. apply Z.leb_le in H1, H2.
  assert (Hcode : code (chr (code c + 32)) = code c + 32) by (apply code_chr; lia).
  rewrite <- He in Hcode. change (code "0") with 48 in Hcode. lia.
Qed.

(** What [strtod] takes begins with a digit, the point or the first letter
    of [inf] or of [nan], and is a word. *)
Lemma lex_unsigned_float_head (s : text) (tok : float_token) (r : text) :
  lex_unsigned_float s = Some (tok, r) ->
  exists c s', s = c :: s' /\
    (is_digit c || Ascii.eqb c "." || Ascii.eqb (to_lower c) "i"
     || Ascii.eqb (to_lower c) "n") = true /\
    taken s' r.
Proof.
  unfold lex_unsigned_float.
  destruct (strip_prefix_ci (lit "inf") s) as [r0|] eqn:Einf.
  { apply strip_prefix_ci_head in Einf as (c & s' & -> & He & Ht); [|done].
    rewrite Ascii.eqb_sym in He. intros Hr. exists c, s'. split; [done|].
    split; [rewrite He; by rewrite !orb_true_r|].
    destruct r0 as [|c0 r1]; [by inversion Hr; subst|].
    destruct (Ascii.eqb (to_lower c0) "i"); [|by inversion Hr; subst].
    destruct (strip_prefix_ci (lit "inity") (c0 :: r1)) as [r'|] eqn:Einity; [|done].
    apply strip_prefix_ci_taken in Einity; [|done]. inversion Hr; subst.
    by eapply taken_trans. }
  destruct (strip_prefix_ci (lit "nan") s) as [r0|] eqn:Enan.
  { apply strip_prefix_ci_head in Enan as (c & s' & -> & He & Ht); [|done].
    rewrite Ascii.eqb_sym in He. inversion 1; subst. exists c, s'. split; [done|].
    split; [rewrite He; by rewrite !orb_true_r | done]. }
  destruct (strip_prefix_ci (lit "0x") s) as [r0|] eqn:Ehex.
  { apply strip_prefix_ci_head in Ehex as (c & s' & -> & He & Ht); [|done].
    apply to_lower_zero in He. intros Hr. exists c, s'. split; [done|].
    split; [by rewrite He|].
    destruct (lex_mantissa is_xdigit r0) as [[[ip fp] r1]|] eqn:Em.
    - apply lex_mantissa_head in Em as (c1 & s1 & -> & Hc1 & Hm); [|apply is_xdigit_solid].
      destruct (lex_exponent "p" r1) as [[ex r2]|] eqn:Ee; [|done].
      apply lex_exponent_taken in Ee; [|done]. inversion Hr; subst.
      eapply taken_trans; [exact Ht|]. apply taken_cons.
      + destruct Hc1 as [Hx| ->]; [by apply is_xdigit_solid | done].
      + by eapply taken_trans.
    - destruct r0 as [|c1 r1]; [done|].
      destruct (Ascii.eqb_spec c1 ".") as [->|]; [|done]. inversion Hr; subst.
      eapply taken_trans; [exact Ht|]. apply taken_cons; [done | apply taken_refl]. }
  destruct (lex_mantissa is_digit s) as [[[ip fp] r1]|] eqn:Em; [|done].
  apply lex_mantissa_head in Em as (c & s' & -> & Hc & Hm); [|apply is_digit_solid].
  destruct (lex_exponent "e" r1) as [[ex r2]|] eqn:Ee; [|done].
  apply lex_exponent_taken in Ee; [|done]. inversion 1; subst.
  exists c, s'. split; [done|]. split; [|by eapply taken_trans].
  destruct Hc as [-> | ->]; [done | by rewrite orb_true_r].
Qed.

Lemma lex_sign_cases (s : text) :
  lex_sign s = (false, s) \/
  exists c s', s = c :: s' /\ (Ascii.eqb c "-" || Ascii.eqb c "+") = true /\
               snd (lex_sign s) = s'.
Proof.
  unfold lex_sign. destruct s as [|c s]; [by left|].
  destruct (Ascii.eqb c "-") eqn:E1; [right; exists c, s; by rewrite E1|].
  destruct (Ascii.eqb c "+") eqn:E2; [right; exists c, s; by rewrite E1, E2 | by left].
Qed.

Ltac begins_cases c :=
  destruct (is_digit c), (Ascii.eqb c "-"), (Ascii.eqb c "+"), (Ascii.eqb c "."),
    (Ascii.eqb (to_lower c) "i"), (Ascii.eqb (to_lower c) "n"); done.

(** A numeric conversion that succeeds has taken a word, which begins as
    a number of its kind can. *)
Lemma convert_word (d : directive) (s : text) (v : scanned) (r : text) :
  convert d s = Some (v, r) ->
  exists c tok, s = c :: tok ++ r /\ begins d c = true /\ solid tok = true.
Proof.
  assert (Hfloat : forall f v' r', scan_float f s = Some (v', r') ->
    exists c tok, s = c :: tok ++ r' /\ begins ConvLF c = true /\ solid tok = true).
  { intros f v' r'. unfold scan_float, lex_float.
    destruct (lex_sign_cases s) as [Hs|(c & s' & -> & Hc & Hs)].
    - rewrite Hs. destruct (lex_unsigned_float s) as [[tok r0]|] eqn:E; [|done].
      apply lex_unsigned_float_head in E as (c & s' & -> & Hc & tok' & -> & Htok).
      inversion 1; subst. exists c, tok'. split; [done|]. split; [|done].
      revert Hc. unfold begins. begins_cases c.
    - destruct (lex_sign (c :: s')) as [neg s1]. simpl in Hs. subst s1.
      destruct (lex_unsigned_float s') as [[tok r0]|] eqn:E; [|done].
      apply lex_unsigned_float_head in E as (c1 & s1 & -> & Hc1 & tok' & -> & Htok).
      inversion 1; subst. exists c, (c1 :: tok'). split; [done|]. split.
      + revert Hc. unfold begins. begins_cases c.
      + unfold solid in *. simpl. rewrite Htok, andb_true_r. apply negb_true_iff.
        apply orb_prop in Hc1 as [Hc1|Hc1]; [|by apply (to_lower_solid "n"); [rewrite Ascii.eqb_sym|]].
        apply orb_prop in Hc1 as [Hc1|Hc1]; [|by apply (to_lower_solid "i"); [rewrite Ascii.eqb_sym|]].
        apply orb_prop in Hc1 as [Hc1|Hc1]; [by apply is_digit_solid|].
        apply Ascii.eqb_eq in Hc1. by subst. }
  destruct d; simpl; try done.
  - unfold lex_int.
    destruct (lex_sign_cases s) as [Hs|(c & s' & -> & Hc & Hs)].
    + rewrite Hs. destruct s as [|c0 s0]; [done|]. cbn [span].
      destruct (is_digit c0) eqn:Hc0; [|done].
      pose proof (span_taken is_digit s0 is_digit_solid) as (tok & Hs0 & Htok).
      destruct (span is_digit s0) as [a b]. simpl in *. inversion 1; subst.
      exists c0, tok. split; [done|]. split; [|done]. unfold begins. by rewrite Hc0.
    + destruct (lex_sign (c :: s')) as [neg s1]. simpl in Hs. subst s1.
      pose proof (span_taken is_digit s' is_digit_solid) as (tok & Hs' & Htok).
      destruct (span is_digit s') as [ds s2]. simpl in *.
      destruct ds; [done|]. inversion 1; subst.
      exists c, tok. split; [done|]. split; [|done].
      revert Hc. unfold begins. begins_cases c.
  - destruct (scan_float binary64 s) as [[v' r']|] eqn:E; [|done].
    inversion 1; subst. by eapply Hfloat.
  - destruct (scan_float binary32 s) as [[v' r']|] eqn:E; [|done].
    inversion 1; subst. by eapply Hfloat.
Qed.

(** The headers of the accepted shape have the outline. *)
Lemma fields_shape_outline (fields : list (string * directive)) (last : text -> Prop)
    (s : text) :
  fields_shape fields last s -> fields_outline fields last s.
Proof.
  revert s. induction fields as [|[key d] fields IH]; intros s; [done|].
  cbn [fields_shape fields_outline fst snd].
  intros (w1 & tok & w2 & s2 & v & -> & Hw1 & Hw2 & Hconv & Hrest).
  apply convert_word in Hconv as (c & tok' & Heq & Hc & Htok).
  exists w1, c, tok', w2, s2. split_and!; try done; [|by apply IH].
  by rewrite Heq.
Qed.

Lemma fscanf_header_outline (h : text) :
  fst (fscanf h header_format) = 7 -> header_outline h.
Proof. intros Hs. by apply fields_shape_outline, fscanf_header_shape. Qed.

(** ** Statements about the ASCII writer *)

Lemma ends_with_has_suffix (suffix path : string) :
  ends_with suffix path <-> has_suffix suffix path = true.
Proof.
  unfold ends_with, has_suffix. split.
  - intros [stem ->]. rewrite list_ascii_of_string_app, length_app.
    apply andb_true_intro. split; [apply Nat.leb_le; lia|].
    apply bool_decide_eq_true. rewrite drop_app_length'; [done | lia].
  - intros [Hlen Hdrop]%andb_prop. apply Nat.leb_le in Hlen.
    apply bool_decide_eq_true in Hdrop.
    set (l := list_ascii_of_string path) in *.
    set (k := list_ascii_of_string suffix) in *.
    exists (string_of_list_ascii (take (length l - length k) l)).
    rewrite <- (string_of_list_ascii_of_string path),
            <- (string_of_list_ascii_of_string suffix).
    fold l k. rewrite <- (take_drop (length l - length k) l) at 1. rewrite Hdrop.
    generalize (take (length l - length k) l). intros t.
    induction t as [|c t IH]; simpl; [done | by rewrite IH].
Qed.

(** C9: after the output file was opened, [output_ascii_data] ends with
    [std::out_of_range], thrown by [substr], for every path of fewer than
    four characters: the position [length() - 4] wraps around.  Only paths
    of at least four characters get as far as writing either format. *)
Theorem output_ascii_data_short_path_throws
    {T : Type} `{CellType T} (grid_min grid_max : array2d T -> T)
    (filename : string) (output_grid : array2d T) (precision : Z) (fs : filesystem) :
  writable fs filename = true ->
  (str_length filename < 4 ->
   output_ascii_data grid_min grid_max filename output_grid precision fs
   = Thrown out_of_range (store filename [] fs)) /\
  (forall r fs',
   output_ascii_data grid_min grid_max filename output_grid precision fs = Returned r fs' ->
   4 <= str_length filename).
Proof.
  intros Hw. split.
  - by apply output_ascii_data_short.
  - intros r fs' Hret. destruct (Z.lt_ge_cases (str_length filename) 4) as [Hlt|]; [|done].
    by rewrite output_ascii_data_short in Hret.
Qed.

Lemma output_ascii_data_short_path_throws_witness :
  writable fs0 "dem" = true /\
  str_length "dem" < 4 /\
  output_ascii_data no_range no_range "dem" dem_2x2 8 fs0
  = Thrown out_of_range (store "dem" [] fs0).
Proof.
  split; [reflexivity|]. split; [reflexivity|].
  apply (output_ascii_data_short_path_throws no_range no_range "dem" dem_2x2 8 fs0);
    reflexivity.
Defined.

(** C4: a path that ends in [.omg] gets the OmniGlyph header and rows, and
    any other path of at least four characters gets the ArcGrid ASCII ones;
    but a path of fewer than four characters gets neither: the test of the
    suffix throws before anything is written. *)
Theorem output_ascii_data_dispatch
    {T : Type} `{CellType T} (grid_min grid_max : array2d T -> T)
    (filename : string) (output_grid : array2d T) (precision : Z) (fs : filesystem) :
  writable fs filename = true -> str_length filename < 2 ^ 64 ->
  (ends_with ".omg" filename ->
   output_ascii_data grid_min grid_max filename output_grid precision fs
   = Returned 0 (store filename (omniglyph_text grid_min grid_max precision output_grid)
                       (store filename [] fs))) /\
  (~ ends_with ".omg" filename -> 4 <= str_length filename ->
   output_ascii_data grid_min grid_max filename output_grid precision fs
   = Returned 0 (store filename (arcgrid_text precision output_grid)
                       (store filename [] fs))) /\
  (~ ends_with ".omg" filename -> str_length filename < 4 ->
   output_ascii_data grid_min grid_max filename output_grid precision fs
   = Thrown out_of_range (store filename [] fs)).
Proof.
  intros Hw Hmax. split_and!.
  - intros Homg. apply output_ascii_data_omniglyph; [done| |done].
    destruct Homg as [stem ->]. rewrite str_length_app in *.
    unfold str_length in *. simpl in *. lia.
  - intros Hno Hlen. by apply output_ascii_data_arcgrid.
  - intros _ Hlen. by apply output_ascii_data_short.
Qed.

Lemma output_ascii_data_dispatch_witness :
  writable fs0 "a" = true /\ str_length "a" < 2 ^ 64 /\
  ~ ends_with ".omg" "a" /\ str_length "a" < 4 /\
  output_ascii_data no_range no_range "a" labels_2x2 8 fs0
  = Thrown out_of_range (store "a" [] fs0).
Proof.
  assert (Hno : ~ ends_with ".omg" "a")
    by (rewrite ends_with_has_suffix; discriminate).
  split; [reflexivity|]. split; [reflexivity|]. split; [exact Hno|].
  split; [reflexivity|].
  apply (output_ascii_data_dispatch no_range no_range "a" labels_2x2 8 fs0);
    (reflexivity || exact Hno).
Defined.

(** C7: in the ArcGrid ASCII format every row is written as its cells,
    each followed by one space, so that the cells are separated by single
    spaces and a separator trails the last one, and then the end of line.
    For the grid [[1.5, 2.5], [3.5, 4.5]] and precision 2 the rows are
    ["1.50 2.50 "] and ["3.50 4.50 "]. *)
Theorem output_ascii_data_arcgrid_rows
    {T : Type} `{CellType T} (grid_min grid_max : array2d T -> T)
    (filename : string) (output_grid : array2d T) (precision : Z) (fs : filesystem) :
  writable fs filename = true -> 4 <= str_length filename < 2 ^ 64 ->
  ~ ends_with ".omg" filename ->
  exists fs',
    output_ascii_data grid_min grid_max filename output_grid precision fs = Returned 0 fs' /\
    files fs' !! filename
    = Some (arcgrid_header precision output_grid ++
            concat (map (fun y =>
                      concat (map (fun x =>
                                cell_field precision (cell output_grid x y) ++ lit " ")
                              (seqZ 0 (width output_grid)))
                      ++ [newline])
                    (seqZ 0 (height output_grid)))).
Proof.
  intros Hw Hlen Hno. eexists. split; [by apply output_ascii_data_arcgrid|].
  unfold store; cbn [files]. by rewrite lookup_insert_eq.
Qed.

Lemma output_ascii_data_arcgrid_rows_witness :
  exists fs',
    output_ascii_data no_range no_range "dem.asc" dem_2x2 2 fs0 = Returned 0 fs' /\
    (drop 6 ∘ lines_of <$> files fs' !! "dem.asc"%string)
    = Some ["1.50 2.50 "; "3.50 4.50 "]%string.
Proof.
  assert (Hno : ~ ends_with ".omg" "dem.asc")
    by (rewrite ends_with_has_suffix; discriminate).
  destruct (output_ascii_data_arcgrid_rows no_range no_range "dem.asc" dem_2x2 2 fs0)
    as (fs' & Hret & Hfile); [reflexivity | split; [discriminate | reflexivity] | exact Hno |].
  exists fs'. split; [exact Hret|]. rewrite Hfile. vm_compute. reflexivity.
Defined.

Lemma is_finite_spec (v : ieee) :
  is_finite v = true -> match v with Zero _ | Finite _ _ _ => True | _ => False end.
Proof. by destruct v. Qed.

(** C5 (as amended): a grid whose cell type occupies one byte has its
    [NODATA_value] and all its cells written through [int], as integers
    with no decimal point.  A grid of a wider cell type has them written by
    the [operator<<] of the cell type, under [fixed] and the requested
    precision: that is fixed-point with that many decimals for a finite
    [float], and a plain integer for an [int]. *)
Theorem output_ascii_data_type_width_rendering :
  (forall (T : Type) (H : CellType T) (grid_min grid_max : array2d T -> T)
          (filename : string) (output_grid : array2d T) (precision : Z) (fs : filesystem),
     writable fs filename = true -> 4 <= str_length filename < 2 ^ 64 ->
     exists fs' header lead sep,
       output_ascii_data grid_min grid_max filename output_grid precision fs
       = Returned 0 fs' /\
       files fs' !! filename
       = Some (header ++ rows_text lead sep precision output_grid) /\
       (~ ends_with ".omg" filename ->
        exists lead', header = lead' ++ entry "NODATA_value" 1
                                          (cell_field precision (no_data output_grid))) /\
       (forall v : T,
          cell_field precision v
          = if (sizeof T =? 1)%nat then dec_int (to_int v) else cell_text true precision v)) /\
  (forall z : Z, integer_text (dec_int z) = true) /\
  (forall (v : float) (precision : Z),
     0 <= precision -> is_finite (float_value v) = true ->
     fixed_point_text (Z.to_nat precision) (cell_text true precision v) = true) /\
  (forall (v : int) (precision : Z), cell_text true precision v = dec_int (int_value v)).
Proof.
  split_and!.
  - intros T H gmin gmax filename g p fs Hw Hlen.
    destruct (decide (has_suffix ".omg" filename = true)) as [Homg|Hno].
    + apply ends_with_has_suffix in Homg.
      exists (store filename (omniglyph_text gmin gmax p g) (store filename [] fs)),
        (omniglyph_header gmin gmax g), (lit "|"), (lit "|").
      split_and!; [by apply output_ascii_data_omniglyph | | done | done].
      unfold store; cbn [files]. by rewrite lookup_insert_eq.
    + rewrite <- ends_with_has_suffix in Hno.
      exists (store filename (arcgrid_text p g) (store filename [] fs)),
        (arcgrid_header p g), [], (lit " ").
      split_and!; [by apply output_ascii_data_arcgrid | | | done].
      * unfold store; cbn [files]. by rewrite lookup_insert_eq.
      * intros _. eexists. unfold arcgrid_header. rewrite !app_assoc. reflexivity.
  - apply integer_text_dec_int.
  - intros v p Hp Hfin. cbn [cell_text float_cell]. unfold float_text.
    destruct (Z.ltb_spec p 0); [lia|].
    apply fmt_fixed_fixed_point; [done | by apply is_finite_spec].
  - done.
Qed.

Lemma output_ascii_data_type_width_rendering_witness :
  writable fs0 "flow.asc" = true /\ 4 <= str_length "flow.asc" < 2 ^ 64 /\
  exists fs' header lead sep,
    output_ascii_data no_range no_range "flow.asc" flowdirs_2x2 2 fs0 = Returned 0 fs' /\
    files fs' !! "flow.asc"%string = Some (header ++ rows_text lead sep 2 flowdirs_2x2).
Proof.
  split; [reflexivity|]. split; [split; [discriminate | reflexivity]|].
  destruct output_ascii_data_type_width_rendering as [Hgen _].
  destruct (Hgen ascii char_cell no_range no_range "flow.asc"%string flowdirs_2x2 2 fs0)
    as (fs' & header & lead & sep & Hret & Hfile & _);
    [reflexivity | split; [discriminate | reflexivity] |].
  by exists fs', header, lead, sep.
Defined.

(** The grid of [char] written in the ArcGrid format: integers throughout. *)
Example output_ascii_data_char_grid :
  exists fs',
    output_ascii_data no_range no_range "flow.asc" flowdirs_2x2 2 fs0 = Returned 0 fs' /\
    (field_of "NODATA_value" <$> files fs' !! "flow.asc"%string) = Some (Some "-1"%string) /\
    (drop 6 ∘ lines_of <$> files fs' !! "flow.asc"%string)
    = Some ["1 2 "; "3 4 "]%string.
Proof.
  assert (Hno : ~ ends_with ".omg" "flow.asc")
    by (rewrite ends_with_has_suffix; discriminate).
  eexists. split.
  - apply (output_ascii_data_arcgrid no_range no_range "flow.asc" flowdirs_2x2 2 fs0);
      [reflexivity | split; [discriminate | reflexivity] | exact Hno].
  - split; vm_compute; reflexivity.
Qed.

(** C5 (as stated) fails on a grid of [int]: the cell type is four bytes
    wide, and the no-data value and the cells come out as plain integers,
    not as fixed-point numbers with the two decimals asked for. *)
Lemma output_ascii_data_int_cells_not_fixed_point :
  (sizeof int =? 1)%nat = false /\
  exists fs',
    output_ascii_data no_range no_range "labels.asc" labels_2x2 2 fs0 = Returned 0 fs' /\
    (field_of "NODATA_value" <$> files fs' !! "labels.asc"%string) = Some (Some "-1"%string) /\
    (drop 6 ∘ lines_of <$> files fs' !! "labels.asc"%string)
    = Some ["1 2 "; "3 4 "]%string /\
    fixed_point_text 2 (cell_field 2 (no_data labels_2x2)) = false /\
    fixed_point_text 2 (cell_field 2 (cell labels_2x2 0 0)) = false.
Proof.
  split; [reflexivity|].
  assert (Hno : ~ ends_with ".omg" "labels.asc")
    by (rewrite ends_with_has_suffix; discriminate).
  eexists. split.
  - apply (output_ascii_data_arcgrid no_range no_range "labels.asc" labels_2x2 2 fs0);
      [reflexivity | split; [discriminate | reflexivity] | exact Hno].
  - split_and!; vm_compute; reflexivity.
Qed.

(** ** Statements about the binary writer *)



(** The header of the sample grid, entry by entry. *)
Example write_floating_data_dem_header :
  exists fs',
    write_floating_data "test" dem_2x2 fs0 = Returned 0 fs' /\
    (fun t => (fun k => field_of k t) <$>
       ["ncols"; "nrows"; "xllcorner"; "yllcorner"; "cellsize"; "NODATA_value";
        "BYTEORDER"]%string) <$> files fs' !! "test.hdr"%string
    = Some [Some "2"; Some "2"; Some "0.0000000000"; Some "0.0000000000";
            Some "1.0000000000"; Some "-9999.0000000000"; Some "LSBFIRST"]%string.
Proof.
  eexists. split; [by apply write_floating_data_spec|].
  change "test.hdr"%string with ("test" +:+ ".hdr")%string.
  rewrite written_pair_header. vm_compute. reflexivity.
Qed.


(** C10 (as amended): [write_floating_data] has no part of the one-byte
    test of [output_ascii_data]: whatever the size of the cell type, the
    [NODATA_value] of the [.hdr] file is what [operator<<] of the cell type
    writes.  For [char], a one-byte type, that is the character itself and
    not its integer value; for [bool], a one-byte type as well, it is the
    integer value, [0] or [1]. *)
Theorem write_floating_data_nodata_unconverted :
  (forall (T : Type) (H : CellType T) (basename : string) (output_grid : array2d T)
          (fs : filesystem),
     writable fs (basename +:+ ".hdr") = true ->
     writable fs (basename +:+ ".flt") = true ->
     exists fs' lead,
       write_floating_data basename output_grid fs = Returned 0 fs' /\
       files fs' !! (basename +:+ ".hdr")%string
       = Some (lead ++ entry "NODATA_value" 1 (cell_text true 10 (no_data output_grid))
                    ++ entry "BYTEORDER" 1 (lit "LSBFIRST"))) /\
  (forall (basename : string) (output_grid : array2d ascii) (fs : filesystem),
     writable fs (basename +:+ ".hdr") = true ->
     writable fs (basename +:+ ".flt") = true ->
     (sizeof ascii =? 1)%nat = true /\
     exists fs' lead,
       write_floating_data basename output_grid fs = Returned 0 fs' /\
       files fs' !! (basename +:+ ".hdr")%string
       = Some (lead ++ entry "NODATA_value" 1 [no_data output_grid]
                    ++ entry "BYTEORDER" 1 (lit "LSBFIRST"))) /\
  (forall (basename : string) (output_grid : array2d bool) (fs : filesystem),
     writable fs (basename +:+ ".hdr") = true ->
     writable fs (basename +:+ ".flt") = true ->
     (sizeof bool =? 1)%nat = true /\
     exists fs' lead,
       write_floating_data basename output_grid fs = Returned 0 fs' /\
       files fs' !! (basename +:+ ".hdr")%string
       = Some (lead ++ entry "NODATA_value" 1 (dec_int (to_int (no_data output_grid)))
                    ++ entry "BYTEORDER" 1 (lit "LSBFIRST"))).
Proof.
  assert (Hgen : forall (T : Type) (H : CellType T) (basename : string)
                        (output_grid : array2d T) (fs : filesystem),
     writable fs (basename +:+ ".hdr") = true ->
     writable fs (basename +:+ ".flt") = true ->
     exists fs' lead,
       write_floating_data basename output_grid fs = Returned 0 fs' /\
       files fs' !! (basename +:+ ".hdr")%string
       = Some (lead ++ entry "NODATA_value" 1 (cell_text true 10 (no_data output_grid))
                    ++ entry "BYTEORDER" 1 (lit "LSBFIRST"))).
  { intros T H basename g fs Hh Hd. exists (written_pair basename g fs).
    exists (entry "ncols" 2 (dec_int (width g)) ++
            entry "nrows" 2 (dec_int (height g)) ++
            entry "xllcorner" 1 (float_text true 10 (xllcorner g)) ++
            entry "yllcorner" 1 (float_text true 10 (yllcorner g)) ++
            entry "cellsize" 1 (float_text true 10 (cellsize g))).
    split; [by apply write_floating_data_spec|].
    rewrite written_pair_header. unfold floating_header.
    by rewrite <- !app_assoc. }
  split; [exact Hgen|]. split.
  - intros basename g fs Hh Hd. split; [done|].
    exact (Hgen ascii char_cell basename g fs Hh Hd).
  - intros basename g fs Hh Hd. split; [done|].
    exact (Hgen bool bool_cell basename g fs Hh Hd).
Qed.

Lemma write_floating_data_nodata_unconverted_witness :
  writable fs0 "flow.hdr" = true /\ writable fs0 "flow.flt" = true /\
  exists fs' lead,
    write_floating_data "flow" flowdirs_2x2 fs0 = Returned 0 fs' /\
    files fs' !! "flow.hdr"%string
    = Some (lead ++ entry "NODATA_value" 1 [chr 255] ++ entry "BYTEORDER" 1 (lit "LSBFIRST")).
Proof.
  split; [reflexivity|]. split; [reflexivity|].
  destruct write_floating_data_nodata_unconverted as (_ & Hchar & _).
  destruct (Hchar "flow"%string flowdirs_2x2 fs0) as [_ Hrun]; [reflexivity..|exact Hrun].
Defined.

(** C10 (as stated) fails on a grid of [bool], a cell type of one byte:
    its no-data value [true], held in the byte 1, is written as the text
    [1], its integer value, and not as the character of code 1. *)
Lemma write_floating_data_bool_nodata_is_integer :
  (sizeof bool =? 1)%nat = true /\
  to_bytes (no_data mask_2x2) = [chr 1] /\
  to_int (no_data mask_2x2) = 1 /\
  exists fs',
    write_floating_data "mask" mask_2x2 fs0 = Returned 0 fs' /\
    (field_of "NODATA_value" <$> files fs' !! "mask.hdr"%string)
    = Some (Some (show (dec_int 1))) /\
    dec_int 1 = lit "1" /\ dec_int 1 <> [chr 1].
Proof.
  split; [reflexivity|]. split; [reflexivity|]. split; [reflexivity|].
  eexists. split; [by apply write_floating_data_spec|].
  change "mask.hdr"%string with ("mask" +:+ ".hdr")%string.
  rewrite written_pair_header. split; [vm_compute; reflexivity|].
  split; [vm_compute; reflexivity | vm_compute; discriminate].
Qed.

(** ** Statements about the binary reader *)

(** C2: after [read_floating_data] has returned, [data_cells] is the
    number of cells of the grid just read whose value is not equal
    ([operator!=]) to the no-data value of the grid. *)
Theorem read_floating_data_counts_data_cells
    (fresh : Z -> Z -> float) (basename : string) (grid : array2d float)
    (fs fs' : filesystem) (r : Z) (g2 : array2d float) :
  read_floating_data fresh basename grid fs = Returned (r, g2) fs' ->
  data_cells g2 = count_data g2.
Proof.
  intros Hret.
  apply read_floating_data_returned in Hret
    as (hdr & payload & columns & rows & xll & yll & csz & nd & bo & _ & _ & _ & _ & _ & ->).
  set (g0 := Array2d columns rows fresh xll yll csz (float_of_ieee nd) 0).
  set (fin := {| pending := payload; good := true |}).
  pose proof (read_cells_frame (coords columns rows) g0 fin) as (Hw & Hh & _).
  pose proof (read_cells_count (coords columns rows) g0 fin (NoDup_coords columns rows))
    as Hcount.
  cbv zeta in *. unfold count_data. rewrite Hw, Hh, Hcount. done.
Qed.

(** Reading what was just written: the run of the reader. *)
Lemma read_after_write (fresh : Z -> Z -> float) (basename : string)
    (g grid : array2d float) (fs : filesystem) :
  - 2 ^ 31 <= width g < 2 ^ 31 -> - 2 ^ 31 <= height g < 2 ^ 31 ->
  read_floating_data fresh basename grid (written_pair basename g fs)
  = Returned
      (0, fst (read_cells (coords (width g) (height g))
                 (Array2d (width g) (height g) fresh
                    (reread binary64 10 (xllcorner g))
                    (reread binary64 10 (yllcorner g))
                    (reread binary64 10 (cellsize g))
                    (float_of_ieee (reread binary32 10 (float_value (no_data g)))) 0,
                  {| pending := floating_payload g; good := true |})))
      (written_pair basename g fs).
Proof.
  intros Hw Hh.
  apply (read_floating_data_run fresh basename grid _ (floating_header g) _ _ _ _ _ _ _ "L").
  - apply written_pair_header.
  - rewrite <- (app_nil_r (floating_header g)). by apply fscanf_floating_header.
  - apply written_pair_payload.
Qed.

Lemma read_floating_data_counts_data_cells_witness :
  exists g2 fs',
    read_floating_data zeroed "test" dem_third (written_pair "test" dem_2x2 fs0)
    = Returned (0, g2) fs' /\
    data_cells g2 = count_data g2.
Proof.
  eexists _, _. split.
  - apply (read_after_write zeroed "test" dem_2x2 dem_third fs0); range.
  - eapply read_floating_data_counts_data_cells.
    apply (read_after_write zeroed "test" dem_2x2 dem_third fs0); range.
Defined.

(** C8: [read_floating_data] gives the destination grid the dimensions
    read from the header and the corner, cell size and no-data value read
    from it; nothing of what the grid held before the call is left, the
    result being the same for every destination grid. *)
Theorem read_floating_data_resizes
    (fresh : Z -> Z -> float) (basename : string) (grid : array2d float)
    (fs fs' : filesystem) (r : Z) (g2 : array2d float) :
  read_floating_data fresh basename grid fs = Returned (r, g2) fs' ->
  exists hdr columns rows xll yll csz nd byteorder,
    files fs !! (basename +:+ ".hdr")%string = Some hdr /\
    fscanf hdr header_format
    = (7, [VInt columns; VInt rows; VDouble xll; VDouble yll; VDouble csz;
           VFloat nd; VChar byteorder]) /\
    width g2 = columns /\ height g2 = rows /\
    xllcorner g2 = xll /\ yllcorner g2 = yll /\ cellsize g2 = csz /\
    no_data g2 = float_of_ieee nd /\
    (forall grid' : array2d float,
       read_floating_data fresh basename grid' fs = Returned (r, g2) fs').
Proof.
  intros Hret.
  apply read_floating_data_returned in Hret
    as (hdr & payload & columns & rows & xll & yll & csz & nd & bo
        & Hhdr & Hscan & Hflt & -> & -> & ->).
  exists hdr, columns, rows, xll, yll, csz, nd, bo.
  set (g0 := Array2d columns rows fresh xll yll csz (float_of_ieee nd) 0).
  set (fin := {| pending := payload; good := true |}).
  pose proof (read_cells_frame (coords columns rows) g0 fin)
    as (Hw & Hh & Hx & Hy & Hc & Hn & _).
  cbv zeta in *. split_and!; try done.
  intros grid'.
  by apply (read_floating_data_run fresh basename grid' fs hdr payload columns rows
              xll yll csz nd bo).
Qed.

Lemma read_floating_data_resizes_witness :
  exists g2 fs',
    read_floating_data zeroed "test" dem_third (written_pair "test" dem_2x2 fs0)
    = Returned (0, g2) fs' /\
    width g2 = 2 /\ height g2 = 2 /\
    forall grid' : array2d float,
      read_floating_data zeroed "test" grid' (written_pair "test" dem_2x2 fs0)
      = Returned (0, g2) fs'.
Proof.
  eexists _, _. split.
  - apply (read_after_write zeroed "test" dem_2x2 dem_third fs0); range.
  - destruct (read_floating_data_resizes zeroed "test" dem_third _ _ _ _
                (read_after_write zeroed "test" dem_2x2 dem_third fs0
                   ltac:(range) ltac:(range)))
      as (hdr & columns & rows & xll & yll & csz & nd & bo
          & Hhdr & Hscan & Hw & Hh & _ & _ & _ & _ & Hany).
    split_and!; [| |exact Hany].
    + pose proof (read_cells_frame (coords 2 2)
        (Array2d 2 2 zeroed (reread binary64 10 (xllcorner dem_2x2))
           (reread binary64 10 (yllcorner dem_2x2)) (reread binary64 10 (cellsize dem_2x2))
           (float_of_ieee (reread binary32 10 (float_value (no_data dem_2x2)))) 0)
        {| pending := floating_payload dem_2x2; good := true |}) as (Hw' & _).
      exact Hw'.
    + pose proof (read_cells_frame (coords 2 2)
        (Array2d 2 2 zeroed (reread binary64 10 (xllcorner dem_2x2))
           (reread binary64 10 (yllcorner dem_2x2)) (reread binary64 10 (cellsize dem_2x2))
           (float_of_ieee (reread binary32 10 (float_value (no_data dem_2x2)))) 0)
        {| pending := floating_payload dem_2x2; good := true |}) as (_ & Hh' & _).
      exact Hh'.
Defined.

(** ** The round trip through the binary pair *)




Lemma store_other (path other : string) (t : text) (fs : filesystem) :
  other <> path -> files (store path t fs) !! other = files fs !! other.
Proof. intros Hne. unfold store; cbn [files]. by rewrite lookup_insert_ne. Qed.

Lemma store_same (path : string) (t : text) (fs : filesystem) :
  files (store path t fs) !! path = Some t.
Proof. unfold store; cbn [files]. by rewrite lookup_insert_eq. Qed.

Lemma read_floating_data_header_failure (fresh : Z -> Z -> float) (basename : string)
    (grid : array2d float) (fs : filesystem) (hdr : text) :
  files fs !! (basename +:+ ".hdr")%string = Some hdr ->
  fst (fscanf hdr header_format) <> 7 ->
  read_floating_data fresh basename grid fs = Exited (-1) ReadingHeader fs.
Proof.
  intros Hhdr Hn. unfold read_floating_data, fopen_read. rewrite Hhdr.
  destruct (fscanf hdr header_format) as [n items]. simpl in Hn.
  by destruct (Z.eqb_spec n 7).
Qed.

(** White space, then a character that is none: what [skip_space] finds. *)
Lemma skip_space_found (w : text) (c : ascii) (r : text) :
  forallb is_space w = true -> is_space c = false -> skip_space (w ++ c :: r) = c :: r.
Proof. intros Hw Hc. rewrite skip_space_spaces by done. simpl. by rewrite Hc. Qed.

Lemma begins_solid (d : directive) (c : ascii) : begins d c = true -> is_space c = false.
Proof.
  intros Hb. destruct (is_space c) eqn:Hc; [|done]. exfalso. revert Hb. unfold begins.
  rewrite is_digit_space, to_lower_space, !(Ascii.eqb_sym c), !(eqb_non_space _ c) by done.
  by destruct d.
Qed.

(** A word, white space and a text that begins with a character that is
    none: when the whole begins with white space, the word is empty. *)
Lemma skip_space_word (tok w s2 : text) (x c : ascii) (r r2 : text) :
  solid tok = true -> forallb is_space w = true ->
  tok ++ w ++ s2 = x :: r -> is_space x = true ->
  s2 = c :: r2 -> is_space c = false ->
  skip_space (x :: r) = s2.
Proof.
  intros Htok Hw Heq Hx -> Hc. destruct tok as [|t tok].
  - simpl in Heq. rewrite <- Heq. by apply skip_space_found.
  - inversion Heq; subst. unfold solid in Htok. simpl in Htok. by rewrite Hx in Htok.
Qed.

(** The outline on known headers: the header of the sample grid has it; a
    header with its first two keys exchanged, one whose number of columns is
    spelt out and one with a stray word between two fields have it not. *)
Example header_outline_known_headers :
  header_outline (floating_header dem_2x2) /\
  ~ header_outline
      (lit "nrows 2 ncols 2 xllcorner 0 yllcorner 0 cellsize 1 NODATA_value -9999 BYTEORDER LSBFIRST") /\
  ~ header_outline
      (lit "ncols two nrows 2 xllcorner 0 yllcorner 0 cellsize 1 NODATA_value -9999 BYTEORDER LSBFIRST") /\
  ~ header_outline
      (lit "ncols 2 wide nrows 2 xllcorner 0 yllcorner 0 cellsize 1 NODATA_value -9999 BYTEORDER LSBFIRST").
Proof.
  split_and!.
  - apply fscanf_header_outline. rewrite <- (app_nil_r (floating_header dem_2x2)).
    rewrite fscanf_floating_header by range. reflexivity.
  - intros (w1 & c & tok & w2 & s2 & Heq & _). inversion Heq.
  - intros (w1 & c & tok & w2 & s2 & Heq & Hw1 & Hc & _). cbn [fst snd] in *.
    apply (app_inv_head (lit "ncols")) in Heq.
    pose proof (skip_space_found w1 c (tok ++ w2 ++ s2) Hw1 (begins_solid _ _ Hc)) as Hskip.
    rewrite <- Heq in Hskip. vm_compute in Hskip. inversion Hskip; subst c.
    vm_compute in Hc. discriminate.
  - intros (w1 & c & tok & w2 & s2 & Heq & Hw1 & Hc & Htok & Hw2
            & w3 & c3 & tok3 & w4 & s4 & Heq2 & _). cbn [fst snd] in *.
    apply (app_inv_head (lit "ncols")) in Heq.
    pose proof (skip_space_found w1 c (tok ++ w2 ++ s2) Hw1 (begins_solid _ _ Hc)) as Hskip.
    rewrite <- Heq in Hskip. vm_compute in Hskip. inversion Hskip as [[Hc' Hrest]].
    symmetry in Hrest.
    pose proof (skip_space_word tok w2 s2 _ "n"%char _ _ Htok Hw2 Hrest eq_refl Heq2 eq_refl)
      as Hs2.
    rewrite Heq2 in Hs2. vm_compute in Hs2. discriminate.
Qed.

Section HeaderRead.
Variable fresh : Z -> Z -> float.

(** The reader ends with the header failure exactly when [fscanf] does not
    assign its seven items. *)
Lemma read_floating_data_header_failure_iff (basename : string) (grid : array2d float)
    (fs : filesystem) (hdr : text) :
  files fs !! (basename +:+ ".hdr")%string = Some hdr ->
  read_floating_data fresh basename grid fs = Exited (-1) ReadingHeader fs
  <-> ~ header_shape hdr.
Proof.
  intros Hhdr. split.
  - intros Hexit Hshape.
    apply fscanf_of_header_shape in Hshape
      as (columns & rows & xll & yll & csz & nd & bo & Hscan).
    unfold read_floating_data, fopen_read, ifstream_open in Hexit.
    rewrite Hhdr, Hscan in Hexit. cbn [Z.eqb Pos.eqb negb] in Hexit.
    destruct (files fs !! (basename +:+ ".flt")%string); [|done].
    by destruct (for_loop _ _ _ _).
  - intros Hshape.
    apply (read_floating_data_header_failure fresh basename grid fs hdr Hhdr).
    intros Hn. by apply Hshape, fscanf_header_shape.
Qed.

(** With its header file there, the reader ends with the header failure or
    [fscanf] has assigned the seven items. *)
Lemma read_floating_data_header_cases (basename : string) (grid : array2d float)
    (fs : filesystem) (hdr : text) :
  files fs !! (basename +:+ ".hdr")%string = Some hdr ->
  read_floating_data fresh basename grid fs = Exited (-1) ReadingHeader fs \/
  exists columns rows xll yll csz nd bo,
    fscanf hdr header_format
    = (7, [VInt columns; VInt rows; VDouble xll; VDouble yll; VDouble csz;
           VFloat nd; VChar bo]).
Proof.
  intros Hhdr. destruct (fscanf hdr header_format) as [n items] eqn:Hscan.
  unfold read_floating_data, fopen_read. rewrite Hhdr, Hscan.
  destruct (Z.eqb_spec n 7) as [->|]; [|by left]. cbn [negb].
  destruct items as [|[columns| | |] items]; try by left.
  destruct items as [|[rows| | |] items]; try by left.
  destruct items as [|[|xll| |] items]; try by left.
  destruct items as [|[|yll| |] items]; try by left.
  destruct items as [|[|csz| |] items]; try by left.
  destruct items as [|[| |nd|] items]; try by left.
  destruct items as [|[| | |bo] items]; try by left.
  destruct items; try by left.
  right. by exists columns, rows, xll, yll, csz, nd, bo.
Qed.
End HeaderRead.

(** C3 (as amended): [read_floating_data] matches the header against the
    seven keys [ncols], [nrows], [xllcorner], [yllcorner], [cellsize],
    [NODATA_value], [BYTEORDER], in that order, each followed by its value.
    It ends with the header failure on every header that has not this
    outline: each of the six numeric keys, optional white space, a word that
    begins as a number of the field can (a sign or a digit, and for the four
    floating-point fields also a point or the first letter of [inf] or
    [nan]), optional white space; then the key [BYTEORDER], optional white
    space and a character.  So it ends on a key that is missing or out of
    place, on a value that is missing or does not begin as a number, on a
    stray word between two fields; in particular on the header of any grid
    written without its [BYTEORDER] entry.  What follows the first character
    of the [BYTEORDER] value is not examined: text added after a written
    header, such as an extra field, changes nothing. *)
Theorem read_floating_data_header_parsing :
  (forall (fresh : Z -> Z -> float) (basename : string) (grid : array2d float)
          (fs : filesystem) (hdr : text),
     files fs !! (basename +:+ ".hdr")%string = Some hdr ->
     ~ header_outline hdr ->
     read_floating_data fresh basename grid fs = Exited (-1) ReadingHeader fs) /\
  (forall (fresh : Z -> Z -> float) (basename : string) (grid g : array2d float)
          (fs : filesystem),
     - 2 ^ 31 <= width g < 2 ^ 31 -> - 2 ^ 31 <= height g < 2 ^ 31 ->
     files fs !! (basename +:+ ".hdr")%string = Some (floating_header_numbers g) ->
     read_floating_data fresh basename grid fs = Exited (-1) ReadingHeader fs) /\
  (forall (fresh : Z -> Z -> float) (basename : string) (grid g : array2d float)
          (fs1 fs2 : filesystem) (extra payload : text),
     - 2 ^ 31 <= width g < 2 ^ 31 -> - 2 ^ 31 <= height g < 2 ^ 31 ->
     files fs1 !! (basename +:+ ".hdr")%string = Some (floating_header g) ->
     files fs2 !! (basename +:+ ".hdr")%string = Some (floating_header g ++ extra) ->
     files fs1 !! (basename +:+ ".flt")%string = Some payload ->
     files fs2 !! (basename +:+ ".flt")%string = Some payload ->
     exists g2,
       read_floating_data fresh basename grid fs1 = Returned (0, g2) fs1 /\
       read_floating_data fresh basename grid fs2 = Returned (0, g2) fs2).
Proof.
  split_and!.
  - intros fresh basename grid fs hdr Hhdr Houtline.
    apply (read_floating_data_header_failure fresh basename grid fs hdr Hhdr).
    intros Hn. by apply Houtline, fscanf_header_outline.
  - intros fresh basename grid g fs Hw Hh Hhdr.
    apply (read_floating_data_header_failure fresh basename grid fs _ Hhdr).
    by rewrite fscanf_floating_header_numbers.
  - intros fresh basename grid g fs1 fs2 extra payload Hw Hh Hhdr1 Hhdr2 Hflt1 Hflt2.
    eexists. split.
    + apply (read_floating_data_run fresh basename grid fs1 _ payload
               (width g) (height g) (reread binary64 10 (xllcorner g))
               (reread binary64 10 (yllcorner g)) (reread binary64 10 (cellsize g))
               (reread binary32 10 (float_value (no_data g))) "L" Hhdr1); [|done].
      rewrite <- (app_nil_r (floating_header g)). by apply fscanf_floating_header.
    + apply (read_floating_data_run fresh basename grid fs2 _ payload
               (width g) (height g) (reread binary64 10 (xllcorner g))
               (reread binary64 10 (yllcorner g)) (reread binary64 10 (cellsize g))
               (reread binary32 10 (float_value (no_data g))) "L" Hhdr2); [|done].
      by apply fscanf_floating_header.
Qed.

Lemma read_floating_data_header_parsing_witness :
  (files fs_no_byteorder !! "test.hdr"%string = Some (floating_header_numbers dem_2x2) /\
   read_floating_data zeroed "test" dem_third fs_no_byteorder
   = Exited (-1) ReadingHeader fs_no_byteorder) /\
  read_floating_data zeroed "test" dem_third fs_spelt_ncols
  = Exited (-1) ReadingHeader fs_spelt_ncols /\
  read_floating_data zeroed "test" dem_third fs_stray_word
  = Exited (-1) ReadingHeader fs_stray_word.
Proof.
  assert (Hhdr : files fs_no_byteorder !! ("test" +:+ ".hdr")%string
                 = Some (floating_header_numbers dem_2x2))
    by apply lookup_insert_eq.
  destruct read_floating_data_header_parsing as (Houtline & Hmissing & _).
  destruct header_outline_known_headers as (_ & _ & Hspelt & Hstray).
  split; [split; [exact Hhdr|]|split].
  - apply (Hmissing zeroed "test"%string dem_third dem_2x2 fs_no_byteorder);
      [range | range | exact Hhdr].
  - apply (Houtline zeroed "test"%string dem_third fs_spelt_ncols _ (store_same _ _ _)).
    exact Hspelt.
  - apply (Houtline zeroed "test"%string dem_third fs_stray_word _ (store_same _ _ _)).
    exact Hstray.
Defined.

(** C3 (as stated) fails on a header with an extra field: the header of
    the sample grid followed by an eighth entry is read without complaint. *)
Lemma read_floating_data_accepts_extra_field :
  (length ∘ lines_of <$> files fs_extra_field !! "test.hdr"%string) = Some 8%nat /\
  (field_of "UNITS" <$> files fs_extra_field !! "test.hdr"%string)
  = Some (Some "metres"%string) /\
  exists g2,
    read_floating_data zeroed "test" dem_third fs_extra_field
    = Returned (0, g2) fs_extra_field.
Proof.
  split_and!; [vm_compute; reflexivity | vm_compute; reflexivity |].
  eexists.
  apply (read_floating_data_run zeroed "test" dem_third fs_extra_field
           (floating_header dem_2x2 ++ entry "UNITS" 1 (lit "metres"))
           (floating_payload dem_2x2) (width dem_2x2) (height dem_2x2)
           (reread binary64 10 (xllcorner dem_2x2)) (reread binary64 10 (yllcorner dem_2x2))
           (reread binary64 10 (cellsize dem_2x2))
           (reread binary32 10 (float_value (no_data dem_2x2))) "L").
  - apply lookup_insert_eq.
  - apply fscanf_floating_header; range.
  - unfold fs_extra_field, store; cbn [files].
    rewrite lookup_insert_ne by apply (hdr_flt_distinct "test").
    apply (written_pair_payload "test" dem_2x2 fs0).
Qed.

(** ** How the writers end, and what they leave untouched *)

(** The ASCII writer once its file is open: it throws, or it returns 0
    with the file closed on a text that the grid, the precision and the path
    determine. *)
Lemma output_ascii_data_opened {T : Type} `{CellType T}
    (grid_min grid_max : array2d T -> T)
    (filename : string) (g : array2d T) (p : Z) :
  exists contents : option text,
    forall fs, writable fs filename = true ->
      output_ascii_data grid_min grid_max filename g p fs
      = match contents with
        | Some t => Returned 0 (store filename t (store filename [] fs))
        | None => Thrown out_of_range (store filename [] fs)
        end.
Proof.
  unfold output_ascii_data, ofstream_open.
  destruct (substr filename (size_t_sub (str_length filename) 4)) as [suffix|].
  - destruct (String.eqb suffix ".omg").
    + eexists (Some _). intros fs ->. reflexivity.
    + eexists (Some _). intros fs ->. reflexivity.
  - exists None. by intros fs ->.
Qed.

(** X1: [output_ascii_data] ends with [exit(-1)] exactly when the output
    file cannot be opened, and then the file system is as it was.  The open
    comes before the test of the suffix: a path that cannot be opened ends
    so whatever its length. *)
Theorem output_ascii_data_exits_iff_unwritable
    {T : Type} `{CellType T} (grid_min grid_max : array2d T -> T)
    (filename : string) (output_grid : array2d T) (precision : Z) (fs : filesystem) :
  (writable fs filename = false ->
   output_ascii_data grid_min grid_max filename output_grid precision fs
   = Exited (-1) (Opening filename) fs) /\
  (forall status during fs',
     output_ascii_data grid_min grid_max filename output_grid precision fs
     = Exited status during fs' ->
     writable fs filename = false /\ status = -1 /\ during = Opening filename /\ fs' = fs).
Proof.
  split.
  - apply output_ascii_data_unwritable.
  - intros status during fs' Hexit.
    destruct (writable fs filename) eqn:Hw.
    + destruct (output_ascii_data_opened grid_min grid_max filename output_grid precision)
        as [[t|] Hrun]; rewrite (Hrun fs Hw) in Hexit; discriminate.
    + rewrite output_ascii_data_unwritable in Hexit by done.
      by inversion Hexit.
Qed.

Lemma output_ascii_data_exits_iff_unwritable_witness :
  writable fs_readonly "a" = false /\
  output_ascii_data no_range no_range "a" dem_2x2 8 fs_readonly
  = Exited (-1) (Opening "a") fs_readonly.
Proof.
  split; [reflexivity|].
  apply (output_ascii_data_exits_iff_unwritable no_range no_range "a" dem_2x2 8 fs_readonly).
  reflexivity.
Defined.



(** X3: a file that [output_ascii_data] opens is written afresh: what is
    in it when the call ends does not depend on what was in it before, or on
    whether it existed. *)
Theorem output_ascii_data_replaces_contents
    {T : Type} `{CellType T} (grid_min grid_max : array2d T -> T)
    (filename : string) (output_grid : array2d T) (precision : Z) (fs : filesystem)
    (old : text) :
  writable fs filename = true ->
  files (final_fs (output_ascii_data grid_min grid_max filename output_grid precision
                     (store filename old fs))) !! filename
  = files (final_fs (output_ascii_data grid_min grid_max filename output_grid precision fs))
      !! filename.
Proof.
  intros Hw.
  destruct (output_ascii_data_opened grid_min grid_max filename output_grid precision)
    as [[t|] Hrun]; rewrite (Hrun fs Hw), (Hrun (store filename old fs) Hw);
    cbn [final_fs]; by rewrite !store_same.
Qed.

Lemma output_ascii_data_replaces_contents_witness :
  writable fs0 "dem.asc" = true /\
  files (final_fs (output_ascii_data no_range no_range "dem.asc" dem_2x2 2 fs_old_dem))
    !! "dem.asc"%string
  = files (final_fs (output_ascii_data no_range no_range "dem.asc" dem_2x2 2 fs0))
      !! "dem.asc"%string.
Proof.
  split; [reflexivity|].
  apply (output_ascii_data_replaces_contents no_range no_range "dem.asc" dem_2x2 2 fs0
           (lit "an older file")).
  reflexivity.
Defined.

(** X4: in the OmniGlyph format nothing of the header depends on the
    precision asked for, which only the rows obey.  The header is written
    before the stream is set to [fixed] and to the precision, and without the
    conversion to [int] of one-byte cell types: its range lines carry the
    minimum, the maximum and the no-data value as [operator<<] of the cell
    type writes them under the defaults of a stream (general notation,
    precision 6). *)
Theorem output_ascii_data_omniglyph_header_defaults
    {T : Type} `{CellType T} (grid_min grid_max : array2d T -> T)
    (filename : string) (output_grid : array2d T) (fs : filesystem) :
  writable fs filename = true -> str_length filename < 2 ^ 64 ->
  ends_with ".omg" filename ->
  exists header lead rest,
    (forall precision : Z,
       exists fs',
         output_ascii_data grid_min grid_max filename output_grid precision fs
         = Returned 0 fs' /\
         files fs' !! filename
         = Some (header ++ rows_text (lit "|") (lit "|") precision output_grid)) /\
    header
    = lead ++
      line (lit "Range of values:   " ++ cell_text false 6 (grid_min output_grid)
              ++ lit "," ++ cell_text false 6 (grid_max output_grid)) ++
      line (lit "Actual range:   " ++ cell_text false 6 (no_data output_grid)
              ++ lit "," ++ cell_text false 6 (grid_max output_grid)) ++
      rest.
Proof.
  intros Hw Hmax Homg.
  assert (Hlen : 4 <= str_length filename < 2 ^ 64).
  { destruct Homg as [stem ->]. rewrite str_length_app in *.
    unfold str_length in *. simpl in *. lia. }
  exists (omniglyph_header grid_min grid_max output_grid).
  eexists _, _. split.
  - intros p. eexists. split; [by apply output_ascii_data_omniglyph|].
    by rewrite store_same.
  - unfold omniglyph_header.
    rewrite (app_assoc (line (lit "Contents: Pixel array"))).
    rewrite (app_assoc _ (line (lit "Width:    " ++ _))).
    rewrite (app_assoc _ (line (lit "Height:   " ++ _))).
    rewrite (app_assoc _ (line [])).
    rewrite (app_assoc _ (line (lit "Spectral bands:   1"))).
    rewrite (app_assoc _ (line (lit "Bits per band:   32"))).
    reflexivity.
Qed.

Lemma output_ascii_data_omniglyph_header_defaults_witness :
  exists header,
    forall precision : Z,
      exists fs',
        output_ascii_data no_range no_range "flow.omg" flowdirs_2x2 precision fs0
        = Returned 0 fs' /\
        files fs' !! "flow.omg"%string
        = Some (header ++ rows_text (lit "|") (lit "|") precision flowdirs_2x2).
Proof.
  assert (Homg : ends_with ".omg" "flow.omg")
    by (rewrite ends_with_has_suffix; reflexivity).
  destruct (output_ascii_data_omniglyph_header_defaults no_range no_range "flow.omg"
              flowdirs_2x2 fs0) as (header & lead & rest & Hrun & _);
    [reflexivity | reflexivity | exact Homg |].
  exists header. exact Hrun.
Defined.

(** The OmniGlyph file of the grid of [char]: the range lines hold the
    characters themselves, the rows their integer values. *)
Example output_ascii_data_omniglyph_char_grid :
  exists fs',
    output_ascii_data no_range no_range "flow.omg" flowdirs_2x2 2 fs0 = Returned 0 fs' /\
    (drop 7 ∘ lines_of <$> files fs' !! "flow.omg"%string)
    = Some [show (lit "Range of values:   " ++ [chr 255] ++ lit "," ++ [chr 255]);
            show (lit "Actual range:   " ++ [chr 255] ++ lit "," ++ [chr 255]);
            "Gamma exponent:   0."; "Resolution:   100 pixels per inch"; ""; "|";
            "|1|2|"; "|3|4|"]%string.
Proof.
  assert (Homg : ends_with ".omg" "flow.omg")
    by (rewrite ends_with_has_suffix; reflexivity).
  eexists. split.
  - apply (output_ascii_data_omniglyph no_range no_range "flow.omg" flowdirs_2x2 2 fs0);
      [reflexivity | split; [discriminate | reflexivity] | exact Homg].
  - vm_compute. reflexivity.
Qed.

Lemma seqZ_empty (lo n : Z) : n <= 0 -> seqZ lo n = [].
Proof. intros Hn. apply seqZ_nil. lia. Qed.

(** X5: a grid without rows is written as the header alone, and a grid
    without columns as the header and one empty line for each row; the same
    holds of dimensions below zero, at which the loops do not turn. *)
Theorem output_ascii_data_empty_grid
    {T : Type} `{CellType T} (grid_min grid_max : array2d T -> T)
    (filename : string) (output_grid : array2d T) (precision : Z) (fs : filesystem) :
  writable fs filename = true -> 4 <= str_length filename < 2 ^ 64 ->
  ~ ends_with ".omg" filename ->
  exists fs',
    output_ascii_data grid_min grid_max filename output_grid precision fs = Returned 0 fs' /\
    (height output_grid <= 0 ->
     files fs' !! filename = Some (arcgrid_header precision output_grid)) /\
    (width output_grid <= 0 ->
     files fs' !! filename
     = Some (arcgrid_header precision output_grid
             ++ replicate (Z.to_nat (height output_grid)) newline)).
Proof.
  intros Hw Hlen Hno. eexists. split; [by apply output_ascii_data_arcgrid|].
  rewrite store_same. unfold arcgrid_text, rows_text. split.
  - intros Hh. rewrite seqZ_empty by done. cbn [map concat]. by rewrite app_nil_r.
  - intros Hwd. do 2 f_equal.
    assert (Hrow : forall y, row_text [] (lit " ") precision output_grid y = [newline]).
    { intros y. unfold row_text. by rewrite seqZ_empty. }
    rewrite (map_ext _ (fun _ => [newline]) Hrow).
    rewrite <- (length_seqZ 0 (height output_grid)).
    generalize (seqZ 0 (height output_grid)). intros ys.
    induction ys as [|y ys IH]; [done|]. cbn [map concat length replicate app]. by rewrite IH.
Qed.

Lemma output_ascii_data_empty_grid_witness :
  exists fs',
    output_ascii_data no_range no_range "dem.asc" (resize zeroed 0 3 dem_2x2) 2 fs0
    = Returned 0 fs' /\
    (lines_of <$> files fs' !! "dem.asc"%string)
    = Some ["ncols" +:+ show [tab; tab] +:+ "0";
            "nrows" +:+ show [tab; tab] +:+ "3";
            "xllcorner" +:+ show [tab] +:+ "0.00";
            "yllcorner" +:+ show [tab] +:+ "0.00";
            "cellsize" +:+ show [tab] +:+ "1.00";
            "NODATA_value" +:+ show [tab] +:+ "-9999.00";
            ""; ""; ""]%string.
Proof.
  assert (Hno : ~ ends_with ".omg" "dem.asc")
    by (rewrite ends_with_has_suffix; discriminate).
  destruct (output_ascii_data_empty_grid no_range no_range "dem.asc"
              (resize zeroed 0 3 dem_2x2) 2 fs0)
    as (fs' & Hret & _ & Hcols);
    [reflexivity | split; [discriminate | reflexivity] | exact Hno |].
  exists fs'. split; [exact Hret|].
  rewrite Hcols by (cbn; lia). vm_compute. reflexivity.
Defined.

(** ** The binary writer: failures and layout *)

Section BinaryWriterRuns.
Context {T : Type} `{CellType T}.

Lemma write_floating_data_no_header (basename : string) (g : array2d T) (fs : filesystem) :
  writable fs (basename +:+ ".hdr") = false ->
  write_floating_data basename g fs = Exited (-1) (Opening (basename +:+ ".hdr")) fs.
Proof. intros Hh. unfold write_floating_data, ofstream_open. by rewrite Hh. Qed.

Lemma write_floating_data_no_data (basename : string) (g : array2d T) (fs : filesystem) :
  writable fs (basename +:+ ".hdr") = true ->
  writable fs (basename +:+ ".flt") = false ->
  write_floating_data basename g fs
  = Exited (-1) (Opening (basename +:+ ".flt"))
      (store (basename +:+ ".hdr") (floating_header g) (store (basename +:+ ".hdr") [] fs)).
Proof.
  intros Hh Hd. unfold write_floating_data, ofstream_open.
  rewrite Hh. cbv zeta. cbn [writable ofstream_close store]. rewrite Hd.
  unfold ofstream_close, store, floating_header, entry.
  unfold insert, insert_manip, insert_literal, insert_integer, insert_double, insert_cell.
  cbn [files writable written put set_fixed set_precision fixed_flag precision].
  rewrite <- !app_assoc. reflexivity.
Qed.
End BinaryWriterRuns.

(** Lists made of blocks of one length. *)
Lemma bind_blocks_length {A B : Type} (f : A -> list B) (k : nat) (ys : list A) :
  (forall y, length (f y) = k) -> length (ys ≫= f) = (length ys * k)%nat.
Proof.
  intros Hk. induction ys as [|y ys IH]; [done|].
  rewrite bind_cons, length_app, Hk, IH. simpl. lia.
Qed.

Lemma bind_blocks_lookup {A B : Type} (f : A -> list B) (k : nat) (ys : list A)
    (j i : nat) (y : A) (b : B) :
  (forall y, length (f y) = k) ->
  ys !! j = Some y -> f y !! i = Some b -> (ys ≫= f) !! (j * k + i)%nat = Some b.
Proof.
  intros Hk. revert j. induction ys as [|y0 ys IH]; intros j Hj Hi; [done|].
  rewrite bind_cons. destruct j as [|j].
  - simpl in Hj. inversion Hj; subst y0. rewrite lookup_app_l; [done|].
    by apply lookup_lt_Some in Hi.
  - simpl in Hj. rewrite lookup_app_r by (rewrite Hk; simpl; lia).
    rewrite Hk. replace (S j * k + i - k)%nat with (j * k + i)%nat by (simpl; lia).
    by apply IH.
Qed.

Lemma concat_blocks_length {A : Type} (k : nat) (bs : list (list A)) :
  Forall (fun b => length b = k) bs -> length (concat bs) = (length bs * k)%nat.
Proof.
  induction 1 as [|b bs Hb _ IH]; [done|].
  cbn [concat]. rewrite length_app, Hb, IH. simpl. lia.
Qed.

Lemma concat_blocks_lookup {A : Type} (k : nat) (bs : list (list A)) (i : nat) (b : list A) :
  Forall (fun b => length b = k) bs ->
  bs !! i = Some b -> take k (drop (i * k) (concat bs)) = b.
Proof.
  intros Hbs. revert i. induction Hbs as [|b0 bs Hb0 _ IH]; intros i Hi; [done|].
  cbn [concat]. destruct i as [|i].
  - simpl in Hi. inversion Hi; subst b0.
    by rewrite Nat.mul_0_l, drop_0, take_app_length'.
  - simpl in Hi. replace (S i * k)%nat with (length b0 + i * k)%nat by (simpl; lia).
    rewrite drop_app_add'; [|done]. by apply IH.
Qed.

Lemma lookup_map {A B : Type} (f : A -> B) (l : list A) (i : nat) :
  map f l !! i = f <$> l !! i.
Proof. revert i. induction l as [|a l IH]; intros [|i]; simpl; auto. Qed.

Lemma length_coords (cols rows : Z) :
  length (coords cols rows) = (Z.to_nat rows * Z.to_nat cols)%nat.
Proof.
  unfold coords. rewrite (bind_blocks_length _ (Z.to_nat cols)).
  - by rewrite length_seqZ.
  - intros y. by rewrite length_fmap, length_seqZ.
Qed.

(** The place of a cell in the order of the files. *)
Lemma coords_lookup (cols rows x y : Z) :
  0 <= x < cols -> 0 <= y < rows ->
  coords cols rows !! Z.to_nat (y * cols + x) = Some (x, y).
Proof.
  intros Hx Hy. unfold coords.
  replace (Z.to_nat (y * cols + x)) with (Z.to_nat y * Z.to_nat cols + Z.to_nat x)%nat by nia.
  apply (bind_blocks_lookup _ (Z.to_nat cols) _ _ _ y).
  - intros y'. by rewrite length_fmap, length_seqZ.
  - rewrite lookup_seqZ_lt by lia. f_equal. lia.
  - rewrite list_lookup_fmap, lookup_seqZ_lt by lia. simpl. do 2 f_equal. lia.
Qed.

Section Payload.
Context {T : Type} `{CellType T}.

(** The object representation of a [T] has [sizeof(T)] bytes. *)
Hypothesis to_bytes_sizeof : forall v : T, length (to_bytes v) = sizeof T.

Lemma payload_blocks (g : array2d T) (l : list (Z * Z)) :
  Forall (fun b => length b = sizeof T)
    (map (fun '(x, y) => take (sizeof T) (to_bytes (cell g x y))) l).
Proof.
  induction l as [|[x y] l IH]; constructor; [|done].
  rewrite length_take, to_bytes_sizeof. lia.
Qed.

Lemma floating_payload_length (g : array2d T) :
  Z.of_nat (length (floating_payload g))
  = Z.of_nat (sizeof T) * (Z.max 0 (width g) * Z.max 0 (height g)).
Proof.
  unfold floating_payload.
  rewrite (concat_blocks_length (sizeof T)) by apply payload_blocks.
  rewrite length_map, length_coords. nia.
Qed.

Lemma floating_payload_cell (g : array2d T) (x y : Z) :
  0 <= x < width g -> 0 <= y < height g ->
  take (sizeof T) (drop (Z.to_nat (y * width g + x) * sizeof T) (floating_payload g))
  = to_bytes (cell g x y).
Proof.
  intros Hx Hy. unfold floating_payload.
  rewrite (concat_blocks_lookup (sizeof T) _ _ (take (sizeof T) (to_bytes (cell g x y))));
    [ | apply payload_blocks | ].
  - rewrite take_ge; [done|]. rewrite to_bytes_sizeof. lia.
  - by rewrite lookup_map, coords_lookup.
Qed.
End Payload.

(** X6: when the header file cannot be opened, [write_floating_data] ends
    with [exit(-1)] and nothing is written.  When the header file can be
    opened and the data file cannot, it ends with [exit(-1)] as well, but by
    then the header file has been written and closed: it is left behind,
    complete, without its data file. *)
Theorem write_floating_data_open_failures
    {T : Type} `{CellType T} (basename : string) (output_grid : array2d T)
    (fs : filesystem) :
  (writable fs (basename +:+ ".hdr") = false ->
   write_floating_data basename output_grid fs
   = Exited (-1) (Opening (basename +:+ ".hdr")) fs) /\
  (writable fs (basename +:+ ".hdr") = true ->
   writable fs (basename +:+ ".flt") = false ->
   exists fs',
     write_floating_data basename output_grid fs
     = Exited (-1) (Opening (basename +:+ ".flt")) fs' /\
     files fs' !! (basename +:+ ".hdr")%string = Some (floating_header output_grid) /\
     files fs' !! (basename +:+ ".flt")%string = files fs !! (basename +:+ ".flt")%string).
Proof.
  split.
  - apply write_floating_data_no_header.
  - intros Hh Hd. eexists. split; [by apply write_floating_data_no_data|].
    split; [apply store_same|].
    rewrite !store_other; [done | symmetry; apply hdr_flt_distinct..].
Qed.

Lemma write_floating_data_open_failures_witness :
  writable fs_header_only "test.hdr" = true /\
  writable fs_header_only "test.flt" = false /\
  exists fs',
    write_floating_data "test" dem_2x2 fs_header_only
    = Exited (-1) (Opening "test.flt") fs' /\
    files fs' !! "test.hdr"%string = Some (floating_header dem_2x2) /\
    files fs' !! "test.flt"%string = None.
Proof.
  split; [reflexivity|]. split; [reflexivity|].
  destruct (write_floating_data_open_failures "test" dem_2x2 fs_header_only) as [_ Hdata].
  destruct Hdata as (fs' & Hexit & Hhdr & Hflt); [reflexivity | reflexivity |].
  exists fs'. split; [exact Hexit|]. split; [exact Hhdr|].
  exact (eq_trans Hflt eq_refl).
Defined.



(** X8: the data file that [write_floating_data] writes holds the cells
    and nothing else: [sizeof(T)] bytes for each cell, no header, no
    padding, no end mark.  A grid with a dimension of zero or less gives an
    empty file. *)
Theorem write_floating_data_payload_size
    {T : Type} `{CellType T} (basename : string) (output_grid : array2d T)
    (fs : filesystem) :
  (forall v : T, length (to_bytes v) = sizeof T) ->
  writable fs (basename +:+ ".hdr") = true ->
  writable fs (basename +:+ ".flt") = true ->
  exists fs' payload,
    write_floating_data basename output_grid fs = Returned 0 fs' /\
    files fs' !! (basename +:+ ".flt")%string = Some payload /\
    Z.of_nat (length payload)
    = Z.of_nat (sizeof T) * (Z.max 0 (width output_grid) * Z.max 0 (height output_grid)).
Proof.
  intros Hrep Hh Hd. eexists _, _.
  split; [by apply write_floating_data_spec|].
  split; [apply written_pair_payload|]. by apply floating_payload_length.
Qed.

Lemma write_floating_data_payload_size_witness :
  exists fs' payload,
    write_floating_data "flow" flowdirs_2x2 fs0 = Returned 0 fs' /\
    files fs' !! "flow.flt"%string = Some payload /\
    Z.of_nat (length payload) = 4.
Proof.
  destruct (write_floating_data_payload_size "flow" flowdirs_2x2 fs0)
    as (fs' & payload & Hret & Hfile & Hlen); [done | reflexivity | reflexivity |].
  by exists fs', payload.
Defined.

(** X9: in the data file the cells lie row by row, the first row first:
    the bytes of the cell at column [x] of row [y] are the [sizeof(T)] bytes
    at offset [(y * width + x) * sizeof(T)]. *)
Theorem write_floating_data_cell_offset
    {T : Type} `{CellType T} (basename : string) (output_grid : array2d T)
    (fs : filesystem) (x y : Z) :
  (forall v : T, length (to_bytes v) = sizeof T) ->
  writable fs (basename +:+ ".hdr") = true ->
  writable fs (basename +:+ ".flt") = true ->
  0 <= x < width output_grid -> 0 <= y < height output_grid ->
  exists fs' payload,
    write_floating_data basename output_grid fs = Returned 0 fs' /\
    files fs' !! (basename +:+ ".flt")%string = Some payload /\
    take (sizeof T)
      (drop (Z.to_nat (y * width output_grid + x) * sizeof T) payload)
    = to_bytes (cell output_grid x y).
Proof.
  intros Hrep Hh Hd Hx Hy. eexists _, _.
  split; [by apply write_floating_data_spec|].
  split; [apply written_pair_payload|]. by apply floating_payload_cell.
Qed.

Lemma write_floating_data_cell_offset_witness :
  exists fs' payload,
    write_floating_data "test" dem_2x2 fs0 = Returned 0 fs' /\
    files fs' !! "test.flt"%string = Some payload /\
    take 4 (drop 8 payload) = to_bytes (float_lit "3.5").
Proof.
  destruct (write_floating_data_cell_offset "test" dem_2x2 fs0 0 1)
    as (fs' & payload & Hret & Hfile & Hcell);
    [done | reflexivity | reflexivity | range | range |].
  by exists fs', payload.
Defined.

(** ** The binary reader: how it ends, and where the cells come from *)

Lemma to_of_bytes_float (bs : text) : length bs = 4%nat -> to_bytes (of_bytes bs : float) = bs.
Proof. by destruct bs as [|a [|b [|c [|d [|e bs]]]]]. Qed.

Lemma to_bytes_float_inj (a b : float) : to_bytes a = to_bytes b -> a = b.
Proof. destruct a, b. cbn. congruence. Qed.

(** A stream that has failed delivers nothing: the cells keep their values. *)
Lemma read_cell_failed (x0 y0 : Z) (g : array2d float) (p : text) :
  exists g1,
    read_cell x0 y0 (g, {| pending := p; good := false |})
    = (g1, {| pending := p; good := false |}) /\
    forall x y, cell g1 x y = cell g x y.
Proof.
  unfold read_cell, istream_read. cbn [good]. eexists. split; [reflexivity|].
  intros x y. rewrite of_to_bytes_float.
  match goal with |- context [if ?b then _ else _] => destruct b end;
    cbn [set_data_cells set_cell cell];
    destruct (Z.eqb_spec x x0), (Z.eqb_spec y y0); subst; done.
Qed.

Lemma read_cells_failed (l : list (Z * Z)) (g : array2d float) (p : text) (x y : Z) :
  cell (fst (read_cells l (g, {| pending := p; good := false |}))) x y = cell g x y.
Proof.
  revert g. induction l as [|[x0 y0] l IH]; intros g; [done|].
  rewrite read_cells_cons.
  destruct (read_cell_failed x0 y0 g p) as (g1 & -> & Hg1).
  by rewrite IH.
Qed.

(** A whole cell is pending: it is stored, and the stream goes on. *)
Lemma read_cell_whole (x0 y0 : Z) (g : array2d float) (p : text) :
  (4 <= length p)%nat ->
  exists g1,
    read_cell x0 y0 (g, {| pending := p; good := true |})
    = (g1, {| pending := drop 4 p; good := true |}) /\
    to_bytes (cell g1 x0 y0) = take 4 p.
Proof.
  intros Hlen. unfold read_cell, istream_read. cbn [good pending].
  change (sizeof float) with 4%nat.
  destruct (Nat.leb_spec 4 (length p)); [|lia].
  rewrite (drop_ge (to_bytes (cell g x0 y0))), app_nil_r by (cbn; lia).
  eexists. split; [reflexivity|].
  match goal with |- context [if ?b then _ else _] => destruct b end;
    cbn [set_data_cells set_cell cell]; rewrite !Z.eqb_refl; cbn [andb];
    apply to_of_bytes_float; rewrite length_take; lia.
Qed.

(** Less than a cell is pending: the stream fails; when nothing at all is
    pending the cell keeps its value. *)
Lemma read_cell_short (x0 y0 : Z) (g : array2d float) (p : text) :
  (length p < 4)%nat ->
  exists g1,
    read_cell x0 y0 (g, {| pending := p; good := true |})
    = (g1, {| pending := []; good := false |}) /\
    (p = [] -> cell g1 x0 y0 = cell g x0 y0).
Proof.
  intros Hlen. unfold read_cell, istream_read. cbn [good pending].
  change (sizeof float) with 4%nat.
  destruct (Nat.leb_spec 4 (length p)); [lia|].
  eexists. split; [reflexivity|]. intros ->. cbn [length app].
  rewrite drop_0, of_to_bytes_float.
  match goal with |- context [if ?b then _ else _] => destruct b end;
    cbn [set_data_cells set_cell cell]; by rewrite !Z.eqb_refl.
Qed.

(** The [i]-th cell read comes from the [i]-th group of four bytes of the
    stream, when the stream has it; past the end of the stream the cell
    keeps its value. *)
Lemma read_cells_at (l : list (Z * Z)) (g : array2d float) (p : text)
    (i : nat) (x y : Z) :
  NoDup l -> l !! i = Some (x, y) ->
  ((4 * (i + 1) <= length p)%nat ->
   to_bytes (cell (fst (read_cells l (g, {| pending := p; good := true |}))) x y)
   = take 4 (drop (4 * i) p)) /\
  ((length p <= 4 * i)%nat ->
   cell (fst (read_cells l (g, {| pending := p; good := true |}))) x y = cell g x y).
Proof.
  revert g p i. induction l as [|[x0 y0] l IH]; intros g p i Hnd Hi; [done|].
  apply NoDup_cons in Hnd as [Hnotin Hnd]. rewrite read_cells_cons.
  pose proof (read_cell_frame x0 y0 g {| pending := p; good := true |})
    as (_ & _ & _ & _ & _ & _ & Hother & _). cbv zeta in Hother.
  destruct (Nat.le_gt_cases 4 (length p)) as [Hlen|Hlen].
  - destruct (read_cell_whole x0 y0 g p Hlen) as (g1 & Hstep & Hcell).
    rewrite Hstep in *. cbn [fst] in Hother.
    destruct i as [|i].
    + simpl in Hi. inversion Hi; subst x0 y0. split; [|lia]. intros _.
      pose proof (read_cells_frame l g1 {| pending := drop 4 p; good := true |})
        as (_ & _ & _ & _ & _ & _ & Hframe). cbv zeta in Hframe.
      by rewrite Hframe, drop_0.
    + simpl in Hi. destruct (IH g1 (drop 4 p) i Hnd Hi) as [Hin Hout].
      assert (Hne : (x, y) <> (x0, y0)).
      { intros Heq. apply Hnotin. rewrite <- Heq. by eapply list_elem_of_lookup_2. }
      split.
      * intros Hall. rewrite Hin by (rewrite length_drop; lia).
        rewrite drop_drop. do 2 f_equal. lia.
      * intros Hend. rewrite Hout by (rewrite length_drop; lia). by apply Hother.
  - destruct (read_cell_short x0 y0 g p Hlen) as (g1 & Hstep & Hcell).
    rewrite Hstep in *. cbn [fst] in Hother.
    split; [lia|]. intros Hend. rewrite read_cells_failed.
    destruct i as [|i].
    + simpl in Hi. inversion Hi; subst x0 y0. apply Hcell.
      destruct p; [done | simpl in Hend; lia].
    + simpl in Hi. apply Hother. intros Heq. apply Hnotin. rewrite <- Heq.
      by eapply list_elem_of_lookup_2.
Qed.

Section ReaderOutcomes.
Variable fresh : Z -> Z -> float.

(** The grid that the reader starts from, and the one it ends with. *)
Lemma read_floating_data_cells (basename : string) (grid : array2d float)
    (fs fs' : filesystem) (r : Z) (g2 : array2d float) :
  read_floating_data fresh basename grid fs = Returned (r, g2) fs' ->
  exists payload g0,
    files fs !! (basename +:+ ".flt")%string = Some payload /\
    g2 = fst (read_cells (coords (width g2) (height g2))
                (g0, {| pending := payload; good := true |})) /\
    cell g0 = fresh /\ no_data g0 = no_data g2 /\ data_cells g0 = 0.
Proof.
  intros Hret.
  apply read_floating_data_returned in Hret
    as (hdr & payload & columns & rows & xll & yll & csz & nd & bo
        & _ & _ & Hflt & _ & _ & Hg2).
  set (g0 := Array2d columns rows fresh xll yll csz (float_of_ieee nd) 0) in *.
  pose proof (read_cells_frame (coords columns rows) g0 {| pending := payload; good := true |})
    as (Hw & Hh & _ & _ & _ & Hn & _). cbv zeta in *. rewrite <- Hg2 in *.
  exists payload, g0. rewrite Hw, Hh. by split_and!.
Qed.
End ReaderOutcomes.

(** X10: [read_floating_data] ends in one of four ways, and the contents
    of the data file have no part in which.  Without the header file it
    ends with [exit(-1)] at its opening.  With the header file it ends with
    the header failure or, the header read, with [exit(-1)] at the opening
    of the data file when there is none and with the return of 0 when there
    is one, whatever the data file holds and however long it is.  Whether it
    ends with the header failure depends on the text of the header alone;
    the header that [write_floating_data] writes, with any text after it,
    is read.  It never writes: the file system is the same when it ends. *)
Theorem read_floating_data_outcomes
    (fresh : Z -> Z -> float) (basename : string) (grid : array2d float)
    (fs : filesystem) :
  (files fs !! (basename +:+ ".hdr")%string = None ->
   read_floating_data fresh basename grid fs
   = Exited (-1) (Opening (basename +:+ ".hdr")) fs) /\
  (forall hdr : text,
     files fs !! (basename +:+ ".hdr")%string = Some hdr ->
     read_floating_data fresh basename grid fs = Exited (-1) ReadingHeader fs \/
     match files fs !! (basename +:+ ".flt")%string with
     | None =>
         read_floating_data fresh basename grid fs
         = Exited (-1) (Opening (basename +:+ ".flt")) fs
     | Some payload =>
         exists g2, read_floating_data fresh basename grid fs = Returned (0, g2) fs
     end) /\
  (forall (fresh' : Z -> Z -> float) (grid' : array2d float) (fs' : filesystem),
     files fs' !! (basename +:+ ".hdr")%string = files fs !! (basename +:+ ".hdr")%string ->
     read_floating_data fresh basename grid fs = Exited (-1) ReadingHeader fs <->
     read_floating_data fresh' basename grid' fs' = Exited (-1) ReadingHeader fs') /\
  (forall (g : array2d float) (extra : text),
     - 2 ^ 31 <= width g < 2 ^ 31 -> - 2 ^ 31 <= height g < 2 ^ 31 ->
     files fs !! (basename +:+ ".hdr")%string = Some (floating_header g ++ extra) ->
     read_floating_data fresh basename grid fs <> Exited (-1) ReadingHeader fs) /\
  final_fs (read_floating_data fresh basename grid fs) = fs.
Proof.
  split_and!.
  - intros Hhdr. unfold read_floating_data, fopen_read. by rewrite Hhdr.
  - intros hdr Hhdr.
    destruct (read_floating_data_header_cases fresh basename grid fs hdr Hhdr)
      as [Hfail|(columns & rows & xll & yll & csz & nd & bo & Hscan)]; [by left|right].
    destruct (files fs !! (basename +:+ ".flt")%string) as [payload|] eqn:Hflt.
    + eexists.
      by apply (read_floating_data_run fresh basename grid fs hdr payload columns rows
                  xll yll csz nd bo).
    + unfold read_floating_data, fopen_read, ifstream_open.
      by rewrite Hhdr, Hscan, Hflt.
  - intros fresh' grid' fs' Hsame.
    destruct (files fs !! (basename +:+ ".hdr")%string) as [hdr|] eqn:Hhdr.
    + rewrite (read_floating_data_header_failure_iff fresh basename grid fs hdr Hhdr).
      by rewrite (read_floating_data_header_failure_iff fresh' basename grid' fs' hdr Hsame).
    + unfold read_floating_data, fopen_read. by rewrite Hhdr, Hsame.
  - intros g extra Hw Hh Hhdr Hfail.
    apply (read_floating_data_header_failure_iff fresh basename grid fs _ Hhdr) in Hfail.
    apply Hfail, fscanf_header_shape. by rewrite fscanf_floating_header.
  - unfold read_floating_data, ifstream_open. repeat case_match; reflexivity.
Qed.

Lemma read_floating_data_outcomes_witness :
  files fs_no_data !! "test.hdr"%string = Some (floating_header dem_2x2) /\
  files fs_no_data !! "test.flt"%string = None /\
  read_floating_data zeroed "test" dem_third fs_no_data
  = Exited (-1) (Opening "test.flt") fs_no_data /\
  (exists g2, read_floating_data zeroed "test" dem_third fs_padded = Returned (0, g2) fs_padded).
Proof.
  assert (Hhdr : files fs_no_data !! ("test" +:+ ".hdr")%string
                 = Some (floating_header dem_2x2 ++ [])).
  { rewrite app_nil_r. apply lookup_insert_eq. }
  assert (Hflt : files fs_no_data !! ("test" +:+ ".flt")%string = None) by reflexivity.
  assert (Hhdr' : files fs_padded !! ("test" +:+ ".hdr")%string
                  = Some (floating_header dem_2x2 ++ [])).
  { rewrite app_nil_r. unfold fs_padded, store; cbn [files].
    rewrite lookup_insert_ne by (symmetry; apply (hdr_flt_distinct "test")).
    apply (written_pair_header "test" dem_2x2 fs0). }
  assert (Hflt' : files fs_padded !! ("test" +:+ ".flt")%string
                  = Some (floating_payload dem_2x2 ++ lit "trailer"))
    by apply lookup_insert_eq.
  split; [rewrite <- (app_nil_r (floating_header dem_2x2)); exact Hhdr|].
  split; [exact Hflt|]. split.
  - destruct (read_floating_data_outcomes zeroed "test" dem_third fs_no_data)
      as (_ & Hread & _ & Hwritten & _).
    destruct (Hread _ Hhdr) as [Hfail|Hrun].
    + exfalso. revert Hfail. apply (Hwritten dem_2x2 []); [range | range | exact Hhdr].
    + rewrite Hflt in Hrun. exact Hrun.
  - destruct (read_floating_data_outcomes zeroed "test" dem_third fs_padded)
      as (_ & Hread & _ & Hwritten & _).
    destruct (Hread _ Hhdr') as [Hfail|Hrun].
    + exfalso. revert Hfail. apply (Hwritten dem_2x2 []); [range | range | exact Hhdr'].
    + rewrite Hflt' in Hrun. exact Hrun.
Defined.

(** X11: a cell of the grid that [read_floating_data] returns holds the
    four bytes found in the data file at offset [4 * (y * width + x)], when
    the file reaches that far: the reader takes the cells row by row, the
    first row first, as the writer lays them out. *)
Theorem read_floating_data_cell_offset
    (fresh : Z -> Z -> float) (basename : string) (grid : array2d float)
    (fs fs' : filesystem) (r : Z) (g2 : array2d float) :
  read_floating_data fresh basename grid fs = Returned (r, g2) fs' ->
  exists payload,
    files fs !! (basename +:+ ".flt")%string = Some payload /\
    forall x y,
      0 <= x < width g2 -> 0 <= y < height g2 ->
      4 * (y * width g2 + x) + 4 <= Z.of_nat (length payload) ->
      to_bytes (cell g2 x y) = take 4 (drop (Z.to_nat (4 * (y * width g2 + x))) payload).
Proof.
  intros Hret.
  destruct (read_floating_data_cells fresh basename grid fs fs' r g2 Hret)
    as (payload & g0 & Hflt & Hg2 & _).
  exists payload. split; [done|]. intros x y Hx Hy Hlen.
  destruct (read_cells_at (coords (width g2) (height g2)) g0 payload
              (Z.to_nat (y * width g2 + x)) x y (NoDup_coords _ _)
              (coords_lookup _ _ x y Hx Hy)) as [Hin _].
  rewrite <- Hg2 in Hin. rewrite Hin by nia. do 2 f_equal. nia.
Qed.

Lemma read_floating_data_cell_offset_witness :
  exists g2 payload,
    read_floating_data zeroed "test" dem_third fs_padded = Returned (0, g2) fs_padded /\
    files fs_padded !! "test.flt"%string = Some payload /\
    width g2 = 2 /\ height g2 = 2 /\
    to_bytes (cell g2 1 1) = take 4 (drop 12 payload) /\
    take 4 (drop 12 payload) = to_bytes (float_lit "4.5").
Proof.
  assert (Hrun : exists g2,
            read_floating_data zeroed "test" dem_third fs_padded = Returned (0, g2) fs_padded
            /\ width g2 = 2 /\ height g2 = 2).
  { eexists. split.
    - apply (read_floating_data_run zeroed "test" dem_third fs_padded
               (floating_header dem_2x2) (floating_payload dem_2x2 ++ lit "trailer")
               (width dem_2x2) (height dem_2x2)
               (reread binary64 10 (xllcorner dem_2x2)) (reread binary64 10 (yllcorner dem_2x2))
               (reread binary64 10 (cellsize dem_2x2))
               (reread binary32 10 (float_value (no_data dem_2x2))) "L").
      + unfold fs_padded. rewrite store_other by apply (hdr_flt_distinct "test").
        apply (written_pair_header "test" dem_2x2 fs0).
      + rewrite <- (app_nil_r (floating_header dem_2x2)). apply fscanf_floating_header; range.
      + apply store_same.
    - pose proof (read_cells_frame (coords (width dem_2x2) (height dem_2x2))
        (Array2d (width dem_2x2) (height dem_2x2) zeroed
           (reread binary64 10 (xllcorner dem_2x2)) (reread binary64 10 (yllcorner dem_2x2))
           (reread binary64 10 (cellsize dem_2x2))
           (float_of_ieee (reread binary32 10 (float_value (no_data dem_2x2)))) 0)
        {| pending := floating_payload dem_2x2 ++ lit "trailer"; good := true |})
        as (Hw & Hh & _).
      split; [exact Hw | exact Hh]. }
  destruct Hrun as (g2 & Hrun & Hw & Hh).
  destruct (read_floating_data_cell_offset zeroed "test" dem_third fs_padded fs_padded 0 g2 Hrun)
    as (payload & Hfile & Hcells).
  assert (Hall : files fs_padded !! ("test" +:+ ".flt")%string
                 = Some (floating_payload dem_2x2 ++ lit "trailer")) by apply store_same.
  assert (Hpay : payload = floating_payload dem_2x2 ++ lit "trailer")
    by (rewrite Hall in Hfile; by inversion Hfile).
  exists g2, payload. split; [exact Hrun|]. split; [exact Hfile|].
  split; [exact Hw|]. split; [exact Hh|]. split.
  - rewrite (Hcells 1 1); rewrite ?Hw, ?Hh; [reflexivity | lia | lia |].
    rewrite Hpay. vm_compute. discriminate.
  - rewrite Hpay. vm_compute. reflexivity.
Defined.

(** X12: [read_floating_data] does not notice a data file that is too
    short.  It returns all the same, and every cell that lies wholly past
    the end of the file holds what [resize] left in it. *)
Theorem read_floating_data_short_file
    (fresh : Z -> Z -> float) (basename : string) (grid : array2d float)
    (fs fs' : filesystem) (r : Z) (g2 : array2d float) :
  read_floating_data fresh basename grid fs = Returned (r, g2) fs' ->
  exists payload,
    files fs !! (basename +:+ ".flt")%string = Some payload /\
    forall x y,
      0 <= x < width g2 -> 0 <= y < height g2 ->
      Z.of_nat (length payload) <= 4 * (y * width g2 + x) ->
      cell g2 x y = fresh x y.
Proof.
  intros Hret.
  destruct (read_floating_data_cells fresh basename grid fs fs' r g2 Hret)
    as (payload & g0 & Hflt & Hg2 & Hfresh & _).
  exists payload. split; [done|]. intros x y Hx Hy Hlen.
  destruct (read_cells_at (coords (width g2) (height g2)) g0 payload
              (Z.to_nat (y * width g2 + x)) x y (NoDup_coords _ _)
              (coords_lookup _ _ x y Hx Hy)) as [_ Hout].
  rewrite <- Hg2 in Hout. rewrite Hout by nia. by rewrite Hfresh.
Qed.

Lemma read_floating_data_short_file_witness :
  exists g2,
    read_floating_data zeroed "test" dem_third fs_truncated = Returned (0, g2) fs_truncated /\
    (length <$> files fs_truncated !! "test.flt"%string) = Some 6%nat /\
    width g2 = 2 /\ height g2 = 2 /\
    cell g2 0 1 = zeroed 0 1 /\ cell g2 1 1 = zeroed 1 1.
Proof.
  assert (Hrun : exists g2,
            read_floating_data zeroed "test" dem_third fs_truncated
            = Returned (0, g2) fs_truncated /\ width g2 = 2 /\ height g2 = 2).
  { eexists. split.
    - apply (read_floating_data_run zeroed "test" dem_third fs_truncated
               (floating_header dem_2x2) (take 6 (floating_payload dem_2x2))
               (width dem_2x2) (height dem_2x2)
               (reread binary64 10 (xllcorner dem_2x2)) (reread binary64 10 (yllcorner dem_2x2))
               (reread binary64 10 (cellsize dem_2x2))
               (reread binary32 10 (float_value (no_data dem_2x2))) "L").
      + unfold fs_truncated. rewrite store_other by apply (hdr_flt_distinct "test").
        apply (written_pair_header "test" dem_2x2 fs0).
      + rewrite <- (app_nil_r (floating_header dem_2x2)). apply fscanf_floating_header; range.
      + apply store_same.
    - pose proof (read_cells_frame (coords (width dem_2x2) (height dem_2x2))
        (Array2d (width dem_2x2) (height dem_2x2) zeroed
           (reread binary64 10 (xllcorner dem_2x2)) (reread binary64 10 (yllcorner dem_2x2))
           (reread binary64 10 (cellsize dem_2x2))
           (float_of_ieee (reread binary32 10 (float_value (no_data dem_2x2)))) 0)
        {| pending := take 6 (floating_payload dem_2x2); good := true |}) as (Hw & Hh & _).
      split; [exact Hw | exact Hh]. }
  destruct Hrun as (g2 & Hrun & Hw & Hh).
  destruct (read_floating_data_short_file zeroed "test" dem_third fs_truncated fs_truncated
              0 g2 Hrun) as (payload & Hfile & Hcells).
  assert (Hsix : files fs_truncated !! ("test" +:+ ".flt")%string
                 = Some (take 6 (floating_payload dem_2x2))) by apply store_same.
  assert (Hlen : length payload = 6%nat).
  { rewrite Hsix in Hfile. inversion Hfile. vm_compute. reflexivity. }
  exists g2. split; [exact Hrun|].
  split; [change "test.flt"%string with ("test" +:+ ".flt")%string; rewrite Hsix;
          vm_compute; reflexivity|].
  split; [exact Hw|]. split; [exact Hh|].
  split; apply Hcells; rewrite ?Hw, ?Hh, ?Hlen; lia.
Defined.

(** The count of data cells is determined by the cells and the no-data
    value that the reader ends with. *)
Lemma read_cells_count_ext (l : list (Z * Z)) (ga gb : array2d float) (fa fb : istream) :
  NoDup l -> data_cells ga = data_cells gb ->
  no_data ga = no_data gb ->
  (forall x y, (x, y) ∈ l ->
     cell (fst (read_cells l (ga, fa))) x y = cell (fst (read_cells l (gb, fb))) x y) ->
  data_cells (fst (read_cells l (ga, fa))) = data_cells (fst (read_cells l (gb, fb))).
Proof.
  intros Hnd Hd Hn Hcells.
  pose proof (read_cells_count l ga fa Hnd) as Ha.
  pose proof (read_cells_count l gb fb Hnd) as Hb.
  pose proof (read_cells_frame l ga fa) as (_ & _ & _ & _ & _ & Hna & _).
  pose proof (read_cells_frame l gb fb) as (_ & _ & _ & _ & _ & Hnb & _).
  cbv zeta in *. rewrite Ha, Hb, Hd, Hna, Hnb, Hn. do 3 f_equal.
  apply filter_ext_in. intros [x y] Hin. by rewrite Hcells by by apply list_elem_of_In.
Qed.

(** X13: [read_floating_data] reads [4 * ncols * nrows] bytes of the data
    file and looks at nothing after them: bytes added at the end of a data
    file that is long enough change neither the cells nor the count of data
    cells, and are not reported. *)
Theorem read_floating_data_ignores_excess
    (fresh : Z -> Z -> float) (basename : string) (grid : array2d float)
    (fs1 fs2 : filesystem) (hdr payload extra : text) (r : Z) (g1 : array2d float) :
  files fs1 !! (basename +:+ ".hdr")%string = Some hdr ->
  files fs2 !! (basename +:+ ".hdr")%string = Some hdr ->
  files fs1 !! (basename +:+ ".flt")%string = Some payload ->
  files fs2 !! (basename +:+ ".flt")%string = Some (payload ++ extra) ->
  read_floating_data fresh basename grid fs1 = Returned (r, g1) fs1 ->
  4 * (Z.max 0 (width g1) * Z.max 0 (height g1)) <= Z.of_nat (length payload) ->
  exists g2,
    read_floating_data fresh basename grid fs2 = Returned (r, g2) fs2 /\
    width g2 = width g1 /\ height g2 = height g1 /\
    xllcorner g2 = xllcorner g1 /\ yllcorner g2 = yllcorner g1 /\
    cellsize g2 = cellsize g1 /\ no_data g2 = no_data g1 /\
    (forall x y, 0 <= x < width g1 -> 0 <= y < height g1 -> cell g2 x y = cell g1 x y) /\
    data_cells g2 = data_cells g1.
Proof.
  intros Hhdr1 Hhdr2 Hflt1 Hflt2 Hret Hlen.
  apply read_floating_data_returned in Hret
    as (hdr' & payload' & columns & rows & xll & yll & csz & nd & bo
        & Hhdr' & Hscan & Hflt' & -> & _ & Hg1).
  assert (hdr' = hdr) as -> by congruence.
  assert (payload' = payload) as -> by congruence.
  set (g0 := Array2d columns rows fresh xll yll csz (float_of_ieee nd) 0) in *.
  set (fin1 := {| pending := payload; good := true |}) in *.
  set (fin2 := {| pending := payload ++ extra; good := true |}).
  pose proof (read_cells_frame (coords columns rows) g0 fin1)
    as (Hw1 & Hh1 & Hx1 & Hy1 & Hc1 & Hn1 & _).
  pose proof (read_cells_frame (coords columns rows) g0 fin2)
    as (Hw2 & Hh2 & Hx2 & Hy2 & Hc2 & Hn2 & _).
  cbv zeta in *. rewrite <- Hg1 in *.
  change (width g0) with columns in *. change (height g0) with rows in *.
  rewrite Hw1, Hh1 in Hlen.
  assert (Hcells : forall x y, (x, y) ∈ coords columns rows ->
            cell (fst (read_cells (coords columns rows) (g0, fin2))) x y = cell g1 x y).
  { intros x y Hin. apply elem_of_coords in Hin as [Hx Hy].
    apply to_bytes_float_inj.
    destruct (read_cells_at (coords columns rows) g0 payload
                (Z.to_nat (y * columns + x)) x y (NoDup_coords _ _)
                (coords_lookup _ _ x y Hx Hy)) as [Hin1 _].
    destruct (read_cells_at (coords columns rows) g0 (payload ++ extra)
                (Z.to_nat (y * columns + x)) x y (NoDup_coords _ _)
                (coords_lookup _ _ x y Hx Hy)) as [Hin2 _].
    fold fin1 in Hin1. fold fin2 in Hin2. rewrite <- Hg1 in Hin1.
    assert (Hfit : (4 * (Z.to_nat (y * columns + x) + 1) <= length payload)%nat).
    { assert (y * columns + x + 1 <= columns * rows) by nia.
      assert (0 <= y * columns + x) by nia.
      rewrite !Z.max_r in Hlen by lia. lia. }
    rewrite Hin1, Hin2 by (rewrite ?length_app; lia).
    rewrite drop_app_le by lia. rewrite take_app_le; [done|].
    rewrite length_drop. lia. }
  exists (fst (read_cells (coords columns rows) (g0, fin2))).
  split_and!; try congruence.
  - by apply (read_floating_data_run fresh basename grid fs2 hdr (payload ++ extra)
                columns rows xll yll csz nd bo).
  - intros x y Hx Hy. apply Hcells. apply elem_of_coords. lia.
  - rewrite Hg1. apply read_cells_count_ext; [apply NoDup_coords | done | done |].
    intros x y Hin. rewrite <- Hg1. by apply Hcells.
Qed.

Lemma read_floating_data_ignores_excess_witness :
  exists g1 g2,
    read_floating_data zeroed "test" dem_third (written_pair "test" dem_2x2 fs0)
    = Returned (0, g1) (written_pair "test" dem_2x2 fs0) /\
    read_floating_data zeroed "test" dem_third fs_padded = Returned (0, g2) fs_padded /\
    (forall x y, 0 <= x < width g1 -> 0 <= y < height g1 -> cell g2 x y = cell g1 x y) /\
    data_cells g2 = data_cells g1.
Proof.
  pose proof (read_after_write zeroed "test" dem_2x2 dem_third fs0 ltac:(range) ltac:(range))
    as Hrun.
  pose proof (read_cells_frame (coords (width dem_2x2) (height dem_2x2))
    (Array2d (width dem_2x2) (height dem_2x2) zeroed
       (reread binary64 10 (xllcorner dem_2x2)) (reread binary64 10 (yllcorner dem_2x2))
       (reread binary64 10 (cellsize dem_2x2))
       (float_of_ieee (reread binary32 10 (float_value (no_data dem_2x2)))) 0)
    {| pending := floating_payload dem_2x2; good := true |}) as (Hw & Hh & _).
  cbv zeta in Hw, Hh.
  assert (H1 : files (written_pair "test" dem_2x2 fs0) !! ("test" +:+ ".hdr")%string
               = Some (floating_header dem_2x2)) by apply written_pair_header.
  assert (H2 : files fs_padded !! ("test" +:+ ".hdr")%string
               = Some (floating_header dem_2x2)).
  { unfold fs_padded. rewrite store_other by apply (hdr_flt_distinct "test").
    apply (written_pair_header "test" dem_2x2 fs0). }
  assert (H3 : files (written_pair "test" dem_2x2 fs0) !! ("test" +:+ ".flt")%string
               = Some (floating_payload dem_2x2)) by apply written_pair_payload.
  assert (H4 : files fs_padded !! ("test" +:+ ".flt")%string
               = Some (floating_payload dem_2x2 ++ lit "trailer")) by apply store_same.
  destruct (read_floating_data_ignores_excess zeroed "test" dem_third
              (written_pair "test" dem_2x2 fs0) fs_padded
              (floating_header dem_2x2) (floating_payload dem_2x2) (lit "trailer")
              0 _ H1 H2 H3 H4 Hrun)
    as (g2 & Hrun2 & _ & _ & _ & _ & _ & _ & Hcells & Hcount).
  - rewrite Hw, Hh. vm_compute. discriminate.
  - eexists _, g2. split; [exact Hrun|]. split; [exact Hrun2|].
    split; [exact Hcells | exact Hcount].
Defined.

(** X14: the value of [BYTEORDER] has no effect on what
    [read_floating_data] reads: it stores the first character of the value
    and never looks at it.  A pair whose header says [MSBFIRST], or gives any
    other label, is read exactly as the pair that says [LSBFIRST]. *)
Theorem read_floating_data_ignores_byteorder
    (fresh : Z -> Z -> float) (basename : string) (grid g : array2d float)
    (fs1 fs2 : filesystem) (payload label : text) :
  - 2 ^ 31 <= width g < 2 ^ 31 -> - 2 ^ 31 <= height g < 2 ^ 31 ->
  match label with c :: _ => is_space c = false | [] => False end ->
  files fs1 !! (basename +:+ ".hdr")%string = Some (floating_header g) ->
  files fs2 !! (basename +:+ ".hdr")%string
  = Some (floating_header_numbers g ++ entry "BYTEORDER" 1 label) ->
  files fs1 !! (basename +:+ ".flt")%string = Some payload ->
  files fs2 !! (basename +:+ ".flt")%string = Some payload ->
  exists g2,
    read_floating_data fresh basename grid fs1 = Returned (0, g2) fs1 /\
    read_floating_data fresh basename grid fs2 = Returned (0, g2) fs2.
Proof.
  intros Hw Hh Hlabel Hhdr1 Hhdr2 Hflt1 Hflt2.
  destruct label as [|c rest]; [done|].
  eexists. split.
  - apply (read_floating_data_run fresh basename grid fs1 _ payload
             (width g) (height g) (reread binary64 10 (xllcorner g))
             (reread binary64 10 (yllcorner g)) (reread binary64 10 (cellsize g))
             (reread binary32 10 (float_value (no_data g))) "L" Hhdr1); [|done].
    rewrite <- (app_nil_r (floating_header g)). by apply fscanf_floating_header.
  - apply (read_floating_data_run fresh basename grid fs2 _ payload
             (width g) (height g) (reread binary64 10 (xllcorner g))
             (reread binary64 10 (yllcorner g)) (reread binary64 10 (cellsize g))
             (reread binary32 10 (float_value (no_data g))) c Hhdr2); [|done].
    rewrite fscanf_header_format, scanf_floating_header_numbers by done.
    unfold entry. rewrite skip_space_key by done.
    rewrite scanf_key. cbn [replicate app]. by rewrite scanf_last_char.
Qed.

Lemma read_floating_data_ignores_byteorder_witness :
  exists g2,
    read_floating_data zeroed "test" dem_third (written_pair "test" dem_2x2 fs0)
    = Returned (0, g2) (written_pair "test" dem_2x2 fs0) /\
    read_floating_data zeroed "test" dem_third fs_msbfirst = Returned (0, g2) fs_msbfirst.
Proof.
  apply (read_floating_data_ignores_byteorder zeroed "test" dem_third dem_2x2
           (written_pair "test" dem_2x2 fs0) fs_msbfirst
           (floating_payload dem_2x2) (lit "MSBFIRST")).
  - range.
  - range.
  - reflexivity.
  - apply written_pair_header.
  - apply store_same.
  - apply written_pair_payload.
  - unfold fs_msbfirst. rewrite store_other by (symmetry; apply (hdr_flt_distinct "test")).
    apply (written_pair_payload "test" dem_2x2 fs0).
Defined.

Lemma ieee_neq_nan (a b : ieee) (s : bool) : b = NaN s -> ieee_neq a b = true.
Proof. intros ->. by destruct a. Qed.

(** X15: the reader tells data from no-data with [operator!=] of [float],
    and a NaN differs from every value, itself included.  So when the
    no-data value of the header is NaN, [read_floating_data] counts every
    cell as a data cell, the cells that hold NaN with the others. *)
Theorem read_floating_data_nan_no_data
    (fresh : Z -> Z -> float) (basename : string) (grid : array2d float)
    (fs fs' : filesystem) (r : Z) (g2 : array2d float) (s : bool) :
  read_floating_data fresh basename grid fs = Returned (r, g2) fs' ->
  float_value (no_data g2) = NaN s ->
  data_cells g2 = Z.max 0 (width g2) * Z.max 0 (height g2).
Proof.
  intros Hret Hnan.
  destruct (read_floating_data_cells fresh basename grid fs fs' r g2 Hret)
    as (payload & g0 & _ & Hg2 & _ & _ & Hzero).
  pose proof (read_cells_count (coords (width g2) (height g2)) g0
                {| pending := payload; good := true |} (NoDup_coords _ _)) as Hcount.
  cbv zeta in Hcount. rewrite <- Hg2, Hzero in Hcount. rewrite Hcount.
  rewrite (filter_ext _ (fun _ => true)).
  - assert (Hall : forall l : list (Z * Z), List.filter (fun _ => true) l = l)
      by (induction l as [|a l IH]; simpl; congruence).
    rewrite Hall, length_coords. nia.
  - intros [x y]. cbn [cell_neq float_cell]. by apply (ieee_neq_nan _ _ s).
Qed.

Lemma read_floating_data_nan_no_data_witness :
  exists g2,
    read_floating_data zeroed "test" dem_third (written_pair "test" dem_nan fs0)
    = Returned (0, g2) (written_pair "test" dem_nan fs0) /\
    float_value (no_data g2) = NaN false /\
    data_cells g2 = 4.
Proof.
  pose proof (read_after_write zeroed "test" dem_nan dem_third fs0 ltac:(range) ltac:(range))
    as Hrun.
  pose proof (read_cells_frame (coords (width dem_nan) (height dem_nan))
    (Array2d (width dem_nan) (height dem_nan) zeroed
       (reread binary64 10 (xllcorner dem_nan)) (reread binary64 10 (yllcorner dem_nan))
       (reread binary64 10 (cellsize dem_nan))
       (float_of_ieee (reread binary32 10 (float_value (no_data dem_nan)))) 0)
    {| pending := floating_payload dem_nan; good := true |}) as (Hw & Hh & _ & _ & _ & Hn & _).
  cbv zeta in Hw, Hh, Hn.
  assert (Hnan : float_value (float_of_ieee (reread binary32 10 (float_value (no_data dem_nan))))
                 = NaN false) by (vm_compute; reflexivity).
  eexists. split; [exact Hrun|]. split.
  - rewrite Hn. exact Hnan.
  - rewrite (read_floating_data_nan_no_data zeroed "test" dem_third _ _ 0 _ false Hrun).
    + rewrite Hw, Hh. reflexivity.
    + rewrite Hn. exact Hnan.
Defined.

(** ** Numbers that a numeral with [p] decimals gives exactly *)





Section RoundExact.
Variable f : format.
Variables (s : bool) (m : positive) (e num den : Z).
Hypothesis Hnum : 0 < num.
Hypothesis Hden : 0 < den.
(** [num / den = m * 2^e] *)
Hypothesis Hval : num * 2 ^ Z.max (- e) 0 = Z.pos m * 2 ^ Z.max e 0 * den.


End RoundExact.








(** The criterion is sufficient, not necessary: one tenth is no multiple
    of [2^-10], and is read back as it was all the same. *)
Example reread_known_values :
  decimals_exact binary64 10 (double_lit "123456.5") = true /\
  decimals_exact binary64 10 (double_lit "0.0009765625") = true /\
  decimals_exact binary32 10 (float_value (float_lit "-9999")) = true /\
  decimals_exact binary64 10 (double_lit "0.00048828125") = false /\
  reread binary64 10 (double_lit "0.00048828125") = double_lit "0.0004882812" /\
  decimals_exact binary64 10 (double_lit "0.1") = false /\
  reread binary64 10 (double_lit "0.1") = double_lit "0.1".
Proof. repeat split; vm_compute; reflexivity. Qed.

(** ** Numbers that lie further apart than the decimals written *)




Section RoundNear.
Variable f : format.
Variables (s : bool) (m : positive) (e num den : Z).
Hypothesis Hnum : 0 < num.
Hypothesis Hden : 0 < den.







Hypothesis Hcan : canonical f (Finite s m e) = true.
(** [num / den] is within a quarter of [2^e] of [m * 2^e]. *)
Hypothesis Hnear :
  - (den * 2 ^ Z.max e 0)
  <= 4 * (num * 2 ^ Z.max (- e) 0 - Z.pos m * (den * 2 ^ Z.max e 0))
  <= den * 2 ^ Z.max e 0.



End RoundNear.




(** ** The bits of a [float] *)









(** The two reasons on the sample grids: the corner of the projected grid
    is no multiple of [2^-10] but large, its cell size is a whole number; one
    third is neither, and is lost. *)
Example decimals_keep_known_values :
  decimals_exact binary64 10 (yllcorner dem_utm) = false /\
  decimals_cover binary64 10 (yllcorner dem_utm) = true /\
  decimals_exact binary64 10 (cellsize dem_utm) = true /\
  decimals_cover binary64 10 (cellsize dem_utm) = false /\
  decimals_keep binary64 10 (xllcorner dem_quarter) = true /\
  decimals_keep binary32 10 (float_value (no_data dem_utm)) = true /\
  decimals_keep binary64 10 (xllcorner dem_third) = false /\
  reread binary64 10 (xllcorner dem_third) <> xllcorner dem_third.
Proof. split_and!; vm_compute; (reflexivity || discriminate). Qed.

(** ** The two writers side by side, and the lines of an ArcGrid file *)

(** X17: for a cell type wider than one byte the two writers agree on the
    header: at precision 10 [output_ascii_data] writes, before the rows, the
    very entries that [write_floating_data] writes to the header file before
    its [BYTEORDER] entry. *)
Theorem writers_share_header
    {T : Type} `{CellType T} (grid_min grid_max : array2d T -> T)
    (filename basename : string) (output_grid : array2d T) (fs fs' : filesystem) :
  (sizeof T =? 1)%nat = false ->
  writable fs filename = true -> 4 <= str_length filename < 2 ^ 64 ->
  ~ ends_with ".omg" filename ->
  writable fs' (basename +:+ ".hdr") = true ->
  writable fs' (basename +:+ ".flt") = true ->
  exists fs1 fs2 header,
    output_ascii_data grid_min grid_max filename output_grid 10 fs = Returned 0 fs1 /\
    write_floating_data basename output_grid fs' = Returned 0 fs2 /\
    files fs1 !! filename = Some (header ++ rows_text [] (lit " ") 10 output_grid) /\
    files fs2 !! (basename +:+ ".hdr")%string
    = Some (header ++ entry "BYTEORDER" 1 (lit "LSBFIRST")).
Proof.
  intros Hsize Hw Hlen Hno Hh Hd.
  exists (store filename (arcgrid_text 10 output_grid) (store filename [] fs)),
    (written_pair basename output_grid fs'), (arcgrid_header 10 output_grid).
  split_and!.
  - by apply output_ascii_data_arcgrid.
  - by apply write_floating_data_spec.
  - apply store_same.
  - rewrite written_pair_header. f_equal.
    unfold floating_header, arcgrid_header, cell_field. rewrite Hsize.
    by rewrite <- !app_assoc.
Qed.

Lemma writers_share_header_witness :
  exists fs1 fs2 header,
    output_ascii_data no_range no_range "dem.asc" dem_2x2 10 fs0 = Returned 0 fs1 /\
    write_floating_data "test" dem_2x2 fs0 = Returned 0 fs2 /\
    files fs1 !! "dem.asc"%string = Some (header ++ rows_text [] (lit " ") 10 dem_2x2) /\
    files fs2 !! "test.hdr"%string = Some (header ++ entry "BYTEORDER" 1 (lit "LSBFIRST")).
Proof.
  assert (Hno : ~ ends_with ".omg" "dem.asc")
    by (rewrite ends_with_has_suffix; discriminate).
  apply (writers_share_header no_range no_range "dem.asc" "test" dem_2x2 fs0 fs0);
    [reflexivity | reflexivity | split; [discriminate | reflexivity] | exact Hno
     | reflexivity | reflexivity].
Defined.

Lemma split_lines_line (cur l t : text) :
  one_line l = true ->
  split_lines cur (l ++ newline :: t) = show (rev cur ++ l) :: split_lines [] t.
Proof.
  revert cur. induction l as [|c l IH]; intros cur Hl.
  - cbn [app split_lines]. rewrite Ascii.eqb_refl. by rewrite app_nil_r.
  - cbn [one_line forallb] in Hl. apply andb_prop in Hl as [Hc Hl].
    cbn [app split_lines]. destruct (Ascii.eqb c newline); [done|].
    rewrite IH by done. cbn [rev]. by rewrite <- app_assoc.
Qed.

(** Lines written one after the other are the lines of the text. *)
Lemma lines_of_lines (ls : list text) :
  Forall (fun l => one_line l = true) ls ->
  lines_of (concat (map line ls)) = map show ls.
Proof.
  unfold lines_of. induction 1 as [|l ls Hl _ IH]; [done|].
  cbn [map concat]. unfold line at 1. rewrite <- app_assoc. cbn [app].
  by rewrite split_lines_line, IH.
Qed.

Lemma one_line_app (a b : text) : one_line (a ++ b) = one_line a && one_line b.
Proof. apply forallb_app. Qed.

Lemma one_line_digits (ds : text) : forallb is_digit ds = true -> one_line ds = true.
Proof.
  unfold one_line. induction ds as [|d ds IH]; [done|]. cbn [forallb].
  intros [Hd Hds]%andb_prop. rewrite IH by done.
  apply is_digit_code in Hd.
  destruct (Ascii.eqb_spec d newline) as [->|]; [|done].
  change (code newline) with 10 in Hd. lia.
Qed.

Lemma one_line_dec_int (z : Z) : one_line (dec_int z) = true.
Proof.
  unfold dec_int. destruct (z <? 0).
  - change ("-"%char :: dec_nat (- z)) with ([ "-"%char ] ++ dec_nat (- z)).
    rewrite one_line_app, (one_line_digits (dec_nat (- z))); [done | apply dec_nat_digits].
  - apply one_line_digits, dec_nat_digits.
Qed.

Lemma one_line_float_text (p : Z) (v : ieee) : one_line (float_text true p v) = true.
Proof.
  unfold float_text.
  assert (Hfix : forall q, 0 <= q -> one_line (fmt_fixed q v) = true).
  { intros q Hq.
    assert (Hfin : match v with Zero _ | Finite _ _ _ => True | _ => False end ->
                   one_line (fmt_fixed q v) = true).
    { intros Hv. destruct (fmt_fixed_shape q v Hq Hv) as (ip & fp & -> & Hip & _ & Hfp & _).
      rewrite !one_line_app, (one_line_digits ip) by done.
      assert (Hsign : one_line (sign_text (sign_of v)) = true) by (by destruct (sign_of v)).
      rewrite Hsign. destruct (Z.to_nat q); [done|].
      change ("."%char :: fp) with ([ "."%char ] ++ fp).
      by rewrite one_line_app, (one_line_digits fp). }
    destruct v as [s|s|s|s m e]; try (by apply Hfin); by destruct s. }
  destruct (p <? 0) eqn:E; apply Hfix; [lia|]. apply Z.ltb_ge in E. lia.
Qed.

Section ArcGridLines.
Context {T : Type} `{CellType T}.
Variable precision : Z.
(** No cell is written with a line end in it. *)
Hypothesis cell_one_line : forall v : T, one_line (cell_field precision v) = true.

Lemma arcgrid_text_lines (g : array2d T) :
  arcgrid_text precision g
  = concat (map line (arcgrid_header_lines precision g ++ map (arcgrid_row_line precision g) (seqZ 0 (height g)))).
Proof.
  rewrite map_app, concat_app. unfold arcgrid_text. f_equal.
  - unfold arcgrid_header, arcgrid_header_lines, entry, line. cbn [map concat].
    rewrite <- !app_assoc. reflexivity.
  - unfold rows_text. rewrite map_map. reflexivity.
Qed.

Lemma arcgrid_lines_one_line (g : array2d T) :
  Forall (fun l => one_line l = true)
    (arcgrid_header_lines precision g ++ map (arcgrid_row_line precision g) (seqZ 0 (height g))).
Proof.
  apply Forall_app. split.
  - unfold arcgrid_header_lines.
    repeat constructor;
      rewrite !one_line_app, ?one_line_dec_int, ?one_line_float_text, ?cell_one_line; done.
  - apply Forall_forall. intros l Hin. apply list_elem_of_In, in_map_iff in Hin as (y & <- & _).
    unfold arcgrid_row_line. generalize (seqZ 0 (width g)). intros xs.
    induction xs as [|x xs IH]; [done|]. cbn [map concat].
    by rewrite !one_line_app, cell_one_line, IH.
Qed.
End ArcGridLines.

(** X18: an ArcGrid file written by [output_ascii_data] is made of whole
    lines: the six lines of the header, then one line for each row of the
    grid, holding the cells of the row, each followed by a space.  This
    holds of every cell type that is one byte wide, and so written through
    [int], or whose [operator<<] writes no line end, as that of [float]. *)
Theorem output_ascii_data_lines
    {T : Type} `{CellType T} (grid_min grid_max : array2d T -> T)
    (filename : string) (output_grid : array2d T) (precision : Z) (fs : filesystem) :
  (sizeof T =? 1)%nat = true \/
    (forall v : T, one_line (cell_text true precision v) = true) ->
  writable fs filename = true -> 4 <= str_length filename < 2 ^ 64 ->
  ~ ends_with ".omg" filename ->
  exists fs',
    output_ascii_data grid_min grid_max filename output_grid precision fs = Returned 0 fs' /\
    (lines_of <$> files fs' !! filename)
    = Some (map show (arcgrid_header_lines precision output_grid) ++
            map (fun y => show (arcgrid_row_line precision output_grid y))
                (seqZ 0 (height output_grid))) /\
    (length ∘ lines_of <$> files fs' !! filename)
    = Some (6 + Z.to_nat (height output_grid))%nat.
Proof.
  intros Hcell Hw Hlen Hno.
  assert (Hone : forall v : T, one_line (cell_field precision v) = true).
  { intros v. unfold cell_field. destruct Hcell as [-> | Hcell]; [|destruct (_ =? _)%nat].
    - apply one_line_dec_int.
    - apply one_line_dec_int.
    - apply Hcell. }
  eexists. split; [by apply output_ascii_data_arcgrid|].
  rewrite store_same. cbn [fmap option_fmap option_map compose].
  rewrite arcgrid_text_lines, lines_of_lines by (by apply arcgrid_lines_one_line).
  rewrite map_app, map_map. split; [done|].
  by rewrite length_app, !length_map, length_seqZ.
Qed.

Lemma output_ascii_data_lines_witness :
  exists fs',
    output_ascii_data no_range no_range "dem.asc" dem_2x2 2 fs0 = Returned 0 fs' /\
    (lines_of <$> files fs' !! "dem.asc"%string)
    = Some ["ncols" +:+ show [tab; tab] +:+ "2";
            "nrows" +:+ show [tab; tab] +:+ "2";
            "xllcorner" +:+ show [tab] +:+ "0.00";
            "yllcorner" +:+ show [tab] +:+ "0.00";
            "cellsize" +:+ show [tab] +:+ "1.00";
            "NODATA_value" +:+ show [tab] +:+ "-9999.00";
            "1.50 2.50 "; "3.50 4.50 "]%string.
Proof.
  assert (Hno : ~ ends_with ".omg" "dem.asc")
    by (rewrite ends_with_has_suffix; discriminate).
  destruct (output_ascii_data_lines no_range no_range "dem.asc" dem_2x2 2 fs0)
    as (fs' & Hret & Hlines & _);
    [right; intros v; apply one_line_float_text | reflexivity
     | split; [discriminate | reflexivity] | exact Hno |].
  exists fs'. split; [exact Hret|]. rewrite Hlines. vm_compute. reflexivity.
Defined.

(** ** A pair written from a grid of [char] *)

(** The first five entries of a header, whatever the cell type. *)
Lemma scanf_header_entries {T : Type} `{CellType T} (g : array2d T) (rest : text) :
  - 2 ^ 31 <= width g < 2 ^ 31 -> - 2 ^ 31 <= height g < 2 ^ 31 ->
  scanf header_directives
    (entry "ncols" 2 (dec_int (width g)) ++
     entry "nrows" 2 (dec_int (height g)) ++
     entry "xllcorner" 1 (float_text true 10 (xllcorner g)) ++
     entry "yllcorner" 1 (float_text true 10 (yllcorner g)) ++
     entry "cellsize" 1 (float_text true 10 (cellsize g)) ++ rest) []
  = scanf (map Lit (lit "NODATA_value") ++ Space :: ConvF :: Space ::
           map Lit (lit "BYTEORDER") ++ [Space; ConvC]) (skip_space rest)
      [VInt (width g); VInt (height g);
       VDouble (reread binary64 10 (xllcorner g));
       VDouble (reread binary64 10 (yllcorner g));
       VDouble (reread binary64 10 (cellsize g))].
Proof.
  intros Hw Hh. rewrite header_directives_eq.
  assert (Hlayout :
    entry "ncols" 2 (dec_int (width g)) ++
    entry "nrows" 2 (dec_int (height g)) ++
    entry "xllcorner" 1 (float_text true 10 (xllcorner g)) ++
    entry "yllcorner" 1 (float_text true 10 (yllcorner g)) ++
    entry "cellsize" 1 (float_text true 10 (cellsize g)) ++ rest =
    lit "ncols" ++ replicate 2 tab ++ dec_int (width g) ++ newline ::
    lit "nrows" ++ replicate 2 tab ++ dec_int (height g) ++ newline ::
    lit "xllcorner" ++ replicate 1 tab ++ fmt_fixed 10 (xllcorner g) ++ newline ::
    lit "yllcorner" ++ replicate 1 tab ++ fmt_fixed 10 (yllcorner g) ++ newline ::
    lit "cellsize" ++ replicate 1 tab ++ fmt_fixed 10 (cellsize g) ++ newline :: rest).
  { unfold entry. change (float_text true 10) with (fmt_fixed 10).
    generalize (fmt_fixed 10 (xllcorner g)) (fmt_fixed 10 (yllcorner g))
      (fmt_fixed 10 (cellsize g)) (dec_int (width g)) (dec_int (height g)).
    intros t1 t2 t3 t4 t5.
    repeat (rewrite <- app_assoc; cbn [app]). reflexivity. }
  rewrite Hlayout. clear Hlayout.
  rewrite scanf_key, scanf_int_entry, scanf_space_newline, skip_space_key by done.
  rewrite scanf_key, scanf_int_entry, scanf_space_newline, skip_space_key by done.
  rewrite scanf_key, (scanf_float_entry ConvLF binary64 VDouble),
    scanf_space_newline, skip_space_key by (done || lia || tauto).
  rewrite scanf_key, (scanf_float_entry ConvLF binary64 VDouble),
    scanf_space_newline, skip_space_key by (done || lia || tauto).
  rewrite scanf_key, (scanf_float_entry ConvLF binary64 VDouble),
    scanf_space_newline by (done || lia || tauto).
  reflexivity.
Qed.

(** A character outside ASCII begins no number. *)
Lemma scan_float_high (f : format) (c : ascii) (s : text) :
  128 <= code c -> scan_float f (c :: s) = None.
Proof.
  intros Hc.
  assert (Hne : forall x : ascii, code x < 128 -> Ascii.eqb c x = false).
  { intros x Hx. destruct (Ascii.eqb_spec c x) as [->|]; [lia | done]. }
  assert (Hne' : forall x : ascii, code x < 128 -> Ascii.eqb x c = false).
  { intros x Hx. rewrite Ascii.eqb_sym. by apply Hne. }
  assert (Hlow : to_lower c = c).
  { unfold to_lower. destruct (Z.leb_spec (code c) 90); [lia|]. by rewrite andb_false_r. }
  assert (Hdig : is_digit c = false).
  { unfold is_digit. destruct (Z.leb_spec (code c) 57); [lia|]. by rewrite andb_false_r. }
  unfold scan_float, lex_float, lex_sign.
  rewrite !Hne by (vm_compute; reflexivity).
  unfold lex_unsigned_float. cbn [lit list_ascii_of_string strip_prefix_ci].
  rewrite Hlow, !Hne' by (vm_compute; reflexivity).
  unfold lex_mantissa. cbn [span]. rewrite Hdig, Hne by (vm_compute; reflexivity).
  reflexivity.
Qed.

Lemma is_space_high (c : ascii) : 128 <= code c -> is_space c = false.
Proof.
  intros Hc. unfold is_space.
  destruct (Z.eqb_spec (code c) 32); [lia|].
  destruct (Z.leb_spec (code c) 13); [lia|]. by rewrite andb_false_r.
Qed.

Lemma scanf_float_mismatch (ds : list directive) (k : nat) (c : ascii) (s : text)
    (acc : list scanned) :
  128 <= code c ->
  scanf (Space :: ConvF :: ds) (replicate k tab ++ c :: s) acc = assigned acc.
Proof.
  intros Hc. cbn [scanf]. rewrite skip_space_tabs by (by apply is_space_high).
  cbn [skip_space]. rewrite is_space_high by done.
  unfold convert. by rewrite scan_float_high.
Qed.

(** X19: [write_floating_data] takes a grid of any cell type, but what it
    writes for a grid of [char] whose no-data value lies outside ASCII (a
    negative value, where [char] is signed) is no pair that
    [read_floating_data] reads: the no-data value stands in the header as a
    raw character, where the reader wants a number, and the reader ends with
    the header failure. *)
Theorem read_floating_data_rejects_char_pair
    (fresh : Z -> Z -> float) (basename : string) (g : array2d ascii)
    (grid : array2d float) (fs : filesystem) :
  writable fs (basename +:+ ".hdr") = true ->
  writable fs (basename +:+ ".flt") = true ->
  - 2 ^ 31 <= width g < 2 ^ 31 -> - 2 ^ 31 <= height g < 2 ^ 31 ->
  128 <= code (no_data g) ->
  exists fs1,
    write_floating_data basename g fs = Returned 0 fs1 /\
    read_floating_data fresh basename grid fs1 = Exited (-1) ReadingHeader fs1.
Proof.
  intros Hh Hd Hw Hht Hc.
  exists (written_pair basename g fs). split; [by apply write_floating_data_spec|].
  apply (read_floating_data_header_failure fresh basename grid _ (floating_header g)).
  - apply written_pair_header.
  - rewrite fscanf_header_format. unfold floating_header.
    rewrite scanf_header_entries by done.
    unfold entry at 1. rewrite <- !app_assoc.
    rewrite skip_space_key by done. rewrite scanf_key.
    cbn [cell_text char_cell app].
    rewrite scanf_float_mismatch by done. discriminate.
Qed.

Lemma read_floating_data_rejects_char_pair_witness :
  128 <= code (no_data flowdirs_2x2) /\ to_int (no_data flowdirs_2x2) = -1 /\
  exists fs1,
    write_floating_data "flow" flowdirs_2x2 fs0 = Returned 0 fs1 /\
    read_floating_data zeroed "flow" dem_2x2 fs1 = Exited (-1) ReadingHeader fs1.
Proof.
  split; [vm_compute; discriminate|]. split; [reflexivity|].
  apply (read_floating_data_rejects_char_pair zeroed "flow" flowdirs_2x2 dem_2x2 fs0);
    [reflexivity | reflexivity | range | range | vm_compute; discriminate].
Defined.
